(** * SOA rules engine: a shallow embedding of
      [src/soa_rules/soa_dsl_implementation.py] and of the transient
      validator in [src/soa_rules/corrected_tmaxfrac_analysis.py].

    Python [float]s are IEEE 754 binary64 numbers and are modelled by Rocq's
    primitive floats, so every comparison below is the one Python performs
    (NaN included).  Python objects that come out of a JSON document are
    modelled by [pyobj]; a Python call either returns or raises, which is
    the [outcome] monad. *)

From Stdlib Require Import Floats ZArith PArith Lia List String Ascii Bool.
Import ListNotations.
#[local] Set Warnings "-inexact-float,-register-all".
#[local] Open Scope string_scope.
#[local] Open Scope list_scope.

(* ===================================================================== *)
(** ** The Python runtime the engine relies on *)
(* ===================================================================== *)

(** Python comparison operators on floats, written as in the source. *)
Definition py_lt (a b : float) : bool := PrimFloat.ltb a b.   (* a < b  *)
Definition py_le (a b : float) : bool := PrimFloat.leb a b.   (* a <= b *)
Definition py_gt (a b : float) : bool := PrimFloat.ltb b a.   (* a > b  *)
Definition py_ge (a b : float) : bool := PrimFloat.leb b a.   (* a >= b *)
Definition py_eq (a b : float) : bool := PrimFloat.eqb a b.   (* a == b *)

(** [str.lower()] on ASCII text. *)
Definition lower_ascii (c : ascii) : ascii :=
  let n := nat_of_ascii c in
  if (65 <=? n)%nat && (n <=? 90)%nat then ascii_of_nat (n + 32) else c.

Fixpoint lower (s : string) : string :=
  match s with
  | EmptyString => EmptyString
  | String c r => String (lower_ascii c) (lower r)
  end.

(** [needle in hay] for two strings: substring test. *)
Fixpoint str_contains (needle hay : string) : bool :=
  prefix needle hay ||
  match hay with
  | EmptyString => false
  | String _ r => str_contains needle r
  end.

(** The loop inside [min] and [max]: the current item is replaced only by
    an item that is strictly better, so the first of the best items is kept. *)
Definition keep_best {A : Type} (better : A -> A -> bool) (rest : list A) (x0 : A) : A :=
  fold_left (fun best x => if better x best then x else best) rest x0.

(** Exceptions raised by the built-ins the engine calls. *)
Inductive pyexn : Type := ValueError | TypeError | KeyError | AttributeError.

(** A Python call returns a value or raises. *)
Inductive outcome (A : Type) : Type :=
| Returned (a : A)
| Raised (e : pyexn).
Arguments Returned {A} a.
Arguments Raised {A} e.

Definition bind {A B : Type} (c : outcome A) (k : A -> outcome B) : outcome B :=
  match c with
  | Returned a => k a
  | Raised e => Raised e
  end.

Notation "x <- c ;; k" := (bind c (fun x => k))
  (at level 61, c at next level, right associativity).

(** [try: body except (ValueError, TypeError): handler]. *)
Definition try_except_value_type {A : Type} (body : outcome A) (handler : outcome A)
  : outcome A :=
  match body with
  | Raised ValueError | Raised TypeError => handler
  | other => other
  end.

(** Insertion-ordered dictionaries: an entry is overwritten in place, a new
    key is appended, as Python's [dict] does. *)
Section Dict.
Context {K V : Type} (keq : K -> K -> bool).

Fixpoint dict_get (d : list (K * V)) (k : K) : option V :=
  match d with
  | [] => None
  | (k', v) :: r => if keq k' k then Some v else dict_get r k
  end.

Definition dict_contains (d : list (K * V)) (k : K) : bool :=
  match dict_get d k with Some _ => true | None => false end.

Fixpoint dict_set (d : list (K * V)) (k : K) (v : V) : list (K * V) :=
  match d with
  | [] => [(k, v)]
  | (k', v') :: r =>
      if keq k' k then (k', v) :: r else (k', v') :: dict_set r k v
  end.

(** No two keys of [d] are equal for [keq], and every key equals itself. *)
Fixpoint dict_ok (d : list (K * V)) : bool :=
  match d with
  | [] => true
  | (k, _) :: r => keq k k && negb (dict_contains r k) && dict_ok r
  end.
End Dict.

Definition sdict (V : Type) : Type := list (string * V).
Definition sget {V} (d : sdict V) (k : string) : option V := dict_get String.eqb d k.
Definition scontains {V} (d : sdict V) (k : string) : bool := dict_contains String.eqb d k.
Definition sset {V} (d : sdict V) (k : string) (v : V) : sdict V := dict_set String.eqb d k v.

(** Python objects as they come out of [json.load]: JSON numbers are read as
    binary64 floats and mapping keys are strings. *)
Inductive pyobj : Type :=
| PNone
| PBool (b : bool)
| PFloat (f : float)
| PStr (s : string)
| PList (l : list pyobj)
| PDict (d : list (string * pyobj)).

(** [key in o]. *)
Definition py_in (key : string) (o : pyobj) : outcome bool :=
  match o with
  | PDict d => Returned (scontains d key)
  | PStr s => Returned (str_contains key s)
  | PList l =>
      Returned (existsb (fun e => match e with PStr s => String.eqb s key | _ => false end) l)
  | _ => Raised TypeError
  end.

(** [o[key]] with a string subscript. *)
Definition py_getitem (o : pyobj) (key : string) : outcome pyobj :=
  match o with
  | PDict d => match sget d key with Some v => Returned v | None => Raised KeyError end
  | _ => Raised TypeError
  end.

(** [o.get(key, default)]. *)
Definition py_get (o : pyobj) (key : string) (default : pyobj) : outcome pyobj :=
  match o with
  | PDict d => Returned (match sget d key with Some v => v | None => default end)
  | _ => Raised AttributeError
  end.

(** [o.items()]. *)
Definition py_items (o : pyobj) : outcome (list (string * pyobj)) :=
  match o with
  | PDict d => Returned d
  | _ => Raised AttributeError
  end.

(** [len(o)]. *)
Definition py_len (o : pyobj) : outcome nat :=
  match o with
  | PList l => Returned (List.length l)
  | PDict d => Returned (List.length d)
  | PStr s => Returned (String.length s)
  | _ => Raised TypeError
  end.

(** [o.lower()]: only strings have the method. *)
Definition py_lower (o : pyobj) : outcome string :=
  match o with
  | PStr s => Returned (lower s)
  | _ => Raised AttributeError
  end.

(* ===================================================================== *)
(** ** [soa_dsl_implementation.py]: data model *)
(* ===================================================================== *)

Inductive Severity : Type := HIGH | MEDIUM | LOW.

Definition Severity_value (s : Severity) : string :=
  match s with HIGH => "high" | MEDIUM => "medium" | LOW => "low" end.

(** [Severity(o)]: look the member up by its value. *)
Definition Severity_of (o : pyobj) : outcome Severity :=
  match o with
  | PStr s =>
      if String.eqb s "high" then Returned HIGH
      else if String.eqb s "medium" then Returned MEDIUM
      else if String.eqb s "low" then Returned LOW
      else Raised ValueError
  | _ => Raised ValueError
  end.

Inductive ParameterType : Type := VOLTAGE | CURRENT | TEMPERATURE | GENERAL.

Definition ParameterType_value (t : ParameterType) : string :=
  match t with
  | VOLTAGE => "voltage" | CURRENT => "current"
  | TEMPERATURE => "temperature" | GENERAL => "general"
  end.

(** [ParameterType(o)]. *)
Definition ParameterType_of (o : pyobj) : outcome ParameterType :=
  match o with
  | PStr s =>
      if String.eqb s "voltage" then Returned VOLTAGE
      else if String.eqb s "current" then Returned CURRENT
      else if String.eqb s "temperature" then Returned TEMPERATURE
      else if String.eqb s "general" then Returned GENERAL
      else Raised ValueError
  | _ => Raised ValueError
  end.

Inductive ComparisonOperator : Type :=
| LESS_THAN | LESS_EQUAL | GREATER_THAN | GREATER_EQUAL | EQUAL | NOT_EQUAL.

Record Condition : Type := {
  cond_parameter : string;
  cond_operator : ComparisonOperator;
  cond_value : pyobj;
  cond_description : string
}.

(** [values] is the tmaxfrac table: a dict keyed by floats, in insertion
    order.  The fields filled by [param_data.get(...)] hold whatever object
    the document carries. *)
Record SOAParameter : Type := {
  name : pyobj;
  severity : Severity;
  param_type : ParameterType;
  unit : pyobj;
  values : list (float * pyobj);
  conditions : list Condition;
  description : pyobj
}.

Record DeviceRules : Type := {
  device_type : pyobj;
  subcategory : pyobj;
  tmaxfrac_levels : pyobj;
  parameters : sdict SOAParameter;
  metadata : pyobj
}.

Record SOARulesEngine : Type := {
  devices : sdict DeviceRules;
  global_config : sdict pyobj
}.

(** The message built by [validate_conditions], kept as its fields:
    [f"{param_name}: {test_val} violates {severity} limit of {limit} {unit}
    at tmaxfrac={tmaxfrac}"]. *)
Record Violation : Type := {
  v_param_name : string;
  v_test_val : float;
  v_severity : string;
  v_limit : pyobj;
  v_unit : pyobj;
  v_tmaxfrac : float
}.

(** One entry of [get_parameter_limits]. *)
Record LimitInfo : Type := {
  li_value : pyobj;
  li_unit : pyobj;
  li_severity : string;
  li_type : string;
  li_no_limit : bool
}.

(** The dict returned by [check_soa_compliance]: either [{'error': ...}] or
    the full record. *)
Record Compliance : Type := {
  c_device : string;
  c_tmaxfrac : float;
  c_test_values : sdict float;
  c_violations : list Violation;
  c_compliant : bool;
  c_limits : sdict LimitInfo
}.

Inductive ComplianceResult : Type :=
| ComplianceError (device_key : string)   (* {'error': 'Device ... not found'} *)
| ComplianceOk (c : Compliance).

Record Summary : Type := {
  total_scenarios : nat;
  passed : nat;
  failed : nat
}.

(** A result of the report carries the ['scenario_id'] added to it. *)
Record ScenarioResult : Type := {
  scenario_id : nat;
  scenario_result : ComplianceResult
}.

Record Report : Type := {
  r_device : string;
  r_summary : Summary;
  r_results : list ScenarioResult
}.

Inductive ReportResult : Type :=
| ReportError (device_key : string)
| ReportOk (r : Report).

(* ===================================================================== *)
(** ** [soa_dsl_implementation.py]: operations *)
(* ===================================================================== *)

(** [min(items, key=f)]: the first item whose image is not above any other;
    a later item replaces the current one only when strictly smaller. *)
Definition py_min_by {A : Type} (f : A -> float) (items : list A) : option A :=
  match items with
  | [] => None
  | x0 :: rest => Some (keep_best (fun x best => py_lt (f x) (f best)) rest x0)
  end.

(** [abs(x - tmaxfrac)]. *)
Definition distance (tmaxfrac x : float) : float := PrimFloat.abs (x - tmaxfrac).

Definition fget {V} (d : list (float * V)) (k : float) : option V := dict_get py_eq d k.
Definition fset {V} (d : list (float * V)) (k : float) (v : V) := dict_set py_eq d k v.

(** [closest] is chosen among the key objects of [self.values], so
    [self.values[closest]] is the value stored with it: the minimum is taken
    over the entries, ordered by the distance of their keys. *)
Definition get_value_at_tmaxfrac (self : SOAParameter) (tmaxfrac : float) : outcome pyobj :=
  match fget (values self) tmaxfrac with
  | Some v => Returned v                       (* tmaxfrac in self.values *)
  | None =>
      match py_min_by (fun entry => distance tmaxfrac (fst entry)) (values self) with
      | Some closest => Returned (snd closest) (* if self.values: *)
      | None => Returned PNone
      end
  end.

Section Engine.

(** Built-ins that are not part of this repository: [repr] of an object that
    is not a string, and the parser behind [float(text)] ([None] stands for
    its [ValueError]). *)
Variable py_repr : pyobj -> string.
Variable float_of_str : string -> option float.

(** [str(o)]. *)
Definition py_str (o : pyobj) : string :=
  match o with
  | PStr s => s
  | PNone => "None"
  | PBool true => "True"
  | PBool false => "False"
  | other => py_repr other
  end.

(** [float(o)]. *)
Definition py_float (o : pyobj) : outcome float :=
  match o with
  | PFloat f => Returned f
  | PBool b => Returned (if b then 1%float else 0%float)
  | PStr s => match float_of_str s with Some f => Returned f | None => Raised ValueError end
  | _ => Raised TypeError
  end.

Definition is_no_limit (self : SOAParameter) (tmaxfrac : float) : outcome bool :=
  value <- get_value_at_tmaxfrac self tmaxfrac ;;
  Returned (String.eqb (lower (py_str value)) "no-limit").

(** The body of the [try] block of [validate_value]; [self.name.lower()] is
    evaluated once here, every evaluation in the source giving the same
    result. *)
Definition compare_to_limit (self : SOAParameter) (test_value : float) (limit : pyobj)
  : outcome bool :=
  limit_val <- py_float limit ;;
  lname <- py_lower (name self) ;;
  if str_contains "high" lname || str_contains "max" lname
  then Returned (py_le test_value limit_val)
  else if str_contains "low" lname || str_contains "min" lname
  then Returned (py_ge test_value limit_val)
  else Returned (py_le test_value limit_val).

Definition validate_value (self : SOAParameter) (test_value tmaxfrac : float)
  : outcome bool :=
  limit <- get_value_at_tmaxfrac self tmaxfrac ;;
  no_limit <- is_no_limit self tmaxfrac ;;
  if no_limit then Returned true
  else try_except_value_type (compare_to_limit self test_value limit) (Returned true).

(** Binding [**kwargs] at a call whose other arguments fill [formals]: a
    keyword that names one of them is a [TypeError] ("got multiple values
    for argument"). *)
Definition bind_kwargs (formals : list string) (kwargs : sdict float)
  : outcome (sdict float) :=
  if existsb (fun kv => existsb (String.eqb (fst kv)) formals) kwargs
  then Raised TypeError
  else Returned kwargs.

(** The loop of [validate_conditions] over [self.parameters.items()], with
    the list [violations] it appends to. *)
Fixpoint validate_conditions_loop (items : list (string * SOAParameter))
    (tmaxfrac : float) (test_values : sdict float) (violations : list Violation)
  : outcome (list Violation) :=
  match items with
  | [] => Returned violations
  | (param_name, param) :: rest =>
      match sget test_values param_name with
      | Some test_val =>
          ok <- validate_value param test_val tmaxfrac ;;
          if negb ok then
            limit <- get_value_at_tmaxfrac param tmaxfrac ;;
            validate_conditions_loop rest tmaxfrac test_values
              (violations ++
               [{| v_param_name := param_name; v_test_val := test_val;
                   v_severity := Severity_value (severity param);
                   v_limit := limit; v_unit := unit param;
                   v_tmaxfrac := tmaxfrac |}])
          else validate_conditions_loop rest tmaxfrac test_values violations
      | None => validate_conditions_loop rest tmaxfrac test_values violations
      end
  end.

Definition validate_conditions (self : DeviceRules) (tmaxfrac : float)
    (test_values : sdict float) : outcome (list Violation) :=
  validate_conditions_loop (parameters self) tmaxfrac test_values [].

Fixpoint get_parameter_limits_loop (items : list (string * SOAParameter))
    (tmaxfrac : float) (limits : sdict LimitInfo) : outcome (sdict LimitInfo) :=
  match items with
  | [] => Returned limits
  | (param_name, param) :: rest =>
      value <- get_value_at_tmaxfrac param tmaxfrac ;;
      no_limit <- is_no_limit param tmaxfrac ;;
      get_parameter_limits_loop rest tmaxfrac
        (sset limits param_name
           {| li_value := value; li_unit := unit param;
              li_severity := Severity_value (severity param);
              li_type := ParameterType_value (param_type param);
              li_no_limit := no_limit |})
  end.

Definition get_parameter_limits (self : DeviceRules) (tmaxfrac : float)
  : outcome (sdict LimitInfo) :=
  get_parameter_limits_loop (parameters self) tmaxfrac [].

(** [SOARulesEngine()]. *)
Definition SOARulesEngine_init : SOARulesEngine :=
  {| devices := [];
     global_config :=
       [("version", PStr "1.0"); ("technology", PStr "smos10hv");
        ("temperature_scaling",
         PDict [("enabled", PBool true); ("method", PStr "tmaxfrac")])] |}.

Definition add_device (self : SOARulesEngine) (device_key : string) (rules : DeviceRules)
  : SOARulesEngine :=
  {| devices := sset (devices self) device_key rules;
     global_config := global_config self |}.

(** [check_soa_compliance(device_key, tmaxfrac, **test_values)]; the call
    [device_rules.validate_conditions(tmaxfrac, **test_values)] binds the
    keywords against [self] and [tmaxfrac]. *)
Definition check_soa_compliance (self : SOARulesEngine) (device_key : string)
    (tmaxfrac : float) (test_values : sdict float) : outcome ComplianceResult :=
  match sget (devices self) device_key with
  | None => Returned (ComplianceError device_key)
  | Some device_rules =>
      kw <- bind_kwargs ["self"; "tmaxfrac"] test_values ;;
      violations <- validate_conditions device_rules tmaxfrac kw ;;
      limits <- get_parameter_limits device_rules tmaxfrac ;;
      Returned (ComplianceOk
        {| c_device := device_key; c_tmaxfrac := tmaxfrac;
           c_test_values := test_values; c_violations := violations;
           c_compliant := Nat.eqb (List.length violations) 0;
           c_limits := limits |})
  end.

(** [scenario.get('tmaxfrac', 0.1)]. *)
Definition scenario_tmaxfrac (scenario : sdict float) : float :=
  match sget scenario "tmaxfrac" with Some t => t | None => 0.1%float end.

(** [{k: v for k, v in scenario.items() if k != 'tmaxfrac'}]. *)
Definition scenario_test_values (scenario : sdict float) : sdict float :=
  fold_left
    (fun acc kv => if negb (String.eqb (fst kv) "tmaxfrac") then sset acc (fst kv) (snd kv)
                   else acc)
    scenario [].

(** The loop of [generate_validation_report] over [enumerate(test_scenarios)]
    with the mutable [results] and [summary]. *)
Fixpoint generate_validation_report_loop (self : SOARulesEngine) (device_key : string)
    (scenarios : list (sdict float)) (i : nat)
    (results : list ScenarioResult) (summary : Summary)
  : outcome (list ScenarioResult * Summary) :=
  match scenarios with
  | [] => Returned (results, summary)
  | scenario :: rest =>
      let tmaxfrac := scenario_tmaxfrac scenario in
      let test_values := scenario_test_values scenario in
      kw <- bind_kwargs ["self"; "device_key"; "tmaxfrac"] test_values ;;
      result <- check_soa_compliance self device_key tmaxfrac kw ;;
      let results' := results ++ [{| scenario_id := i; scenario_result := result |}] in
      match result with
      | ComplianceOk c =>
          generate_validation_report_loop self device_key rest (S i) results'
            (if c_compliant c
             then {| total_scenarios := total_scenarios summary;
                     passed := passed summary + 1; failed := failed summary |}
             else {| total_scenarios := total_scenarios summary;
                     passed := passed summary; failed := failed summary + 1 |})
      | ComplianceError _ => Raised KeyError      (* result['compliant'] *)
      end
  end.

Definition generate_validation_report (self : SOARulesEngine) (device_key : string)
    (test_scenarios : list (sdict float)) : outcome ReportResult :=
  if negb (scontains (devices self) device_key)
  then Returned (ReportError device_key)
  else
    rs <- generate_validation_report_loop self device_key test_scenarios 0 []
            {| total_scenarios := List.length test_scenarios; passed := 0; failed := 0 |} ;;
    Returned (ReportOk {| r_device := device_key; r_summary := snd rs;
                          r_results := fst rs |}).

(** *** Export *)

(** [{str(k): v for k, v in param.values.items()}]. *)
Definition export_values (table : list (float * pyobj)) : sdict pyobj :=
  fold_left (fun acc kv => sset acc (py_str (PFloat (fst kv))) (snd kv)) table [].

Definition export_parameter (param : SOAParameter) : pyobj :=
  PDict [("name", name param);
         ("severity", PStr (Severity_value (severity param)));
         ("type", PStr (ParameterType_value (param_type param)));
         ("unit", unit param);
         ("values", PDict [("multi_level", PDict (export_values (values param)))]);
         ("description", description param)].

(** The inner loop: [device_data['parameters'][param_name] = {...}]. *)
Definition export_parameters (items : sdict SOAParameter) : sdict pyobj :=
  fold_left (fun acc kv => sset acc (fst kv) (export_parameter (snd kv))) items [].

Definition export_device (device_rules : DeviceRules) : outcome pyobj :=
  n <- py_len (tmaxfrac_levels device_rules) ;;
  Returned (PDict
    [("device_type", device_type device_rules);
     ("subcategory", subcategory device_rules);
     ("multi_level",
      PDict [("enabled", PBool (Nat.ltb 1 n));
             ("tmaxfrac_levels", tmaxfrac_levels device_rules)]);
     ("parameters", PDict (export_parameters (parameters device_rules)))]).

(** The outer loop: [devices_data[device_key] = device_data]. *)
Fixpoint export_devices (items : sdict DeviceRules) (devices_data : sdict pyobj)
  : outcome (sdict pyobj) :=
  match items with
  | [] => Returned devices_data
  | (device_key, device_rules) :: rest =>
      device_data <- export_device device_rules ;;
      export_devices rest (sset devices_data device_key device_data)
  end.

(** [d[key]] on a dict of the engine. *)
Definition sgetitem (d : sdict pyobj) (key : string) : outcome pyobj :=
  match sget d key with Some v => Returned v | None => Raised KeyError end.

Definition export_to_json (self : SOARulesEngine) : outcome pyobj :=
  devices_data <- export_devices (devices self) [] ;;
  version <- sgetitem (global_config self) "version" ;;
  technology <- sgetitem (global_config self) "technology" ;;
  Returned (PDict
    [("soa_rules",
      PDict [("version", version);
             ("technology", technology);
             ("global_config", PDict (global_config self));
             ("devices", PDict devices_data)])]).

(** *** Load *)

(** A method that mutates the engine: the engine it leaves behind comes with
    its outcome, also when it raises. *)
Definition stateful (A : Type) : Type := SOARulesEngine -> SOARulesEngine * outcome A.

Definition sret {A} (a : A) : stateful A := fun self => (self, Returned a).

Definition lift {A} (c : outcome A) : stateful A := fun self => (self, c).

Definition sbind {A B} (c : stateful A) (k : A -> stateful B) : stateful B :=
  fun self =>
    match c self with
    | (self', Returned a) => k a self'
    | (self', Raised e) => (self', Raised e)
    end.

Notation "x <~ c ;; k" := (sbind c (fun x => k))
  (at level 61, c at next level, right associativity).

(** [dict.update] with an argument that is a non-empty list follows
    Python's sequence-of-pairs protocol, a built-in left as a parameter. *)
Variable update_from_pairs : sdict pyobj -> list pyobj -> sdict pyobj * outcome pyobj.

(** [self.global_config.update(other)]. *)
Definition update_global_config (other : pyobj) : stateful pyobj :=
  fun self =>
    match other with
    | PDict d =>
        ({| devices := devices self;
            global_config :=
              fold_left (fun acc kv => sset acc (fst kv) (snd kv)) d (global_config self) |},
         Returned PNone)
    | PStr EmptyString | PList [] => (self, Returned PNone)
    | PStr _ => (self, Raised ValueError)
    | PList l =>
        let (gc, r) := update_from_pairs (global_config self) l in
        ({| devices := devices self; global_config := gc |}, r)
    | _ => (self, Raised TypeError)
    end.

(** [{float(k): v for k, v in ml_values.items()}]. *)
Fixpoint values_from_items (items : list (string * pyobj)) (table : list (float * pyobj))
  : outcome (list (float * pyobj)) :=
  match items with
  | [] => Returned table
  | (k, v) :: rest =>
      f <- py_float (PStr k) ;;
      values_from_items rest (fset table f v)
  end.

(** The body of the loop over [device_data['parameters'].items()]. *)
Definition load_parameter (param_name : string) (param_data : pyobj)
  : outcome SOAParameter :=
  has_values <- py_in "values" param_data ;;
  has_multi_level <-
    (if has_values
     then vs <- py_getitem param_data "values" ;; py_in "multi_level" vs
     else Returned false) ;;
  table <-
    (if has_multi_level
     then vs <- py_getitem param_data "values" ;;
          ml_values <- py_getitem vs "multi_level" ;;
          match ml_values with
          | PDict items => values_from_items items []
          | _ => Returned []
          end
     else Returned []) ;;
  nm <- py_get param_data "name" (PStr param_name) ;;
  sv <- py_get param_data "severity" (PStr "high") ;;
  sev <- Severity_of sv ;;
  ty <- py_get param_data "type" (PStr "general") ;;
  pty <- ParameterType_of ty ;;
  u <- py_get param_data "unit" (PStr "") ;;
  desc <- py_get param_data "description" (PStr "") ;;
  Returned {| name := nm; severity := sev; param_type := pty; unit := u;
              values := table; conditions := []; description := desc |}.

Fixpoint load_parameters (items : list (string * pyobj)) (parameters : sdict SOAParameter)
  : outcome (sdict SOAParameter) :=
  match items with
  | [] => Returned parameters
  | (param_name, param_data) :: rest =>
      param <- load_parameter param_name param_data ;;
      load_parameters rest (sset parameters param_name param)
  end.

(** Everything [_load_device_from_dict] does before [self.add_device]. *)
Definition device_rules_from_dict (device_data : pyobj) : outcome DeviceRules :=
  has_parameters <- py_in "parameters" device_data ;;
  params <-
    (if has_parameters
     then ps <- py_getitem device_data "parameters" ;;
          items <- py_items ps ;;
          load_parameters items []
     else Returned []) ;;
  dt <- py_get device_data "device_type" (PStr "unknown") ;;
  sc <- py_get device_data "subcategory" (PStr "general") ;;
  ml <- py_get device_data "multi_level" (PDict []) ;;
  levels <- py_get ml "tmaxfrac_levels" (PList []) ;;
  md <- py_get device_data "metadata" (PDict []) ;;
  Returned {| device_type := dt; subcategory := sc; tmaxfrac_levels := levels;
              parameters := params; metadata := md |}.

Definition _load_device_from_dict (device_key : string) (device_data : pyobj)
  : stateful pyobj :=
  device_rules <~ lift (device_rules_from_dict device_data) ;;
  fun self => (add_device self device_key device_rules, Returned PNone).

Fixpoint load_devices (items : list (string * pyobj)) : stateful pyobj :=
  match items with
  | [] => sret PNone
  | (device_key, device_data) :: rest =>
      _ <~ _load_device_from_dict device_key device_data ;;
      load_devices rest
  end.

Definition load_from_json (json_data : pyobj) : stateful pyobj :=
  has_rules <~ lift (py_in "soa_rules" json_data) ;;
  if has_rules then
    rules_data <~ lift (py_getitem json_data "soa_rules") ;;
    has_config <~ lift (py_in "global_config" rules_data) ;;
    _ <~ (if has_config
          then gc <~ lift (py_getitem rules_data "global_config") ;;
               update_global_config gc
          else sret PNone) ;;
    has_devices <~ lift (py_in "devices" rules_data) ;;
    if has_devices then
      ds <~ lift (py_getitem rules_data "devices") ;;
      items <~ lift (py_items ds) ;;
      load_devices items
    else sret PNone
  else sret PNone.

End Engine.

(* ===================================================================== *)
(** ** [corrected_tmaxfrac_analysis.py]: transient time limits *)
(* ===================================================================== *)

(** [voltage_limit: Union[float, str]]. *)
Inductive limit : Type :=
| LimFloat (f : float)
| LimStr (s : string).

(** [max(iterable)] on floats: [ValueError] on an empty iterable, otherwise
    the first maximal item (a later item replaces the current one only when
    strictly greater). *)
Definition py_max (xs : list float) : outcome float :=
  match xs with
  | [] => Raised ValueError
  | x0 :: rest => Returned (keep_best py_gt rest x0)
  end.

(** The executable class of the module. *)
Module TimeLimit.
Section TimeLimit.
Variable float_of_str : string -> option float.

Record TransientTimeLimit : Type := {
  voltage_limit : limit;
  max_time_fraction : float;
  description : string
}.

(** [float(self.voltage_limit)], [None] standing for the [ValueError]. *)
Definition float_of_limit (l : limit) : option float :=
  match l with
  | LimFloat f => Some f
  | LimStr s => float_of_str s
  end.

Definition is_no_limit_str (l : limit) : bool :=
  match l with
  | LimStr s => String.eqb (lower s) "no-limit"
  | LimFloat _ => false
  end.

Definition is_violation (self : TransientTimeLimit)
    (applied_voltage time_duration total_transient_time : float) : bool :=
  if is_no_limit_str (voltage_limit self) then false
  else
    match float_of_limit (voltage_limit self) with
    | None => false
    | Some voltage_limit_val =>
        let voltage_violated := py_gt applied_voltage voltage_limit_val in
        if negb voltage_violated then false
        else if py_eq (max_time_fraction self) 0 then true
        else
          let max_allowed_time := (max_time_fraction self * total_transient_time)%float in
          py_gt time_duration max_allowed_time
    end.

End TimeLimit.
End TimeLimit.

(** The classes of the transient-aware DSL the module emits. *)
Module Transient.
Section Transient.
Variable float_of_str : string -> option float.

Record TransientConstraint : Type := {
  voltage_limit : limit;
  max_time_fraction : float;
  description : string
}.

(** The two messages of [validate_transient], kept as the numbers they
    format; both are non-empty strings, hence true in [if violation:]. *)
Inductive TransientMessage : Type :=
| Critical (voltage_limit_val : float)
| TimeViolation (voltage_limit_val duration max_allowed_time max_time_fraction : float).

(** The first block of [validate_transient]: the numeric threshold, or
    [None] where the method returns [None] at once. *)
Definition threshold_of (l : limit) : option float :=
  match l with
  | LimStr s =>
      if String.eqb (lower s) "no-limit" then None
      else float_of_str s                      (* try: float(...) except: return None *)
  | LimFloat f => Some f
  end.

Definition validate_transient (self : TransientConstraint)
    (applied_voltage duration total_time : float) : option TransientMessage :=
  match threshold_of (voltage_limit self) with
  | None => None
  | Some voltage_limit_val =>
      if py_lt applied_voltage voltage_limit_val then None
      else if py_eq (max_time_fraction self) 0 then Some (Critical voltage_limit_val)
      else
        let max_allowed_time := (max_time_fraction self * total_time)%float in
        if py_gt duration max_allowed_time
        then Some (TimeViolation voltage_limit_val duration max_allowed_time
                     (max_time_fraction self))
        else None
  end.

Record TransientAwareParameter : Type := {
  name : string;
  severity : string;
  param_type : string;
  unit : string;
  transient_constraints : list TransientConstraint;
  param_description : string
}.

(** A violation [f"{self.name}: {violation}"]. *)
Definition TransientViolation : Type := (string * TransientMessage)%type.

(** [for constraint in self.transient_constraints: ...] for one sample. *)
Fixpoint check_constraints (self_name : string) (constraints : list TransientConstraint)
    (voltage duration total_time : float) (violations : list TransientViolation)
  : list TransientViolation :=
  match constraints with
  | [] => violations
  | constraint :: rest =>
      match validate_transient constraint voltage duration total_time with
      | Some violation =>
          check_constraints self_name rest voltage duration total_time
            (violations ++ [(self_name, violation)])
      | None => check_constraints self_name rest voltage duration total_time violations
      end
  end.

(** [for voltage, start_time, end_time in voltage_profile: ...]. *)
Fixpoint check_samples (self : TransientAwareParameter)
    (voltage_profile : list (float * float * float)) (total_time : float)
    (violations : list TransientViolation) : list TransientViolation :=
  match voltage_profile with
  | [] => violations
  | (voltage, start_time, end_time) :: rest =>
      let duration := (end_time - start_time)%float in
      check_samples self rest total_time
        (check_constraints (name self) (transient_constraints self)
           voltage duration total_time violations)
  end.

Definition validate_transient_profile (self : TransientAwareParameter)
    (voltage_profile : list (float * float * float)) : outcome (list TransientViolation) :=
  match voltage_profile with
  | [] => Returned []                           (* if not voltage_profile *)
  | _ =>
      total_time <- py_max (map snd voltage_profile) ;;
      Returned (check_samples self voltage_profile total_time [])
  end.

(** The devices of [TransientSOAEngine] are only used through their
    [parameters] attribute. *)
Record TransientDevice : Type := {
  parameters : sdict TransientAwareParameter
}.

Record TransientSOAEngine : Type := {
  devices : sdict TransientDevice
}.

Record Simulation : Type := {
  s_device : string;
  s_violations : list TransientViolation;
  s_compliant : bool;
  s_total_violations : nat
}.

Inductive SimulationResult : Type :=
| SimulationError (device_key : string)
| SimulationOk (s : Simulation).

(** [for param_name, voltage_profile in parameter_profiles.items(): ...]. *)
Fixpoint validate_profiles (device : TransientDevice)
    (items : list (string * list (float * float * float)))
    (all_violations : list TransientViolation) : outcome (list TransientViolation) :=
  match items with
  | [] => Returned all_violations
  | (param_name, voltage_profile) :: rest =>
      match sget (parameters device) param_name with
      | Some param =>
          violations <- validate_transient_profile param voltage_profile ;;
          validate_profiles device rest (all_violations ++ violations)
      | None => validate_profiles device rest all_violations
      end
  end.

Definition validate_transient_simulation (self : TransientSOAEngine) (device_key : string)
    (parameter_profiles : sdict (list (float * float * float))) : outcome SimulationResult :=
  match sget (devices self) device_key with
  | None => Returned (SimulationError device_key)
  | Some device =>
      all_violations <- validate_profiles device parameter_profiles [] ;;
      Returned (SimulationOk
        {| s_device := device_key;
           s_violations := all_violations;
           s_compliant := Nat.eqb (List.length all_violations) 0;
           s_total_violations := List.length all_violations |})
  end.

End Transient.
End Transient.

(* ===================================================================== *)
(** ** Notions used by the statements, and concrete rule sets *)
(* ===================================================================== *)

(** The UNRESTRICTED sentinel: the text "no-limit", in any letter case. *)
Definition is_unrestricted (o : pyobj) : bool :=
  match o with
  | PStr s => String.eqb (lower s) "no-limit"
  | _ => false
  end.

Definition is_unrestricted_limit (l : limit) : bool :=
  match l with
  | LimStr s => String.eqb (lower s) "no-limit"
  | LimFloat _ => false
  end.

(** What one sample contributes to the result of a profile: the messages of
    the constraints it violates, in the order of the constraints. *)
Definition sample_verdicts (float_of_str : string -> option float)
    (p : Transient.TransientAwareParameter) (total_time : float)
    (sample : float * float * float) : list Transient.TransientViolation :=
  let '(voltage, start_time, end_time) := sample in
  flat_map
    (fun c =>
       match Transient.validate_transient float_of_str c voltage
               (end_time - start_time)%float total_time with
       | Some m => [(Transient.name p, m)]
       | None => []
       end)
    (Transient.transient_constraints p).

(** A small instance of the two built-ins, enough to run the examples. *)
Definition demo_numbers : list (float * string) :=
  [(0.1%float, "0.1"); (0.01%float, "0.01"); (0%float, "0.0"); (1.5%float, "1.5")].

Definition demo_repr (o : pyobj) : string :=
  match o with
  | PFloat f =>
      match find (fun e => py_eq (fst e) f) demo_numbers with
      | Some e => snd e
      | None => "?"
      end
  | _ => "?"
  end.

Definition demo_float_of_str (s : string) : option float :=
  match find (fun e => String.eqb (snd e) s) demo_numbers with
  | Some e => Some (fst e)
  | None => None
  end.

Definition demo_update_from_pairs (d : sdict pyobj) (l : list pyobj)
  : sdict pyobj * outcome pyobj := (d, Raised TypeError).

(** The table of the example: {0.1: 5, 0.01: 6, 0.0: 7}. *)
Definition example_parameter : SOAParameter :=
  {| name := PStr "vhigh_ds_on"; severity := HIGH; param_type := VOLTAGE;
     unit := PStr "V";
     values := [(0.1%float, PFloat 5); (0.01%float, PFloat 6); (0%float, PFloat 7)];
     conditions := []; description := PStr "" |}.

(** A parameter whose table is empty. *)
Definition empty_parameter : SOAParameter :=
  {| name := PStr "vhigh_ds_on"; severity := HIGH; param_type := VOLTAGE;
     unit := PStr "V"; values := []; conditions := []; description := PStr "" |}.

(** A limit that is neither a number nor the sentinel, and a numeric one. *)
Definition textual_parameter : SOAParameter :=
  {| name := PStr "vhigh_gs"; severity := HIGH; param_type := VOLTAGE;
     unit := PStr "V"; values := [(0.1%float, PStr "see note 3")];
     conditions := []; description := PStr "" |}.

Definition numeric_parameter : SOAParameter :=
  {| name := PStr "vhigh_gs"; severity := HIGH; param_type := VOLTAGE;
     unit := PStr "V"; values := [(0.1%float, PFloat 1.5)];
     conditions := []; description := PStr "" |}.

Definition engine_with (p : SOAParameter) : SOARulesEngine :=
  add_device SOARulesEngine_init "nmos_core"
    {| device_type := PStr "mos_transistor"; subcategory := PStr "core";
       tmaxfrac_levels := PList [PFloat 0.1]; parameters := [("vhigh_gs", p)];
       metadata := PDict [] |}.

(** The flags a caller finds in a compliance result: the verdict, the number
    of violations and the [no_limit] flag of every parameter. *)
Definition result_flags (r : ComplianceResult) : option (bool * nat * list (string * bool)) :=
  match r with
  | ComplianceError _ => None
  | ComplianceOk c =>
      Some (c_compliant c, List.length (c_violations c),
            map (fun kv => (fst kv, li_no_limit (snd kv))) (c_limits c))
  end.

(** The constraints of [vhigh_ds_on] in the module's example, and a profile
    with two separate excursions of 0.9 us each in a window of 100 us. *)
Definition vhigh_ds_on_constraints : list Transient.TransientConstraint :=
  [ {| Transient.voltage_limit := LimFloat 1.65; Transient.max_time_fraction := 0.1;
       Transient.description := "1.65V for max 10% of time" |};
    {| Transient.voltage_limit := LimFloat 1.71; Transient.max_time_fraction := 0.01;
       Transient.description := "1.71V for max 1% of time" |};
    {| Transient.voltage_limit := LimFloat 1.838; Transient.max_time_fraction := 0;
       Transient.description := "1.838V never allowed" |} ].

Definition vhigh_ds_on : Transient.TransientAwareParameter :=
  {| Transient.name := "vhigh_ds_on"; Transient.severity := "high";
     Transient.param_type := "voltage"; Transient.unit := "V";
     Transient.transient_constraints := vhigh_ds_on_constraints;
     Transient.param_description := "" |}.

Definition one_percent_constraint : Transient.TransientConstraint :=
  {| Transient.voltage_limit := LimFloat 1.71; Transient.max_time_fraction := 0.01;
     Transient.description := "1.71V for max 1% of time" |}.

Definition one_percent_parameter : Transient.TransientAwareParameter :=
  {| Transient.name := "vhigh_ds_on"; Transient.severity := "high";
     Transient.param_type := "voltage"; Transient.unit := "V";
     Transient.transient_constraints := [one_percent_constraint];
     Transient.param_description := "" |}.

Definition two_excursions : list (float * float * float) :=
  [ (1.2%float, 0%float, 10e-6%float);
    (1.75%float, 10e-6%float, 10.9e-6%float);
    (1.2%float, 10.9e-6%float, 50e-6%float);
    (1.75%float, 50e-6%float, 50.9e-6%float);
    (1.2%float, 50.9e-6%float, 100e-6%float) ].

Definition never_allowed : TimeLimit.TransientTimeLimit :=
  {| TimeLimit.voltage_limit := LimFloat 1.838; TimeLimit.max_time_fraction := 0;
     TimeLimit.description := "1.838V never allowed" |}.

Definition never_allowed_constraint : Transient.TransientConstraint :=
  {| Transient.voltage_limit := LimFloat 1.838; Transient.max_time_fraction := 0;
     Transient.description := "1.838V never allowed" |}.

Definition transient_engine : Transient.TransientSOAEngine :=
  {| Transient.devices :=
       [("nmos_core", {| Transient.parameters := [("vhigh_ds_on", vhigh_ds_on)] |})] |}.

(** The parameter of the unit test on "no-limit". *)
Definition no_limit_parameter : SOAParameter :=
  {| name := PStr "test_param"; severity := HIGH; param_type := VOLTAGE;
     unit := PStr "V";
     values := [(0.1%float, PStr "no-limit"); (0.01%float, PFloat 1.5); (0%float, PFloat 1)];
     conditions := []; description := PStr "" |}.

Definition unrestricted_time_limit : TimeLimit.TransientTimeLimit :=
  {| TimeLimit.voltage_limit := LimStr "No-Limit"; TimeLimit.max_time_fraction := 0;
     TimeLimit.description := "" |}.

Definition unrestricted_constraint : Transient.TransientConstraint :=
  {| Transient.voltage_limit := LimStr "no-limit"; Transient.max_time_fraction := 0;
     Transient.description := "" |}.

Definition unrestricted_parameter : Transient.TransientAwareParameter :=
  {| Transient.name := "vhigh_ds_on"; Transient.severity := "high";
     Transient.param_type := "voltage"; Transient.unit := "V";
     Transient.transient_constraints := [unrestricted_constraint];
     Transient.param_description := "" |}.

(** The parameters of a device carry string names, as [SOAParameter]
    declares. *)
Definition names_are_strings (device : DeviceRules) : bool :=
  forallb (fun kv => match name (snd kv) with PStr _ => true | _ => false end)
    (parameters device).

(** No observation of the scenario is called [self] or [device_key], the
    names of the positional parameters of [check_soa_compliance]. *)
Definition reserved_free (scenario : sdict float) : bool :=
  forallb (fun kv => negb (String.eqb (fst kv) "self") &&
                     negb (String.eqb (fst kv) "device_key")) scenario.

(** Results numbered from [i] on, in order. *)
Fixpoint number_results (i : nat) (cs : list Compliance) : list ScenarioResult :=
  match cs with
  | [] => []
  | c :: rest =>
      {| scenario_id := i; scenario_result := ComplianceOk c |} :: number_results (S i) rest
  end.

(** The rule set and the scenarios of the module's demonstration. *)
Definition mos_rules : DeviceRules :=
  {| device_type := PStr "mos_transistor"; subcategory := PStr "symmetric_on_off";
     tmaxfrac_levels := PList [PFloat 0.1; PFloat 0.01; PFloat 0];
     parameters :=
       [("vhigh_ds_on",
         {| name := PStr "vhigh_ds_on"; severity := HIGH; param_type := VOLTAGE;
            unit := PStr "V";
            values := [(0.1%float, PFloat 1.65); (0.01%float, PFloat 1.71);
                       (0%float, PFloat 1.838)];
            conditions := [];
            description := PStr "High voltage limit for drain-source (on state)" |});
        ("vhigh_ds_off",
         {| name := PStr "vhigh_ds_off"; severity := HIGH; param_type := VOLTAGE;
            unit := PStr "V";
            values := [(0.1%float, PFloat 1.815); (0.01%float, PFloat 1.881);
                       (0%float, PFloat 3)];
            conditions := [];
            description := PStr "High voltage limit for drain-source (off state)" |})];
     metadata := PDict [] |}.

Definition demo_engine : SOARulesEngine := add_device SOARulesEngine_init "nmos_core" mos_rules.

Definition demo_scenarios : list (sdict float) :=
  [ [("tmaxfrac", 0.1%float); ("vhigh_ds_on", 1.5%float); ("vhigh_ds_off", 1.7%float)];
    [("tmaxfrac", 0.1%float); ("vhigh_ds_on", 2%float); ("vhigh_ds_off", 1.7%float)];
    [("tmaxfrac", 0%float); ("vhigh_ds_on", 1.5%float); ("vhigh_ds_off", 2.5%float)] ].

(** Documents with a missing field: no [devices]; a device without
    [parameters]; a parameter without [values.multi_level]. *)
Definition doc_without_devices : pyobj :=
  PDict [("soa_rules", PDict [("version", PStr "1.0"); ("technology", PStr "smos10hv")])].

Definition doc_without_parameters : pyobj :=
  PDict [("soa_rules",
          PDict [("devices",
                  PDict [("nmos_core", PDict [("device_type", PStr "mos_transistor")])])])].

Definition doc_without_multi_level : pyobj :=
  PDict [("soa_rules",
          PDict [("devices",
                  PDict [("nmos_core",
                          PDict [("parameters",
                                  PDict [("vhigh_ds_on",
                                          PDict [("severity", PStr "high");
                                                 ("values", PDict [])])])])])])].

(** The fields the loader reads at each level of the document. *)
Definition rules_fields : list string := ["global_config"; "devices"].
Definition device_fields : list string :=
  ["parameters"; "device_type"; "subcategory"; "multi_level"; "metadata"].
Definition parameter_fields : list string :=
  ["values"; "name"; "severity"; "type"; "unit"; "description"].

(** Two mappings that agree on the given fields. *)
Definition agree_on (fields : list string) (d d' : sdict pyobj) : Prop :=
  forall k, In k fields -> sget d' k = sget d k.

(** The field is absent or holds a mapping. *)
Definition absent_or_dict (d : sdict pyobj) (k : string) : Prop :=
  sget d k = None \/ exists m, sget d k = Some (PDict m).

(** What a document keeps of a rule set: metadata and conditions are not
    written by [export_to_json]. *)
Definition without_conditions (p : SOAParameter) : SOAParameter :=
  {| name := name p; severity := severity p; param_type := param_type p;
     unit := unit p; values := values p; conditions := []; description := description p |}.

Definition without_metadata (d : DeviceRules) : DeviceRules :=
  {| device_type := device_type d; subcategory := subcategory d;
     tmaxfrac_levels := tmaxfrac_levels d;
     parameters := map (fun kv => (fst kv, without_conditions (snd kv))) (parameters d);
     metadata := PDict [] |}.

(** Well-formed registries.  The three dictionaries have pairwise distinct
    keys, [len] applies to the declared levels, the configuration has the
    two entries the export reads, and every table key is read back from its
    text: [float(str(k))] is [k]. *)
Definition key_round_trips (py_repr : pyobj -> string)
    (float_of_str : string -> option float) (k : float) : bool :=
  match float_of_str (py_str py_repr (PFloat k)) with
  | Some k' => PrimFloat.Leibniz.eqb k' k
  | None => false
  end.

Definition table_ok py_repr float_of_str (table : list (float * pyobj)) : bool :=
  dict_ok py_eq table &&
  forallb (fun kv => key_round_trips py_repr float_of_str (fst kv)) table.

Definition has_len (o : pyobj) : bool :=
  match o with
  | PList _ | PDict _ | PStr _ => true
  | _ => false
  end.

Definition device_ok py_repr float_of_str (d : DeviceRules) : bool :=
  has_len (tmaxfrac_levels d) &&
  dict_ok String.eqb (parameters d) &&
  forallb (fun kv => table_ok py_repr float_of_str (values (snd kv))) (parameters d).

Definition registry_ok py_repr float_of_str (self : SOARulesEngine) : bool :=
  dict_ok String.eqb (devices self) &&
  forallb (fun kv => device_ok py_repr float_of_str (snd kv)) (devices self) &&
  scontains (global_config self) "version" &&
  scontains (global_config self) "technology".

(** The document [export_to_json] writes for one device ([len] applying to
    its declared levels). *)
Definition device_document (py_repr : pyobj -> string) (d : DeviceRules) : pyobj :=
  PDict
    [("device_type", device_type d);
     ("subcategory", subcategory d);
     ("multi_level",
      PDict [("enabled",
              PBool (Nat.ltb 1 (match py_len (tmaxfrac_levels d) with
                                | Returned n => n
                                | Raised _ => 0
                                end)));
             ("tmaxfrac_levels", tmaxfrac_levels d)]);
     ("parameters", PDict (export_parameters py_repr (parameters d)))].

(** A registry whose device carries metadata, as the extraction writes it. *)
Definition mos_rules_with_metadata : DeviceRules :=
  {| device_type := device_type mos_rules; subcategory := subcategory mos_rules;
     tmaxfrac_levels := tmaxfrac_levels mos_rules; parameters := parameters mos_rules;
     metadata := PDict [("source_sheet", PStr "10HV SOA SYM ON-OFF");
                        ("technology", PStr "smos10hv")] |}.

Definition engine_with_metadata : SOARulesEngine :=
  add_device SOARulesEngine_init "nmos_core" mos_rules_with_metadata.

(** A parameter with the given name and a single numeric limit at level 0.1,
    and a device made of such parameters. *)
Definition limit_parameter (nm : string) (v : float) : SOAParameter :=
  {| name := PStr nm; severity := HIGH; param_type := VOLTAGE; unit := PStr "V";
     values := [(0.1%float, PFloat v)]; conditions := []; description := PStr "" |}.

Definition gate_rules : DeviceRules :=
  {| device_type := PStr "mos_transistor"; subcategory := PStr "gate";
     tmaxfrac_levels := PList [PFloat 0.1];
     parameters := [("vhigh_gs", limit_parameter "vhigh_gs" 1.5);
                    ("vlow_gb", limit_parameter "vlow_gb" 0.01)];
     metadata := PDict [] |}.


(** The value the last entry with a key equal to [q] gives, among the
    entries of a [multi_level] mapping whose keys are read by [float]. *)
Fixpoint last_binding (float_of_str : string -> option float)
    (items : list (string * pyobj)) (q : float) : option pyobj :=
  match items with
  | [] => None
  | (k, v) :: rest =>
      match last_binding float_of_str rest q with
      | Some w => Some w
      | None =>
          match float_of_str k with
          | Some f => if py_eq f q then Some v else None
          | None => None
          end
      end
  end.

(** A device entry whose second parameter has a level that is not a number,
    after a well-formed device. *)
Definition good_device_entry : pyobj := device_document demo_repr gate_rules.

Definition bad_levels : sdict pyobj := [("0.1", PFloat 5); ("ten percent", PFloat 6)].

Definition bad_parameter_fields : sdict pyobj :=
  [("values", PDict [("multi_level", PDict bad_levels)])].

Definition bad_device_fields : sdict pyobj :=
  [("device_type", PStr "capacitor");
   ("parameters",
    PDict [("vhigh_c", PDict [("values", PDict [("multi_level", PDict [("0.1", PFloat 5)])])]);
           ("vhigh_d", PDict bad_parameter_fields)])].

Definition bad_device_entry : pyobj := PDict bad_device_fields.

(** An instance of [float] that reads two texts of the same number. *)
Definition demo_float_of_str_alt (s : string) : option float :=
  if String.eqb s "0.10" then Some 0.1%float else demo_float_of_str s.

(** A document whose configuration overrides one entry and adds another, and
    whose only device cannot be loaded. *)
Definition doc_config : sdict pyobj :=
  [("technology", PStr "smos10hv_rev2"); ("reviewed", PBool true)].

Definition doc_rules : sdict pyobj :=
  [("global_config", PDict doc_config); ("devices", PDict [("cap", bad_device_entry)])].

Definition doc_with_config : pyobj := PDict [("soa_rules", PDict doc_rules)].

(** A device whose declared levels are [None], as a document with
    ["tmaxfrac_levels": null] loads it. *)
Definition rules_without_levels : DeviceRules :=
  {| device_type := PStr "capacitor"; subcategory := PStr "general";
     tmaxfrac_levels := PNone; parameters := []; metadata := PDict [] |}.

(** The violations of one profile, as a plain list. *)
Definition profile_violations (float_of_str : string -> option float)
    (p : Transient.TransientAwareParameter) (profile : list (float * float * float))
  : list Transient.TransientViolation :=
  match Transient.validate_transient_profile float_of_str p profile with
  | Returned vs => vs
  | Raised _ => []
  end.

(** What the profile supplied under [param_name] adds to a simulation. *)
Definition known_parameter_violations (float_of_str : string -> option float)
    (device : Transient.TransientDevice)
    (item : string * list (float * float * float)) : list Transient.TransientViolation :=
  match sget (Transient.parameters device) (fst item) with
  | Some p => profile_violations float_of_str p (snd item)
  | None => []
  end.

(** The executable limit of 1.71 V for 1 percent of the time, and limits
    given as text. *)
Definition one_percent_limit : TimeLimit.TransientTimeLimit :=
  {| TimeLimit.voltage_limit := LimFloat 1.71; TimeLimit.max_time_fraction := 0.01;
     TimeLimit.description := "1.71V for max 1% of time" |}.

Definition textual_limit (s : string) : TimeLimit.TransientTimeLimit :=
  {| TimeLimit.voltage_limit := LimStr s; TimeLimit.max_time_fraction := 0;
     TimeLimit.description := "" |}.

Definition textual_constraint (s : string) : Transient.TransientConstraint :=
  {| Transient.voltage_limit := LimStr s; Transient.max_time_fraction := 0;
     Transient.description := "" |}.

Definition numeric_constraint (v : float) : Transient.TransientConstraint :=
  {| Transient.voltage_limit := LimFloat v; Transient.max_time_fraction := 0;
     Transient.description := "" |}.

(** A profile that spends 5 us at 1.7 V in a window of 100 us. *)
Definition five_percent_profile : list (float * float * float) :=
  [ (1.2%float, 0%float, 50e-6%float);
    (1.7%float, 50e-6%float, 55e-6%float);
    (1%float, 55e-6%float, 100e-6%float) ].

(* ===================================================================== *)
(** ** [excel_to_dsl_converter.py]: building the rules of a device *)
(* ===================================================================== *)

Module Converter.

(** [_infer_parameter_type]. *)
Definition _infer_parameter_type (param_name : string) : ParameterType :=
  let name_lower := lower param_name in
  if str_contains "v" name_lower &&
     (str_contains "high" name_lower || str_contains "low" name_lower ||
      str_contains "gate" name_lower)
  then VOLTAGE
  else if str_contains "i" name_lower || str_contains "current" name_lower
  then CURRENT
  else if str_contains "temp" name_lower || prefix "t" name_lower
  then TEMPERATURE
  else GENERAL.

(** [_infer_parameter_unit]; the third unit is the text of degrees Celsius. *)
Definition _infer_parameter_unit (param_name : string) : string :=
  let name_lower := lower param_name in
  if str_contains "v" name_lower then "V"
  else if str_contains "i" name_lower || str_contains "current" name_lower then "A"
  else if str_contains "temp" name_lower then "°C"
  else "dimensionless".

(** One entry of [tmaxfrac_info['parameters']]. *)
Record ParamData : Type := {
  pd_name : string;
  pd_severity : string;
  pd_values : list (float * pyobj)
}.

Record TmaxfracInfo : Type := {
  tmaxfrac_values : list float;
  info_parameters : list ParamData
}.

Record DeviceInfo : Type := {
  technology : string;
  info_device_type : string;
  info_subcategory : string;
  sheet_name : string
}.

(** The [SOAParameter(...)] built in the loop of [_create_device_rules],
    once [Severity(param_data['severity'])] has returned [sev]. *)
Definition row_parameter (param_data : ParamData) (sev : Severity) : SOAParameter :=
  let param_name := pd_name param_data in
  let param_type := _infer_parameter_type param_name in
  let unit := _infer_parameter_unit param_name in
  {| name := PStr param_name; severity := sev; param_type := param_type;
     unit := PStr unit; values := pd_values param_data; conditions := [];
     description :=
       PStr (pd_severity param_data ++ " severity limit for " ++ param_name)%string |}.

(** The loop of [_create_device_rules] over [tmaxfrac_info['parameters']]. *)
Fixpoint create_parameters (rows : list ParamData) (parameters : sdict SOAParameter)
  : outcome (sdict SOAParameter) :=
  match rows with
  | [] => Returned parameters
  | param_data :: rest =>
      sev <- Severity_of (PStr (pd_severity param_data)) ;;
      create_parameters rest
        (sset parameters (pd_name param_data) (row_parameter param_data sev))
  end.

Definition _create_device_rules (tmaxfrac_info : TmaxfracInfo) (device_info : DeviceInfo)
  : outcome DeviceRules :=
  params <- create_parameters (info_parameters tmaxfrac_info) [] ;;
  Returned {| device_type := PStr (info_device_type device_info);
              subcategory := PStr (info_subcategory device_info);
              tmaxfrac_levels := PList (map PFloat (tmaxfrac_values tmaxfrac_info));
              parameters := params;
              metadata := PDict [("source_sheet", PStr (sheet_name device_info));
                                 ("technology", PStr (technology device_info))] |}.

(** [_extract_device_info].  The data frame is read through the text
    [str(df.iloc[row, col])] of the cells of its first ten rows, row by
    row.  First the sheet name is classified. *)
Definition classify_sheet (name_of_sheet : string) : string * string :=
  if str_contains "SYM ON-OFF" name_of_sheet then ("mos_transistor", "symmetric_on_off")
  else if str_contains "CAPS" name_of_sheet then ("capacitor", "general")
  else if str_contains "SUB Well" name_of_sheet && str_contains "HV" name_of_sheet
  then ("substrate", "well_hv")
  else if str_contains "SUB Well" name_of_sheet then ("substrate", "well_isolation")
  else if str_contains "OXRisk" name_of_sheet then ("oxide", "reliability_drift")
  else ("unknown", "general").

(** The body of the scan over the cells, on [device_info['device_type']]. *)
Definition scan_cell (device_type : string) (cell : string) : string :=
  let cell_value := lower cell in
  if str_contains "nmos" cell_value || str_contains "pmos" cell_value then
    if String.eqb device_type "unknown" then "mos_transistor" else device_type
  else if str_contains "capacitor" cell_value then
    if String.eqb device_type "unknown" then "capacitor" else device_type
  else device_type.

Definition _extract_device_info (name_of_sheet : string) (cells : list string)
  : DeviceInfo :=
  {| technology := "smos10hv";
     info_device_type := fold_left scan_cell cells (fst (classify_sheet name_of_sheet));
     info_subcategory := snd (classify_sheet name_of_sheet);
     sheet_name := name_of_sheet |}.

(** What [_convert_sheet] reads of a sheet: its name, the cells of its
    first ten rows and the result of [_extract_tmaxfrac_structure] ([None]
    when the sheet has no tmaxfrac row). *)
Record Sheet : Type := {
  sh_name : string;
  sh_cells : list string;
  sh_tmaxfrac : option TmaxfracInfo
}.

(** [_convert_sheet], on the engine of the converter. *)
Definition _convert_sheet (soa_engine : SOARulesEngine) (sheet : Sheet)
  : outcome SOARulesEngine :=
  match sh_tmaxfrac sheet with
  | None => Returned soa_engine
  | Some tmaxfrac_info =>
      let device_info := _extract_device_info (sh_name sheet) (sh_cells sheet) in
      device_rules <- _create_device_rules tmaxfrac_info device_info ;;
      let device_key :=
        (info_device_type device_info ++ "_" ++ info_subcategory device_info)%string in
      Returned (add_device soa_engine device_key device_rules)
  end.

(** One line of the conversion log. *)
Inductive LogEntry : Type :=
  | Converted (name_of_sheet : string)
  | Failed (name_of_sheet : string) (e : pyexn).

(** The loop of [convert_all_sheets]: a sheet whose conversion raises is
    logged and skipped. *)
Fixpoint convert_sheets (soa_sheets : list Sheet) (soa_engine : SOARulesEngine)
    (conversion_log : list LogEntry) : SOARulesEngine * list LogEntry :=
  match soa_sheets with
  | [] => (soa_engine, conversion_log)
  | sheet :: rest =>
      match _convert_sheet soa_engine sheet with
      | Returned engine' =>
          convert_sheets rest engine' (conversion_log ++ [Converted (sh_name sheet)])
      | Raised e =>
          convert_sheets rest soa_engine (conversion_log ++ [Failed (sh_name sheet) e])
      end
  end.

(** [convert_all_sheets] on the sheets of the workbook, from the state
    [__init__] leaves. *)
Definition convert_all_sheets (sheets : list Sheet) : SOARulesEngine * list LogEntry :=
  let soa_sheets := filter (fun sheet => str_contains "SOA" (sh_name sheet)) sheets in
  convert_sheets soa_sheets SOARulesEngine_init [].

(** The row that decides the parameter stored under a name: the last one
    carrying it. *)
Definition last_row (param_name : string) (rows : list ParamData) : option ParamData :=
  find (fun row => String.eqb (pd_name row) param_name) (rev rows).

End Converter.

(** The rows of a sheet: a name is used twice and one name mixes a
    temperature with "high". *)
Definition sheet_rows : list Converter.ParamData :=
  [ {| Converter.pd_name := "vhigh_ds_on"; Converter.pd_severity := "high";
       Converter.pd_values := [(0.1%float, PFloat 1.65)] |};
    {| Converter.pd_name := "temp_high"; Converter.pd_severity := "medium";
       Converter.pd_values := [(0.1%float, PFloat 1.5)] |};
    {| Converter.pd_name := "vhigh_ds_on"; Converter.pd_severity := "low";
       Converter.pd_values := [(0.1%float, PFloat 1.5)] |} ].

Definition sheet_info : Converter.TmaxfracInfo :=
  {| Converter.tmaxfrac_values := [0.1%float; 0.01%float];
     Converter.info_parameters := sheet_rows |}.

Definition sheet_device : Converter.DeviceInfo :=
  {| Converter.technology := "smos10hv"; Converter.info_device_type := "mos_transistor";
     Converter.info_subcategory := "symmetric_on_off";
     Converter.sheet_name := "10HV SOA SYM ON-OFF" |}.

(** Two sheets that are classified alike, a sheet without a tmaxfrac row
    and one that is no SOA sheet. *)
Definition sheet_info_5v : Converter.TmaxfracInfo :=
  {| Converter.tmaxfrac_values := [0.1%float];
     Converter.info_parameters :=
       [ {| Converter.pd_name := "vlow_gs"; Converter.pd_severity := "low";
            Converter.pd_values := [(0.1%float, PStr "no-limit")] |} ] |}.

Definition sym_sheet_10hv : Converter.Sheet :=
  {| Converter.sh_name := "10HV SOA SYM ON-OFF"; Converter.sh_cells := ["NMOS"; "nan"];
     Converter.sh_tmaxfrac := Some sheet_info |}.

Definition sym_sheet_5v : Converter.Sheet :=
  {| Converter.sh_name := "5V SOA SYM ON-OFF"; Converter.sh_cells := ["capacitor"];
     Converter.sh_tmaxfrac := Some sheet_info_5v |}.

Definition workbook : list Converter.Sheet :=
  [ sym_sheet_10hv;
    {| Converter.sh_name := "Overview"; Converter.sh_cells := [];
       Converter.sh_tmaxfrac := Some sheet_info |};
    sym_sheet_5v;
    {| Converter.sh_name := "SOA notes"; Converter.sh_cells := ["pmos devices"];
       Converter.sh_tmaxfrac := None |} ].

(** The engine after the first and after both of the two sheets. *)
Definition engine_after_10hv : SOARulesEngine :=
  match Converter._convert_sheet SOARulesEngine_init sym_sheet_10hv with
  | Returned engine => engine
  | Raised _ => SOARulesEngine_init
  end.

Definition engine_after_5v : SOARulesEngine :=
  match Converter._convert_sheet engine_after_10hv sym_sheet_5v with
  | Returned engine => engine
  | Raised _ => engine_after_10hv
  end.

(** The keys under which [_convert_sheet] can register a device. *)
Definition device_keys : list string :=
  [ "mos_transistor_symmetric_on_off"; "capacitor_general"; "substrate_well_hv";
    "substrate_well_isolation"; "oxide_reliability_drift"; "unknown_general";
    "mos_transistor_general" ].

(** What every conversion keeps of the engine of the converter. *)
Definition kept (engine : SOARulesEngine) : Prop :=
  global_config engine = global_config SOARulesEngine_init /\
  NoDup (map fst (devices engine)) /\
  Forall (fun kv => In (fst kv) device_keys /\
                    names_are_strings (snd kv) = true /\
                    has_len (tmaxfrac_levels (snd kv)) = true) (devices engine).

(** A cell that names a kind of device, as the scan of
    [_extract_device_info] tests it. *)
Definition names_a_device (cell : string) : bool :=
  str_contains "nmos" (lower cell) || str_contains "pmos" (lower cell) ||
  str_contains "capacitor" (lower cell).

(* ===================================================================== *)
(** ** Order facts on binary64 floats *)
(* ===================================================================== *)

Module FloatOrder.

Lemma SFcompare_antisym (x y : spec_float) :
  SFcompare y x = option_map CompOpp (SFcompare x y).
Proof.
  destruct x as [sx|sx| |sx mx ex], y as [sy|sy| |sy my ey]; simpl;
    try reflexivity; try (destruct sx; reflexivity); try (destruct sy; reflexivity);
    try (destruct sx, sy; reflexivity).
  change (Pos.compare_cont Eq my mx) with (Pos.compare my mx).
  change (Pos.compare_cont Eq mx my) with (Pos.compare mx my).
  rewrite (Z.compare_antisym ex ey), (Pos.compare_antisym mx my).
  destruct sx, sy; simpl; try reflexivity;
    destruct (ex ?= ey)%Z; simpl; try reflexivity.
Qed.

Lemma SFcompare_lt_trans (x y z : spec_float) :
  SFcompare x y = Some Lt -> SFcompare y z = Some Lt -> SFcompare x z = Some Lt.
Proof.
  destruct x as [sx|sx| |sx mx ex], y as [sy|sy| |sy my ey], z as [sz|sz| |sz mz ez]; simpl;
    try discriminate; try (destruct sx; discriminate); try (destruct sy; discriminate);
    try (destruct sz; discriminate);
    try (destruct sx, sy; discriminate); try (destruct sy, sz; discriminate);
    try (destruct sx; try discriminate; destruct sz; try discriminate; reflexivity);
    try (destruct sx; try discriminate; destruct sy; try discriminate;
         destruct sz; try discriminate; reflexivity).
  all: change (Pos.compare_cont Eq ?a ?b) with (Pos.compare a b) in *.
  all: destruct sx, sy, sz; try discriminate; try reflexivity.
  all: intros H1 H2; injection H1 as H1; injection H2 as H2; f_equal.
  all: destruct (Z.compare_spec ex ey); try discriminate;
       destruct (Z.compare_spec ey ez); try discriminate; subst.
  all: try rewrite Z.compare_refl.
  all: try (replace (ex ?= ez)%Z with Gt by (symmetry; apply Z.compare_gt_iff; lia)).
  all: try (replace (ex ?= ez)%Z with Lt by (symmetry; apply Z.compare_lt_iff; lia)).
  all: try (replace (ey ?= ez)%Z with Gt by (symmetry; apply Z.compare_gt_iff; lia)).
  all: try (replace (ey ?= ez)%Z with Lt by (symmetry; apply Z.compare_lt_iff; lia)).
  all: try reflexivity; try assumption.
  - destruct (Pos.compare_spec mx my); try discriminate.
    destruct (Pos.compare_spec my mz); try discriminate.
    replace (mx ?= mz)%positive with Gt;
      [reflexivity|symmetry; apply Pos.compare_gt_iff; lia].
  - exact (Pos.lt_trans _ _ _ H1 H2).
Qed.

(** Two floats that compare equal compare alike with any third one. *)
Lemma SFcompare_eq_l (x y z : spec_float) :
  SFcompare x y = Some Eq -> SFcompare x z = SFcompare y z.
Proof.
  destruct x as [sx|sx| |sx mx ex], y as [sy|sy| |sy my ey]; simpl;
    try discriminate; try (destruct sx; discriminate); try (destruct sy; discriminate);
    try reflexivity.
  - destruct sx, sy; try discriminate; reflexivity.
  - change (Pos.compare_cont Eq mx my) with (Pos.compare mx my).
    destruct sx, sy; try discriminate;
      destruct (Z.compare_spec ex ey); try discriminate;
      destruct (Pos.compare_spec mx my); try discriminate; subst; reflexivity.
Qed.

Lemma ltb_trans (x y z : float) :
  (x <? y)%float = true -> (y <? z)%float = true -> (x <? z)%float = true.
Proof.
  rewrite !FloatAxioms.ltb_spec. unfold SFltb.
  destruct (SFcompare (Prim2SF x) (Prim2SF y)) as [[]|] eqn:E1; try discriminate.
  destruct (SFcompare (Prim2SF y) (Prim2SF z)) as [[]|] eqn:E2; try discriminate.
  now rewrite (SFcompare_lt_trans _ _ _ E1 E2).
Qed.

Lemma leb_ltb_trans (x y z : float) :
  (x <=? y)%float = true -> (y <? z)%float = true -> (x <? z)%float = true.
Proof.
  rewrite FloatAxioms.leb_spec, !FloatAxioms.ltb_spec. unfold SFleb, SFltb.
  destruct (SFcompare (Prim2SF x) (Prim2SF y)) as [[]|] eqn:E1; try discriminate.
  - now rewrite (SFcompare_eq_l _ _ (Prim2SF z) E1).
  - destruct (SFcompare (Prim2SF y) (Prim2SF z)) as [[]|] eqn:E2; try discriminate.
    now rewrite (SFcompare_lt_trans _ _ _ E1 E2).
Qed.

Lemma leb_not_ltb (a b : float) :
  (a <=? b)%float = true -> (b <? a)%float = false.
Proof.
  rewrite FloatAxioms.leb_spec, FloatAxioms.ltb_spec. unfold SFleb, SFltb.
  rewrite (SFcompare_antisym (Prim2SF a)).
  destruct (SFcompare _ _) as [[]|]; simpl; congruence.
Qed.

Lemma ltb_not_leb (a b : float) :
  (a <? b)%float = true -> (b <=? a)%float = false.
Proof.
  rewrite FloatAxioms.leb_spec, FloatAxioms.ltb_spec. unfold SFleb, SFltb.
  rewrite (SFcompare_antisym (Prim2SF a)).
  destruct (SFcompare _ _) as [[]|]; simpl; congruence.
Qed.

Lemma ltb_not_eqb (a b : float) :
  (a <? b)%float = true -> (b =? a)%float = false.
Proof.
  rewrite FloatAxioms.eqb_spec, FloatAxioms.ltb_spec. unfold SFeqb, SFltb.
  rewrite (SFcompare_antisym (Prim2SF a)).
  destruct (SFcompare _ _) as [[]|]; simpl; congruence.
Qed.

Lemma eqb_sym (a b : float) : (a =? b)%float = (b =? a)%float.
Proof.
  rewrite !FloatAxioms.eqb_spec. unfold SFeqb.
  rewrite (SFcompare_antisym (Prim2SF a)).
  destruct (SFcompare _ _) as [[]|]; reflexivity.
Qed.

Lemma ltb_asym (a b : float) :
  (a <? b)%float = true -> (b <? a)%float = false.
Proof.
  rewrite !FloatAxioms.ltb_spec. unfold SFltb.
  rewrite (SFcompare_antisym (Prim2SF a)).
  destruct (SFcompare _ _) as [[]|]; simpl; congruence.
Qed.

Lemma ltb_irrefl (a : float) : (a <? a)%float = false.
Proof.
  destruct (a <? a)%float eqn:E; [|reflexivity].
  now rewrite (ltb_asym _ _ E) in E.
Qed.

End FloatOrder.


(* ===================================================================== *)
(** ** Generic facts: loops that keep the best item, dictionaries *)
(* ===================================================================== *)

Section FoldBest.
Context {A : Type} (better weak : A -> A -> bool).
Hypothesis better_trans :
  forall x y z, better x y = true -> better y z = true -> better x z = true.
Hypothesis better_not_weak : forall x y, better x y = true -> weak y x = false.
Hypothesis weak_better_trans :
  forall x y z, weak x y = true -> better y z = true -> better x z = true.

Lemma keep_best_cases (rest : list A) : forall x0,
  (keep_best better rest x0 = x0 /\ forall x, In x rest -> better x x0 = false) \/
  (better (keep_best better rest x0) x0 = true /\
   exists pre post, rest = pre ++ keep_best better rest x0 :: post /\
     (forall x, In x pre -> weak x (keep_best better rest x0) = false) /\
     (forall x, In x post -> better x (keep_best better rest x0) = false)).
Proof.
  induction rest as [|y rest IH]; intros x0.
  - left. split; [reflexivity | intros x []].
  - unfold keep_best in *. cbn [fold_left].
    destruct (better y x0) eqn:Hy.
    + right. destruct (IH y) as [[Hr Hall] | (Hb & pre & post & Hsplit & Hpre & Hpost)].
      * rewrite Hr. split; [assumption|]. exists [], rest. repeat split; auto.
      * split; [eapply better_trans; eassumption|].
        exists (y :: pre), post. split; [cbn; now rewrite <- Hsplit|]. split; [|assumption].
        intros x [<-|Hx]; [now apply better_not_weak | now apply Hpre].
    + destruct (IH x0) as [[Hr Hall] | (Hb & pre & post & Hsplit & Hpre & Hpost)].
      * left. split; [assumption|]. intros x [<-|Hx]; auto.
      * right. split; [assumption|].
        exists (y :: pre), post. split; [cbn; now rewrite <- Hsplit|]. split; [|assumption].
        intros x [<-|Hx]; [|now apply Hpre].
        destruct (weak y _) eqn:Hw; [|reflexivity].
        now rewrite (weak_better_trans _ _ _ Hw Hb) in Hy.
Qed.

(** The item kept by the loop splits the list: everything before it is
    strictly worse, nothing after it is strictly better. *)
Lemma keep_best_split (rest : list A) (x0 : A) :
  exists pre post, x0 :: rest = pre ++ keep_best better rest x0 :: post /\
    (forall x, In x pre -> weak x (keep_best better rest x0) = false) /\
    (forall x, In x post -> better x (keep_best better rest x0) = false).
Proof.
  destruct (keep_best_cases rest x0) as [[Hr Hall] | (Hb & pre & post & Hsplit & Hpre & Hpost)].
  - exists [], rest. rewrite Hr. repeat split; auto.
  - exists (x0 :: pre), post. split; [cbn; now rewrite <- Hsplit|]. split; [|assumption].
    intros x [<-|Hx]; [now apply better_not_weak | now apply Hpre].
Qed.
End FoldBest.

Section DictFacts.
Context {K V : Type} (keq : K -> K -> bool).
Hypothesis keq_sym : forall a b, keq a b = keq b a.

Lemma dict_get_app_none (l1 l2 : list (K * V)) (k : K) :
  dict_get keq (l1 ++ l2) k = None ->
  dict_get keq l1 k = None /\ dict_get keq l2 k = None.
Proof.
  induction l1 as [|[k' v'] l1 IH]; cbn; [auto|].
  destruct (keq k' k); [discriminate | assumption].
Qed.

End DictFacts.

(* ===================================================================== *)
(** ** Static thresholds: [get_value_at_tmaxfrac] and [validate_value] *)
(* ===================================================================== *)

Lemma py_min_by_split {A : Type} (f : A -> float) (x0 : A) (rest : list A) :
  exists closest pre post,
    py_min_by f (x0 :: rest) = Some closest /\
    x0 :: rest = pre ++ closest :: post /\
    (forall x, In x pre -> py_le (f x) (f closest) = false) /\
    (forall x, In x post -> py_lt (f x) (f closest) = false).
Proof.
  destruct (keep_best_split (fun x y => py_lt (f x) (f y)) (fun x y => py_le (f x) (f y)))
    with (rest := rest) (x0 := x0) as (pre & post & Hsplit & Hpre & Hpost).
  - intros x y z. apply FloatOrder.ltb_trans.
  - intros x y. apply FloatOrder.ltb_not_leb.
  - intros x y z. apply FloatOrder.leb_ltb_trans.
  - eexists _, pre, post. split; [reflexivity|]. auto.
Qed.

(** The lookup itself never raises. *)
Lemma get_value_at_tmaxfrac_returns (p : SOAParameter) (t : float) :
  exists v, get_value_at_tmaxfrac p t = Returned v.
Proof.
  unfold get_value_at_tmaxfrac.
  destruct (fget (values p) t); [eauto|]. destruct (py_min_by _ _); eauto.
Qed.

(** C3: with a non-empty table, [get_value_at_tmaxfrac] returns the entry
    stored under the requested level when it is a key; otherwise it returns
    the entry whose key is nearest to the request for the distance
    [abs(key - tmaxfrac)]: every key before it in the table is strictly
    farther and no key after it is strictly nearer, so the first of the
    nearest keys wins. *)
Theorem get_value_at_tmaxfrac_exact_or_nearest (p : SOAParameter) (t : float) :
  values p <> [] ->
  (forall v, fget (values p) t = Some v -> get_value_at_tmaxfrac p t = Returned v) /\
  (fget (values p) t = None ->
   exists before k v after,
     values p = before ++ (k, v) :: after /\
     get_value_at_tmaxfrac p t = Returned v /\
     (forall k' v', In (k', v') before ->
        py_le (distance t k') (distance t k) = false) /\
     (forall k' v', In (k', v') after ->
        py_lt (distance t k') (distance t k) = false)).
Proof.
  intros Hne. unfold get_value_at_tmaxfrac. split.
  - intros v ->. reflexivity.
  - intros ->.
    destruct (values p) as [|e0 rest] eqn:Hv; [contradiction|].
    destruct (py_min_by_split (fun entry => distance t (fst entry)) e0 rest)
      as ([k v] & before & after & -> & Hsplit & Hpre & Hpost).
    exists before, k, v, after. split; [assumption|]. split; [reflexivity|]. split.
    + intros k' v' Hin. apply (Hpre (k', v') Hin).
    + intros k' v' Hin. apply (Hpost (k', v') Hin).
Qed.

Example example_parameter_distances :
  (distance 0.05 0.1 =? 0.05)%float = true /\
  (distance 0.05 0.01 =? 0.04)%float = true /\
  (distance 0.05 0 =? 0.05)%float = true /\
  get_value_at_tmaxfrac example_parameter 0.05 = Returned (PFloat 6).
Proof. repeat split; vm_compute; reflexivity. Qed.

Lemma get_value_at_tmaxfrac_exact_or_nearest_witness :
  get_value_at_tmaxfrac example_parameter 0.01 = Returned (PFloat 6) /\
  get_value_at_tmaxfrac example_parameter 0.05 = Returned (PFloat 6) /\
  exists before k v after,
    values example_parameter = before ++ (k, v) :: after /\
    get_value_at_tmaxfrac example_parameter 0.05 = Returned v /\
    (forall k' v', In (k', v') before ->
       py_le (distance 0.05 k') (distance 0.05 k) = false) /\
    (forall k' v', In (k', v') after ->
       py_lt (distance 0.05 k') (distance 0.05 k) = false).
Proof.
  destruct (get_value_at_tmaxfrac_exact_or_nearest example_parameter 0.01) as [Hkey _];
    [discriminate |].
  destruct (get_value_at_tmaxfrac_exact_or_nearest example_parameter 0.05) as [_ Hnear];
    [discriminate |].
  split; [apply Hkey; reflexivity|]. split; [reflexivity | apply Hnear; reflexivity].
Defined.

Lemma empty_table_resolves_to_none (p : SOAParameter) (t : float) :
  values p = [] -> get_value_at_tmaxfrac p t = Returned PNone.
Proof. intros H. unfold get_value_at_tmaxfrac. now rewrite H. Qed.

(** C7 (as the code has it): on a parameter whose table is empty,
    [get_value_at_tmaxfrac] raises nothing: whatever the requested level, it
    returns [None] as an ordinary result. *)
Theorem get_value_at_tmaxfrac_empty_table (p : SOAParameter) (t : float) :
  values p = [] ->
  get_value_at_tmaxfrac p t = Returned PNone /\
  forall e, get_value_at_tmaxfrac p t <> Raised e.
Proof.
  intros H. rewrite (empty_table_resolves_to_none p t H). split; [reflexivity | discriminate].
Qed.

Lemma get_value_at_tmaxfrac_empty_table_witness :
  values empty_parameter = [] /\
  get_value_at_tmaxfrac empty_parameter 0.1 = Returned PNone.
Proof.
  split; [reflexivity | apply (get_value_at_tmaxfrac_empty_table empty_parameter 0.1)].
  reflexivity.
Defined.

(** C7, counterexample: the query on an empty table is not a lookup error;
    it returns the ordinary value [None]. *)
Lemma empty_table_lookup_is_not_an_error :
  values empty_parameter = [] /\
  get_value_at_tmaxfrac empty_parameter 0.1 = Returned PNone /\
  ~ (exists e, get_value_at_tmaxfrac empty_parameter 0.1 = Raised e).
Proof.
  repeat split. intros [e He]. discriminate He.
Qed.

(** On an empty table the validation then passes, whatever the value. *)
Lemma validate_value_empty_table py_repr float_of_str (p : SOAParameter) (x t : float) :
  values p = [] -> validate_value py_repr float_of_str p x t = Returned true.
Proof.
  intros H. unfold validate_value, is_no_limit.
  rewrite (empty_table_resolves_to_none p t H). reflexivity.
Qed.

Lemma py_float_raises float_of_str (o : pyobj) (e : pyexn) :
  py_float float_of_str o = Raised e -> e = ValueError \/ e = TypeError.
Proof.
  destruct o as [|b|f|s|l|d]; cbn; try (intros [= <-]; auto); try discriminate.
  destruct (float_of_str s); [discriminate | intros [= <-]; auto].
Qed.

(** C8 (as the code has it): when the resolved threshold is not the
    sentinel and [float] cannot convert it, [validate_value] takes the
    [except] branch and returns the plain [True] of a satisfied limit.
    [is_no_limit] is [False], and in [validate_conditions] the parameter
    adds no violation: the result of a compliance check carries no mark of
    the skipped comparison. *)
Theorem validate_value_fail_open py_repr float_of_str
    (p : SOAParameter) (x t : float) (limit : pyobj) (e : pyexn) :
  get_value_at_tmaxfrac p t = Returned limit ->
  String.eqb (lower (py_str py_repr limit)) "no-limit" = false ->
  py_float float_of_str limit = Raised e ->
  validate_value py_repr float_of_str p x t = Returned true /\
  is_no_limit py_repr p t = Returned false /\
  forall param_name rest test_values violations,
    sget test_values param_name = Some x ->
    validate_conditions_loop py_repr float_of_str ((param_name, p) :: rest) t
      test_values violations =
    validate_conditions_loop py_repr float_of_str rest t test_values violations.
Proof.
  intros Hv Hs Hf.
  assert (Hpass : validate_value py_repr float_of_str p x t = Returned true).
  { unfold validate_value, is_no_limit. rewrite Hv. cbn [bind].
    rewrite Hs. unfold compare_to_limit. rewrite Hf. cbn [bind].
    destruct (py_float_raises _ _ _ Hf) as [-> | ->]; reflexivity. }
  split; [exact Hpass|]. split.
  - unfold is_no_limit. rewrite Hv. cbn [bind]. now rewrite Hs.
  - intros n rest tv acc Hx. cbn [validate_conditions_loop]. rewrite Hx, Hpass. reflexivity.
Qed.

Lemma validate_value_fail_open_witness :
  get_value_at_tmaxfrac textual_parameter 0.1 = Returned (PStr "see note 3") /\
  validate_value demo_repr demo_float_of_str textual_parameter 999 0.1 = Returned true /\
  is_no_limit demo_repr textual_parameter 0.1 = Returned false.
Proof.
  split; [reflexivity|].
  destruct (validate_value_fail_open demo_repr demo_float_of_str textual_parameter
              999 0.1 (PStr "see note 3") ValueError) as (Hpass & Hflag & _);
    [reflexivity | reflexivity | reflexivity |].
  split; [exact Hpass | exact Hflag].
Defined.

(** C8, counterexample: a check against the unvalidatable limit and a check
    against a satisfied numeric limit return the same verdict and the same
    flags; nothing in the result marks the first one. *)
Lemma fail_open_is_not_flagged :
  py_float demo_float_of_str (PStr "see note 3") = Raised ValueError /\
  is_unrestricted (PStr "see note 3") = false /\
  exists r_text r_num,
    check_soa_compliance demo_repr demo_float_of_str (engine_with textual_parameter)
      "nmos_core" 0.1 [("vhigh_gs", 1%float)] = Returned r_text /\
    check_soa_compliance demo_repr demo_float_of_str (engine_with numeric_parameter)
      "nmos_core" 0.1 [("vhigh_gs", 1%float)] = Returned r_num /\
    result_flags r_text = Some (true, 0, [("vhigh_gs", false)]) /\
    result_flags r_text = result_flags r_num.
Proof.
  split; [reflexivity|]. split; [reflexivity|].
  eexists _, _. split; [vm_compute; reflexivity|]. split; [vm_compute; reflexivity|].
  split; reflexivity.
Qed.

(* ===================================================================== *)
(** ** Transient profiles *)
(* ===================================================================== *)

Section TransientFacts.
Variable float_of_str : string -> option float.

Lemma check_constraints_flat_map (n : string) (cs : list Transient.TransientConstraint)
    (v d T : float) : forall acc,
  Transient.check_constraints float_of_str n cs v d T acc =
  acc ++ flat_map (fun c => match Transient.validate_transient float_of_str c v d T with
                            | Some m => [(n, m)]
                            | None => []
                            end) cs.
Proof.
  induction cs as [|c cs IH]; intros acc; cbn.
  - now rewrite app_nil_r.
  - destruct (Transient.validate_transient _ c v d T).
    + rewrite IH, <- app_assoc. reflexivity.
    + apply IH.
Qed.

Lemma check_samples_flat_map (p : Transient.TransientAwareParameter) (T : float)
    (profile : list (float * float * float)) : forall acc,
  Transient.check_samples float_of_str p profile T acc =
  acc ++ flat_map (sample_verdicts float_of_str p T) profile.
Proof.
  induction profile as [|[[v s] e] profile IH]; intros acc; cbn.
  - now rewrite app_nil_r.
  - rewrite IH, check_constraints_flat_map, <- app_assoc. reflexivity.
Qed.

(** [max] returns an item of the list that no item exceeds. *)
Lemma py_max_is_maximum (x0 : float) (rest : list float) :
  exists m, py_max (x0 :: rest) = Returned m /\ In m (x0 :: rest) /\
            forall x, In x (x0 :: rest) -> py_gt x m = false.
Proof.
  destruct (keep_best_split py_gt py_gt) with (rest := rest) (x0 := x0)
    as (pre & post & Hsplit & Hpre & Hpost).
  - intros x y z Hxy Hyz. unfold py_gt in *. eapply FloatOrder.ltb_trans; eassumption.
  - intros x y. unfold py_gt. apply FloatOrder.ltb_asym.
  - intros x y z Hxy Hyz. unfold py_gt in *. eapply FloatOrder.ltb_trans; eassumption.
  - eexists. split; [reflexivity|]. rewrite Hsplit. split.
    + apply in_or_app. right. now left.
    + intros x Hx. apply in_app_or in Hx as [Hx | [<- | Hx]]; auto.
      apply FloatOrder.ltb_irrefl.
Qed.

Lemma validate_transient_profile_flat_map (p : Transient.TransientAwareParameter)
    (profile : list (float * float * float)) (total_time : float) :
  py_max (map snd profile) = Returned total_time ->
  Transient.validate_transient_profile float_of_str p profile =
  Returned (flat_map (sample_verdicts float_of_str p total_time) profile).
Proof.
  intros Hmax. unfold Transient.validate_transient_profile.
  destruct profile as [|s profile]; [discriminate|].
  rewrite Hmax. cbn [bind]. now rewrite check_samples_flat_map.
Qed.

(** C1: for a constraint with a numeric threshold and a positive
    [max_time_fraction], and a sample of the profile whose voltage is at or
    above the threshold, [validate_transient] reports a time violation
    exactly when [end - start > max_time_fraction * total_time], where
    [total_time] is the maximum end time of the profile; a sample whose
    duration equals the allowed time is compliant.  The result of the
    profile is the concatenation of what each sample contributes on its own
    against that full budget: durations are never summed. *)
Theorem transient_budget_is_checked_per_sample
    (p : Transient.TransientAwareParameter) (profile : list (float * float * float))
    (c : Transient.TransientConstraint) (voltage start_time end_time threshold : float) :
  In c (Transient.transient_constraints p) ->
  In (voltage, start_time, end_time) profile ->
  Transient.threshold_of float_of_str (Transient.voltage_limit c) = Some threshold ->
  py_gt (Transient.max_time_fraction c) 0 = true ->
  py_ge voltage threshold = true ->
  exists total_time,
    py_max (map snd profile) = Returned total_time /\
    In total_time (map snd profile) /\
    (forall e, In e (map snd profile) -> py_gt e total_time = false) /\
    Transient.validate_transient_profile float_of_str p profile =
      Returned (flat_map (sample_verdicts float_of_str p total_time) profile) /\
    let duration := (end_time - start_time)%float in
    let allowed := (Transient.max_time_fraction c * total_time)%float in
    Transient.validate_transient float_of_str c voltage duration total_time =
      (if py_gt duration allowed
       then Some (Transient.TimeViolation threshold duration allowed
                    (Transient.max_time_fraction c))
       else None) /\
    (duration = allowed ->
     Transient.validate_transient float_of_str c voltage duration total_time = None).
Proof.
  intros _ Hs Hth Hpos Hge.
  destruct profile as [|s0 profile]; [destruct Hs|].
  destruct (py_max_is_maximum (snd s0) (map snd profile)) as (T & Hmax & Hin & Hle).
  exists T. change (snd s0 :: map snd profile) with (map snd (s0 :: profile)) in *.
  repeat (split; [assumption|]).
  split; [now apply validate_transient_profile_flat_map|].
  assert (Hv : Transient.validate_transient float_of_str c voltage (end_time - start_time) T =
               (if py_gt (end_time - start_time) (Transient.max_time_fraction c * T)
                then Some (Transient.TimeViolation threshold (end_time - start_time)
                             (Transient.max_time_fraction c * T)
                             (Transient.max_time_fraction c))
                else None)).
  { unfold Transient.validate_transient. rewrite Hth.
    unfold py_ge in Hge. unfold py_lt. rewrite (FloatOrder.leb_not_ltb _ _ Hge).
    unfold py_gt in Hpos. unfold py_eq. rewrite (FloatOrder.ltb_not_eqb _ _ Hpos).
    reflexivity. }
  cbv zeta. split; [exact Hv|].
  intros Heq. rewrite Hv, Heq. unfold py_gt. now rewrite FloatOrder.ltb_irrefl.
Qed.

End TransientFacts.

Lemma transient_budget_is_checked_per_sample_witness :
  exists total_time,
    py_max (map snd two_excursions) = Returned total_time /\
    Transient.validate_transient demo_float_of_str one_percent_constraint
      1.75 (10.9e-6 - 10e-6) total_time = None /\
    Transient.validate_transient_profile demo_float_of_str one_percent_parameter
      two_excursions =
      Returned (flat_map (sample_verdicts demo_float_of_str one_percent_parameter total_time)
                  two_excursions).
Proof.
  destruct (transient_budget_is_checked_per_sample demo_float_of_str
              one_percent_parameter two_excursions one_percent_constraint
              1.75 10e-6 10.9e-6 1.71)
    as (T & Hmax & _ & _ & Hprofile & Hsample & _).
  - left. reflexivity.
  - right. left. reflexivity.
  - reflexivity.
  - reflexivity.
  - reflexivity.
  - exists T. split; [exact Hmax|]. split; [|exact Hprofile].
    cbv zeta in Hsample. rewrite Hsample.
    assert (HT : T = 100e-6%float) by (vm_compute in Hmax; congruence).
    rewrite HT. reflexivity.
Defined.

(** Two excursions of 0.9 us each stay below the 1 us budget one by one,
    so the profile is compliant although they add up to 1.8 us. *)
Example separate_excursions_are_not_summed :
  Transient.validate_transient_profile demo_float_of_str one_percent_parameter
    two_excursions = Returned [] /\
  py_gt ((10.9e-6 - 10e-6) + (50.9e-6 - 50e-6)) (0.01 * 100e-6) = true.
Proof. split; vm_compute; reflexivity. Qed.

Section TransientSentinelAndZero.
Variable float_of_str : string -> option float.

(** With [max_time_fraction == 0], [validate_transient] reports the
    critical violation for every sample at or above the threshold. *)
Lemma validate_transient_zero_fraction (c : Transient.TransientConstraint)
    (voltage duration total_time threshold : float) :
  Transient.threshold_of float_of_str (Transient.voltage_limit c) = Some threshold ->
  py_eq (Transient.max_time_fraction c) 0 = true ->
  py_ge voltage threshold = true ->
  Transient.validate_transient float_of_str c voltage duration total_time =
  Some (Transient.Critical threshold).
Proof.
  intros Hth Hz Hge. unfold Transient.validate_transient. rewrite Hth, Hz.
  unfold py_ge in Hge. unfold py_lt. now rewrite (FloatOrder.leb_not_ltb _ _ Hge).
Qed.

(** With [max_time_fraction == 0], [is_violation] answers by the strict
    comparison [applied_voltage > voltage_limit] alone. *)
Lemma is_violation_zero_fraction (l : TimeLimit.TransientTimeLimit)
    (voltage duration total_time threshold : float) :
  TimeLimit.is_no_limit_str (TimeLimit.voltage_limit l) = false ->
  TimeLimit.float_of_limit float_of_str (TimeLimit.voltage_limit l) = Some threshold ->
  py_eq (TimeLimit.max_time_fraction l) 0 = true ->
  TimeLimit.is_violation float_of_str l voltage duration total_time =
  py_gt voltage threshold.
Proof.
  intros Hn Hth Hz. unfold TimeLimit.is_violation. rewrite Hn, Hth, Hz.
  now destruct (py_gt voltage threshold).
Qed.

(** C2: a limit of 1.838 V with [max_time_fraction] 0.  The sample at
    1.85 V lasting 0.1 us of 100 us is a violation for both classes, but a
    sample that meets the threshold exactly is a violation only for
    [TransientConstraint.validate_transient]; [TransientTimeLimit.is_violation]
    lets it pass. *)
Theorem is_violation_misses_the_threshold_itself :
  TimeLimit.is_violation float_of_str never_allowed 1.85 0.1e-6 100e-6 = true /\
  Transient.validate_transient float_of_str never_allowed_constraint 1.85 0.1e-6 100e-6 =
    Some (Transient.Critical 1.838) /\
  py_ge 1.838 1.838 = true /\
  Transient.validate_transient float_of_str never_allowed_constraint 1.838 0.1e-6 100e-6 =
    Some (Transient.Critical 1.838) /\
  TimeLimit.is_violation float_of_str never_allowed 1.838 0.1e-6 100e-6 = false.
Proof. repeat split; vm_compute; reflexivity. Qed.

Lemma check_samples_unrestricted (p : Transient.TransientAwareParameter)
    (profile : list (float * float * float)) (T : float) :
  (forall c, In c (Transient.transient_constraints p) ->
             is_unrestricted_limit (Transient.voltage_limit c) = true) ->
  flat_map (sample_verdicts float_of_str p T) profile = [].
Proof.
  intros Hall. induction profile as [|[[v s] e] profile IH]; [reflexivity|].
  cbn [flat_map]. rewrite IH, app_nil_r. unfold sample_verdicts.
  induction (Transient.transient_constraints p) as [|c cs IHc]; [reflexivity|].
  cbn [flat_map]. rewrite IHc by (intros c' Hc'; apply Hall; now right).
  specialize (Hall c (or_introl eq_refl)).
  unfold Transient.validate_transient, Transient.threshold_of.
  destruct (Transient.voltage_limit c) as [f|s0]; [discriminate|].
  cbn in Hall. now rewrite Hall.
Qed.

End TransientSentinelAndZero.

(** C6: a threshold that is the UNRESTRICTED sentinel satisfies every
    query.  [validate_value] returns [True] for every observed value when
    the resolved threshold is the sentinel; [is_violation] and
    [validate_transient] never report a constraint whose limit is the
    sentinel, whatever the sample; and a parameter whose constraints are all
    unrestricted yields no violation on any profile. *)
Theorem unrestricted_satisfies_every_query
    (py_repr : pyobj -> string) (float_of_str : string -> option float) :
  (forall (p : SOAParameter) (x t : float) (limit : pyobj),
     get_value_at_tmaxfrac p t = Returned limit ->
     is_unrestricted limit = true ->
     validate_value py_repr float_of_str p x t = Returned true) /\
  (forall (l : TimeLimit.TransientTimeLimit) (voltage duration total_time : float),
     is_unrestricted_limit (TimeLimit.voltage_limit l) = true ->
     TimeLimit.is_violation float_of_str l voltage duration total_time = false) /\
  (forall (c : Transient.TransientConstraint) (voltage duration total_time : float),
     is_unrestricted_limit (Transient.voltage_limit c) = true ->
     Transient.validate_transient float_of_str c voltage duration total_time = None) /\
  (forall (p : Transient.TransientAwareParameter) (profile : list (float * float * float)),
     (forall c, In c (Transient.transient_constraints p) ->
                is_unrestricted_limit (Transient.voltage_limit c) = true) ->
     Transient.validate_transient_profile float_of_str p profile = Returned []).
Proof.
  repeat split.
  - intros p x t limit Hv Hu. unfold validate_value, is_no_limit. rewrite Hv. cbn [bind].
    destruct limit as [|b|f|s|l|d]; try discriminate. cbn in Hu |- *. now rewrite Hu.
  - intros l v d T Hu. unfold TimeLimit.is_violation, TimeLimit.is_no_limit_str.
    destruct (TimeLimit.voltage_limit l) as [f|s]; [discriminate|]. cbn in Hu. now rewrite Hu.
  - intros c v d T Hu. unfold Transient.validate_transient, Transient.threshold_of.
    destruct (Transient.voltage_limit c) as [f|s]; [discriminate|]. cbn in Hu. now rewrite Hu.
  - intros p profile Hall. destruct profile as [|s0 profile]; [reflexivity|].
    destruct (py_max_is_maximum (snd s0) (map snd profile)) as (T & Hmax & _).
    rewrite (validate_transient_profile_flat_map float_of_str p (s0 :: profile) T Hmax).
    now rewrite check_samples_unrestricted.
Qed.

Lemma unrestricted_satisfies_every_query_witness :
  validate_value demo_repr demo_float_of_str no_limit_parameter 999 0.1 = Returned true /\
  validate_value demo_repr demo_float_of_str no_limit_parameter (-1e300) 0.1 = Returned true /\
  TimeLimit.is_violation demo_float_of_str unrestricted_time_limit 1e300 1 1 = false /\
  Transient.validate_transient demo_float_of_str unrestricted_constraint 1e300 1 1 = None /\
  Transient.validate_transient_profile demo_float_of_str unrestricted_parameter
    two_excursions = Returned [].
Proof.
  destruct (unrestricted_satisfies_every_query demo_repr demo_float_of_str)
    as (Hstatic & Hlimit & Hconstraint & Hprofile).
  split; [apply (Hstatic no_limit_parameter _ _ (PStr "no-limit")); reflexivity|].
  split; [apply (Hstatic no_limit_parameter _ _ (PStr "no-limit")); reflexivity|].
  split; [apply Hlimit; reflexivity|].
  split; [apply Hconstraint; reflexivity|].
  apply Hprofile. intros c [<- | []]. reflexivity.
Defined.

(** C10: an empty profile returns no violation, and it does so before
    [max] is evaluated (on an empty sequence [max] would raise); hence a
    simulation check of a known device whose supplied profiles are all empty
    reports [compliant = True]. *)
Theorem empty_profiles_are_compliant (float_of_str : string -> option float)
    (self : Transient.TransientSOAEngine) (device_key : string)
    (device : Transient.TransientDevice)
    (parameter_profiles : sdict (list (float * float * float))) :
  sget (Transient.devices self) device_key = Some device ->
  (forall param_name profile, In (param_name, profile) parameter_profiles -> profile = []) ->
  py_max [] = Raised ValueError /\
  (forall p, Transient.validate_transient_profile float_of_str p [] = Returned []) /\
  Transient.validate_transient_simulation float_of_str self device_key parameter_profiles =
    Returned (Transient.SimulationOk
      {| Transient.s_device := device_key; Transient.s_violations := [];
         Transient.s_compliant := true; Transient.s_total_violations := 0 |}).
Proof.
  intros Hdev Hempty. split; [reflexivity|]. split; [reflexivity|].
  unfold Transient.validate_transient_simulation. rewrite Hdev.
  assert (H : Transient.validate_profiles float_of_str device parameter_profiles [] =
              Returned []).
  { induction parameter_profiles as [|[n prof] rest IH]; [reflexivity|].
    cbn [Transient.validate_profiles].
    rewrite (Hempty n prof (or_introl eq_refl)).
    destruct (sget (Transient.parameters device) n);
      cbn; apply IH; intros n' prof' Hin; apply (Hempty n'); now right. }
  now rewrite H.
Qed.

Lemma empty_profiles_are_compliant_witness :
  sget (Transient.devices transient_engine) "nmos_core" <> None /\
  Transient.validate_transient_simulation demo_float_of_str transient_engine "nmos_core"
    [("vhigh_ds_on", []); ("vhigh_ds_off", [])] =
    Returned (Transient.SimulationOk
      {| Transient.s_device := "nmos_core"; Transient.s_violations := [];
         Transient.s_compliant := true; Transient.s_total_violations := 0 |}).
Proof.
  split; [discriminate|].
  refine (proj2 (proj2 (empty_profiles_are_compliant demo_float_of_str transient_engine
                          "nmos_core" _ _ eq_refl _))).
  intros n prof [[= _ <-] | [[= _ <-] | []]]; reflexivity.
Defined.

(* ===================================================================== *)
(** ** Compliance checks and the validation report *)
(* ===================================================================== *)

Lemma sset_keys {V : Type} (d : sdict V) (k k' : string) (v : V) :
  In k (map fst (sset d k' v)) -> In k (map fst d) \/ k = k'.
Proof.
  unfold sset. induction d as [|[a b] d IH]; cbn.
  - intros [<- | []]. now right.
  - destruct (String.eqb a k'); cbn; intros [<- | H]; auto.
    destruct (IH H); auto.
Qed.

Lemma scenario_test_values_keys (scenario : sdict float) (k : string) :
  In k (map fst (scenario_test_values scenario)) ->
  In k (map fst scenario) /\ k <> "tmaxfrac".
Proof.
  unfold scenario_test_values.
  assert (H : forall acc,
    In k (map fst (fold_left
      (fun acc kv => if negb (String.eqb (fst kv) "tmaxfrac")
                     then sset acc (fst kv) (snd kv) else acc) scenario acc)) ->
    In k (map fst acc) \/ (In k (map fst scenario) /\ k <> "tmaxfrac")).
  { induction scenario as [|[a b] sc IH]; intros acc; cbn [fold_left]; [auto|].
    intros Hin. apply IH in Hin as [Hin | [Hin Hk]]; [|right; split; [now right | assumption]].
    cbn [fst snd] in Hin. destruct (String.eqb a "tmaxfrac") eqn:E; cbn in Hin; [auto|].
    apply sset_keys in Hin as [Hin | ->]; [auto|].
    right. split; [now left|]. intros ->. now rewrite String.eqb_refl in E. }
  intros Hin. destruct (H [] Hin) as [[] | ?]. assumption.
Qed.

Lemma bind_kwargs_returns (formals : list string) (kwargs : sdict float) :
  (forall k, In k (map fst kwargs) -> ~ In k formals) ->
  bind_kwargs formals kwargs = Returned kwargs.
Proof.
  intros H. unfold bind_kwargs.
  destruct (existsb _ kwargs) eqn:E; [|reflexivity].
  apply existsb_exists in E as ([k v] & Hin & Hk).
  apply existsb_exists in Hk as (f & Hf & Heq). cbn in Heq.
  apply String.eqb_eq in Heq. subst f.
  destruct (H k); [apply (in_map fst _ _ Hin) | assumption].
Qed.

Lemma reserved_free_keys (scenario : sdict float) (k : string) :
  reserved_free scenario = true -> In k (map fst scenario) ->
  k <> "self" /\ k <> "device_key".
Proof.
  unfold reserved_free. rewrite forallb_forall. intros H Hin.
  apply in_map_iff in Hin as ([a b] & <- & Hin). specialize (H _ Hin). cbn in H |- *.
  apply andb_prop in H as [H1 H2].
  split; intros ->; [now rewrite String.eqb_refl in H1 | now rewrite String.eqb_refl in H2].
Qed.

Section ComplianceFacts.
Variable py_repr : pyobj -> string.
Variable float_of_str : string -> option float.

Lemma validate_value_returns (p : SOAParameter) (x t : float) (s : string) :
  name p = PStr s -> exists b, validate_value py_repr float_of_str p x t = Returned b.
Proof.
  intros Hn. unfold validate_value, is_no_limit.
  destruct (get_value_at_tmaxfrac_returns p t) as [limit ->]. cbn [bind].
  destruct (String.eqb _ _); [eauto|].
  unfold compare_to_limit. rewrite Hn.
  destruct (py_float float_of_str limit) as [f|e] eqn:Hf; cbn [bind py_lower].
  - destruct (_ || _); [cbn; eauto|]. destruct (_ || _); cbn; eauto.
  - destruct (py_float_raises _ _ _ Hf) as [-> | ->]; cbn; eauto.
Qed.

Lemma validate_conditions_loop_returns (items : list (string * SOAParameter))
    (t : float) (kw : sdict float) :
  forallb (fun kv => match name (snd kv) with PStr _ => true | _ => false end) items = true ->
  forall acc, exists vs,
    validate_conditions_loop py_repr float_of_str items t kw acc = Returned vs.
Proof.
  induction items as [|[n p] items IH]; intros Hn acc; cbn [validate_conditions_loop];
    [eauto|].
  cbn in Hn. apply andb_prop in Hn as [Hp Hn].
  destruct (sget kw n) as [x|]; [|now apply IH].
  destruct (name p) as [| | |s| |] eqn:Ep; try discriminate.
  destruct (validate_value_returns p x t s Ep) as [b ->]. cbn [bind].
  destruct b; cbn [negb]; [now apply IH|].
  destruct (get_value_at_tmaxfrac_returns p t) as [limit ->]. cbn [bind]. now apply IH.
Qed.

Lemma get_parameter_limits_loop_returns (items : list (string * SOAParameter)) (t : float) :
  forall acc, exists ls,
    get_parameter_limits_loop py_repr items t acc = Returned ls.
Proof.
  induction items as [|[n p] items IH]; intros acc; cbn [get_parameter_limits_loop];
    [eauto|].
  unfold is_no_limit. destruct (get_value_at_tmaxfrac_returns p t) as [limit ->].
  cbn [bind]. apply IH.
Qed.

Lemma check_soa_compliance_returns (self : SOARulesEngine) (device_key : string)
    (device : DeviceRules) (t : float) (kw : sdict float) :
  sget (devices self) device_key = Some device ->
  names_are_strings device = true ->
  (forall k, In k (map fst kw) -> k <> "self" /\ k <> "tmaxfrac") ->
  exists c, check_soa_compliance py_repr float_of_str self device_key t kw =
            Returned (ComplianceOk c).
Proof.
  intros Hdev Hn Hkw. unfold check_soa_compliance. rewrite Hdev.
  rewrite bind_kwargs_returns.
  2:{ intros k Hk [<- | [<- | []]]; destruct (Hkw _ Hk); congruence. }
  cbn [bind]. unfold validate_conditions, get_parameter_limits.
  destruct (validate_conditions_loop_returns (parameters device) t kw Hn []) as [vs ->].
  destruct (get_parameter_limits_loop_returns (parameters device) t []) as [ls ->].
  cbn [bind]. eauto.
Qed.

Lemma generate_validation_report_loop_spec (self : SOARulesEngine) (device_key : string)
    (device : DeviceRules) (scenarios : list (sdict float)) :
  sget (devices self) device_key = Some device ->
  names_are_strings device = true ->
  forallb reserved_free scenarios = true ->
  forall i results total p f,
  exists cs,
    Forall2 (fun scenario c =>
               check_soa_compliance py_repr float_of_str self device_key
                 (scenario_tmaxfrac scenario) (scenario_test_values scenario) =
               Returned (ComplianceOk c)) scenarios cs /\
    generate_validation_report_loop py_repr float_of_str self device_key scenarios i results
      {| total_scenarios := total; passed := p; failed := f |} =
    Returned (results ++ number_results i cs,
              {| total_scenarios := total;
                 passed := p + List.length (filter c_compliant cs);
                 failed := f + List.length (filter (fun c => negb (c_compliant c)) cs) |}).
Proof.
  intros Hdev Hn. induction scenarios as [|sc scenarios IH]; intros Hfree i results total p f.
  - exists []. split; [constructor|]. cbn. now rewrite app_nil_r, !Nat.add_0_r.
  - cbn in Hfree. apply andb_prop in Hfree as [Hsc Hfree].
    assert (Hkeys : forall k, In k (map fst (scenario_test_values sc)) ->
                              k <> "self" /\ k <> "device_key" /\ k <> "tmaxfrac").
    { intros k Hk. apply scenario_test_values_keys in Hk as [Hk Ht].
      destruct (reserved_free_keys _ _ Hsc Hk). auto. }
    destruct (check_soa_compliance_returns self device_key device (scenario_tmaxfrac sc)
                (scenario_test_values sc) Hdev Hn) as [c Hc].
    { intros k Hk. destruct (Hkeys k Hk) as (? & ? & ?). auto. }
    cbn [generate_validation_report_loop]. rewrite bind_kwargs_returns.
    2:{ intros k Hk [<- | [<- | [<- | []]]]; destruct (Hkeys _ Hk) as (? & ? & ?); congruence. }
    cbn [bind]. rewrite Hc. cbn [bind].
    destruct (c_compliant c) eqn:Ec; cbn [total_scenarios passed failed].
    + destruct (IH Hfree (S i) (results ++ [{| scenario_id := i; scenario_result := ComplianceOk c |}])
                  total (p + 1) f) as (cs & Hall & ->).
      exists (c :: cs). split; [now constructor|].
      cbn [number_results filter]. rewrite Ec. cbn [negb List.length].
      rewrite <- app_assoc. cbn [app]. do 3 f_equal. lia.
    + destruct (IH Hfree (S i) (results ++ [{| scenario_id := i; scenario_result := ComplianceOk c |}])
                  total p (f + 1)) as (cs & Hall & ->).
      exists (c :: cs). split; [now constructor|].
      cbn [number_results filter]. rewrite Ec. cbn [negb List.length].
      rewrite <- app_assoc. cbn [app]. do 3 f_equal. lia.
Qed.

Lemma number_results_length (cs : list Compliance) : forall i,
  List.length (number_results i cs) = List.length cs.
Proof. induction cs as [|c cs IH]; intros i; cbn; [reflexivity | now rewrite IH]. Qed.

Lemma filter_partition_length {A : Type} (f : A -> bool) (l : list A) :
  List.length (filter f l) + List.length (filter (fun x => negb (f x)) l) = List.length l.
Proof.
  induction l as [|x l IH]; cbn; [reflexivity|]. destruct (f x); cbn; lia.
Qed.

(** C9 (as the code has it): for a device of the registry whose parameters
    carry string names, and scenarios in which no observation is called
    [self] or [device_key], the report holds one result per scenario, in the
    order of the scenarios and numbered from 0: the result of
    [check_soa_compliance] at the scenario's tmaxfrac (default 0.1) on its
    other entries.  [passed] counts the compliant results, [failed] the
    others, and [passed + failed] is the number of scenarios. *)
Theorem generate_validation_report_is_ordered_and_tallied
    (self : SOARulesEngine) (device_key : string) (device : DeviceRules)
    (test_scenarios : list (sdict float)) :
  sget (devices self) device_key = Some device ->
  names_are_strings device = true ->
  forallb reserved_free test_scenarios = true ->
  exists (cs : list Compliance) (report : Report),
    generate_validation_report py_repr float_of_str self device_key test_scenarios =
      Returned (ReportOk report) /\
    Forall2 (fun scenario c =>
               check_soa_compliance py_repr float_of_str self device_key
                 (scenario_tmaxfrac scenario) (scenario_test_values scenario) =
               Returned (ComplianceOk c)) test_scenarios cs /\
    r_device report = device_key /\
    r_results report = number_results 0 cs /\
    List.length (r_results report) = List.length test_scenarios /\
    total_scenarios (r_summary report) = List.length test_scenarios /\
    passed (r_summary report) = List.length (filter c_compliant cs) /\
    passed (r_summary report) + failed (r_summary report) = List.length test_scenarios.
Proof.
  intros Hdev Hn Hfree.
  destruct (generate_validation_report_loop_spec self device_key device test_scenarios
              Hdev Hn Hfree 0 [] (List.length test_scenarios) 0 0) as (cs & Hall & Hloop).
  unfold generate_validation_report, scontains, dict_contains.
  unfold sget in Hdev. rewrite Hdev. cbn [negb]. rewrite Hloop. cbn [bind fst snd app].
  eexists cs, _. split; [reflexivity|]. cbn [r_device r_summary r_results
    total_scenarios passed failed].
  pose proof (Forall2_length Hall) as Hlen.
  repeat split; auto.
  - now rewrite number_results_length.
  - cbn [Nat.add]. rewrite filter_partition_length. auto.
Qed.

End ComplianceFacts.

Lemma generate_validation_report_is_ordered_and_tallied_witness :
  exists (cs : list Compliance) (report : Report),
    generate_validation_report demo_repr demo_float_of_str demo_engine "nmos_core"
      demo_scenarios = Returned (ReportOk report) /\
    r_results report = number_results 0 cs /\
    map c_compliant cs = [true; false; true] /\
    passed (r_summary report) + failed (r_summary report) = 3.
Proof.
  destruct (generate_validation_report_is_ordered_and_tallied demo_repr demo_float_of_str
              demo_engine "nmos_core" mos_rules demo_scenarios)
    as (cs & report & Hrun & _ & _ & Hres & _ & _ & _ & Hsum);
    [reflexivity | reflexivity | reflexivity |].
  exists cs, report. repeat split; try assumption.
  vm_compute in Hrun. injection Hrun as <-. cbn [r_results] in Hres.
  destruct cs as [|c1 [|c2 [|c3 [|c4 cs]]]]; try discriminate Hres.
  cbn in Hres. injection Hres as <- <- <-. reflexivity.
Defined.

(** C9, counterexample: one scenario with an observation called
    [device_key]; the call [check_soa_compliance(device_key, tmaxfrac,
    **test_values)] raises and no report is produced. *)
Lemma report_fails_on_reserved_observation_name :
  scontains (devices demo_engine) "nmos_core" = true /\
  generate_validation_report demo_repr demo_float_of_str demo_engine "nmos_core"
    [[("tmaxfrac", 0.1%float); ("device_key", 1%float)]] = Raised TypeError.
Proof. split; vm_compute; reflexivity. Qed.

(* ===================================================================== *)
(** ** Loading a canonical document *)
(* ===================================================================== *)

Section LoadFacts.
Variable float_of_str : string -> option float.
Variable update_from_pairs : sdict pyobj -> list pyobj -> sdict pyobj * outcome pyobj.

Lemma py_in_dict (d : sdict pyobj) (k : string) :
  py_in k (PDict d) = Returned (match sget d k with Some _ => true | None => false end).
Proof. reflexivity. Qed.

Lemma load_without_devices (self : SOARulesEngine) (d rules : sdict pyobj) :
  sget d "soa_rules" = Some (PDict rules) ->
  sget rules "devices" = None ->
  absent_or_dict rules "global_config" ->
  exists self',
    load_from_json float_of_str update_from_pairs (PDict d) self = (self', Returned PNone) /\
    devices self' = devices self.
Proof.
  intros Hr Hd Hg. unfold load_from_json, sbind, lift, sret.
  rewrite py_in_dict, Hr. cbn [py_getitem]. rewrite Hr, !py_in_dict, Hd.
  destruct Hg as [Hg | [m Hg]]; rewrite Hg; cbn; [eauto|].
  rewrite Hg. cbn. eauto.
Qed.

Lemma device_without_parameters (dd : sdict pyobj) :
  sget dd "parameters" = None ->
  absent_or_dict dd "multi_level" ->
  exists rules,
    device_rules_from_dict float_of_str (PDict dd) = Returned rules /\
    parameters rules = [].
Proof.
  intros Hp Hm. unfold device_rules_from_dict. rewrite py_in_dict, Hp. cbn [bind py_get].
  destruct Hm as [Hm | [m Hm]]; rewrite Hm; cbn; eauto.
Qed.

Lemma parameter_without_multi_level (param_name : string) (pd : sdict pyobj) :
  sget pd "values" = None \/
  (exists vs, sget pd "values" = Some (PDict vs) /\ sget vs "multi_level" = None) ->
  (forall o, sget pd "severity" = Some o -> exists s, Severity_of o = Returned s) ->
  (forall o, sget pd "type" = Some o -> exists ty, ParameterType_of o = Returned ty) ->
  exists p,
    load_parameter float_of_str param_name (PDict pd) = Returned p /\
    values p = [] /\
    forall t, get_value_at_tmaxfrac p t = Returned PNone.
Proof.
  intros Hv Hs Ht. unfold load_parameter. rewrite py_in_dict.
  assert (Hsev : exists s, Severity_of (match sget pd "severity" with
                                        | Some v => v | None => PStr "high" end) = Returned s).
  { destruct (sget pd "severity") as [o|]; [now apply Hs | now exists HIGH]. }
  assert (Hty : exists ty, ParameterType_of (match sget pd "type" with
                                             | Some v => v | None => PStr "general" end)
                           = Returned ty).
  { destruct (sget pd "type") as [o|]; [now apply Ht | now exists GENERAL]. }
  destruct Hsev as [s Hsev], Hty as [ty Hty].
  destruct Hv as [Hv | (vs & Hv & Hml)]; rewrite Hv; cbn [bind py_getitem py_get].
  - rewrite Hsev. cbn [bind]. rewrite Hty. cbn [bind]. eexists. split; [reflexivity|].
    split; [reflexivity|]. intros t. now apply empty_table_resolves_to_none.
  - rewrite Hv. cbn [bind]. rewrite py_in_dict, Hml. cbn [bind].
    rewrite Hsev. cbn [bind]. rewrite Hty. cbn [bind]. eexists. split; [reflexivity|].
    split; [reflexivity|]. intros t. now apply empty_table_resolves_to_none.
Qed.

Lemma load_parameter_ignores_extras (param_name : string) (pd pd' : sdict pyobj) :
  agree_on parameter_fields pd pd' ->
  load_parameter float_of_str param_name (PDict pd') =
  load_parameter float_of_str param_name (PDict pd).
Proof.
  intros H. unfold load_parameter. rewrite !py_in_dict. cbn [py_getitem py_get].
  rewrite (H "values"), (H "name"), (H "severity"), (H "type"), (H "unit"),
    (H "description") by (cbn; tauto).
  reflexivity.
Qed.

Lemma device_rules_ignores_extras (dd dd' : sdict pyobj) :
  agree_on device_fields dd dd' ->
  device_rules_from_dict float_of_str (PDict dd') =
  device_rules_from_dict float_of_str (PDict dd).
Proof.
  intros H. unfold device_rules_from_dict. rewrite !py_in_dict. cbn [py_getitem py_get].
  rewrite (H "parameters"), (H "device_type"), (H "subcategory"), (H "multi_level"),
    (H "metadata") by (cbn; tauto).
  reflexivity.
Qed.

Lemma load_from_json_ignores_extras (self : SOARulesEngine)
    (d d' rules rules' : sdict pyobj) :
  sget d "soa_rules" = Some (PDict rules) ->
  sget d' "soa_rules" = Some (PDict rules') ->
  agree_on rules_fields rules rules' ->
  load_from_json float_of_str update_from_pairs (PDict d') self =
  load_from_json float_of_str update_from_pairs (PDict d) self.
Proof.
  intros Hd Hd' H. unfold load_from_json, sbind, lift.
  rewrite !py_in_dict, Hd, Hd'. cbn [py_getitem]. rewrite Hd, Hd', !py_in_dict.
  cbn [py_getitem].
  rewrite (H "global_config"), (H "devices") by (cbn; tauto).
  reflexivity.
Qed.

(** C5 (as the code has it): the loader reports no missing field.  A
    document without [devices] loads and registers no device; a device
    entry without [parameters] is built with an empty parameter mapping; a
    parameter without [values] or without [values.multi_level] is built
    with an empty table, so that its queries resolve to [None] later on.
    Fields the loader does not read are ignored at every level. *)
Theorem load_tolerates_missing_fields :
  (forall self d rules,
     sget d "soa_rules" = Some (PDict rules) ->
     sget rules "devices" = None ->
     absent_or_dict rules "global_config" ->
     exists self',
       load_from_json float_of_str update_from_pairs (PDict d) self =
         (self', Returned PNone) /\
       devices self' = devices self) /\
  (forall dd,
     sget dd "parameters" = None ->
     absent_or_dict dd "multi_level" ->
     exists rules,
       device_rules_from_dict float_of_str (PDict dd) = Returned rules /\
       parameters rules = []) /\
  (forall param_name pd,
     sget pd "values" = None \/
     (exists vs, sget pd "values" = Some (PDict vs) /\ sget vs "multi_level" = None) ->
     (forall o, sget pd "severity" = Some o -> exists s, Severity_of o = Returned s) ->
     (forall o, sget pd "type" = Some o -> exists ty, ParameterType_of o = Returned ty) ->
     exists p,
       load_parameter float_of_str param_name (PDict pd) = Returned p /\
       values p = [] /\
       forall t, get_value_at_tmaxfrac p t = Returned PNone) /\
  (forall self d d' rules rules',
     sget d "soa_rules" = Some (PDict rules) ->
     sget d' "soa_rules" = Some (PDict rules') ->
     agree_on rules_fields rules rules' ->
     load_from_json float_of_str update_from_pairs (PDict d') self =
     load_from_json float_of_str update_from_pairs (PDict d) self) /\
  (forall dd dd',
     agree_on device_fields dd dd' ->
     device_rules_from_dict float_of_str (PDict dd') =
     device_rules_from_dict float_of_str (PDict dd)) /\
  (forall param_name pd pd',
     agree_on parameter_fields pd pd' ->
     load_parameter float_of_str param_name (PDict pd') =
     load_parameter float_of_str param_name (PDict pd)).
Proof.
  split; [exact load_without_devices|].
  split; [exact device_without_parameters|].
  split; [exact parameter_without_multi_level|].
  split; [exact load_from_json_ignores_extras|].
  split; [exact device_rules_ignores_extras | exact load_parameter_ignores_extras].
Qed.

End LoadFacts.

Lemma load_tolerates_missing_fields_witness :
  (exists self',
     load_from_json demo_float_of_str demo_update_from_pairs doc_without_devices
       SOARulesEngine_init = (self', Returned PNone) /\
     devices self' = []) /\
  (exists rules,
     device_rules_from_dict demo_float_of_str
       (PDict [("device_type", PStr "mos_transistor")]) = Returned rules /\
     parameters rules = []) /\
  (exists p,
     load_parameter demo_float_of_str "vhigh_ds_on"
       (PDict [("severity", PStr "high"); ("values", PDict [])]) = Returned p /\
     values p = [] /\
     forall t, get_value_at_tmaxfrac p t = Returned PNone) /\
  device_rules_from_dict demo_float_of_str
    (PDict [("device_type", PStr "mos_transistor"); ("comment", PStr "draft")]) =
  device_rules_from_dict demo_float_of_str (PDict [("device_type", PStr "mos_transistor")]).
Proof.
  destruct (load_tolerates_missing_fields demo_float_of_str demo_update_from_pairs)
    as (Hdev & Hpar & Hval & _ & Hextra & _).
  split.
  { apply (Hdev SOARulesEngine_init _
             [("version", PStr "1.0"); ("technology", PStr "smos10hv")]);
      [reflexivity | reflexivity | left; reflexivity]. }
  split.
  { apply Hpar; [reflexivity | left; reflexivity]. }
  split.
  { apply Hval.
    - right. exists []. split; reflexivity.
    - intros o [= <-]. now exists HIGH.
    - intros o [=]. }
  apply Hextra. intros k Hk. cbn in Hk.
  destruct Hk as [<- | [<- | [<- | [<- | [<- | []]]]]]; reflexivity.
Defined.

(** C5, counterexample: each of the three documents lacks a required field
    and each loads without any error; the device and the parameter are
    registered, and the gap only shows when the parameter is queried. *)
Lemma load_accepts_documents_with_missing_fields :
  load_from_json demo_float_of_str demo_update_from_pairs doc_without_devices
    SOARulesEngine_init = (SOARulesEngine_init, Returned PNone) /\
  (exists self',
     load_from_json demo_float_of_str demo_update_from_pairs doc_without_parameters
       SOARulesEngine_init = (self', Returned PNone) /\
     exists rules, sget (devices self') "nmos_core" = Some rules /\ parameters rules = []) /\
  (exists self',
     load_from_json demo_float_of_str demo_update_from_pairs doc_without_multi_level
       SOARulesEngine_init = (self', Returned PNone) /\
     exists rules p,
       sget (devices self') "nmos_core" = Some rules /\
       sget (parameters rules) "vhigh_ds_on" = Some p /\
       values p = [] /\
       get_value_at_tmaxfrac p 0.1 = Returned PNone).
Proof.
  split; [reflexivity|]. split.
  - eexists. split; [vm_compute; reflexivity|]. eexists. split; reflexivity.
  - eexists. split; [vm_compute; reflexivity|]. eexists _, _. repeat split; reflexivity.
Qed.

(* ===================================================================== *)
(** ** Export followed by load *)
(* ===================================================================== *)

Section DictBuild.
Context {K V : Type} (keq : K -> K -> bool).
Hypothesis keq_sym : forall a b, keq a b = keq b a.

Lemma dict_set_fresh (d : list (K * V)) (k : K) (v : V) :
  dict_get keq d k = None -> dict_set keq d k v = d ++ [(k, v)].
Proof.
  induction d as [|[k' v'] d IH]; cbn; [reflexivity|].
  destruct (keq k' k); [discriminate|]. intros H. now rewrite IH.
Qed.

Lemma dict_ok_fresh (acc rest : list (K * V)) (k : K) (v : V) :
  dict_ok keq (acc ++ (k, v) :: rest) = true -> dict_get keq acc k = None.
Proof.
  induction acc as [|[k' v'] acc IH]; cbn; [reflexivity|].
  intros H. apply andb_prop in H as [H Hok]. apply andb_prop in H as [_ Hnot].
  unfold dict_contains in Hnot.
  destruct (dict_get keq (acc ++ (k, v) :: rest) k') eqn:E; [discriminate|].
  apply (dict_get_app_none keq) in E as [_ E]. cbn in E.
  destruct (keq k k') eqn:Ek; [discriminate|].
  rewrite keq_sym, Ek. now apply IH.
Qed.

(** Filling a dictionary with entries whose keys are all new appends them
    in order. *)
Lemma fold_dict_set_fresh {X : Type} (key : X -> K) (val : X -> V) (items : list X) :
  forall acc,
  dict_ok keq (acc ++ map (fun x => (key x, val x)) items) = true ->
  fold_left (fun a x => dict_set keq a (key x) (val x)) items acc =
  acc ++ map (fun x => (key x, val x)) items.
Proof.
  induction items as [|x items IH]; intros acc Hok; cbn.
  - now rewrite app_nil_r.
  - cbn in Hok. rewrite (dict_set_fresh acc _ _ (dict_ok_fresh _ _ _ _ Hok)).
    rewrite IH; rewrite <- app_assoc; [reflexivity | exact Hok].
Qed.

Lemma dict_get_some_in (d : list (K * V)) (q : K) (v : V) :
  dict_get keq d q = Some v -> exists k, In (k, v) d /\ keq k q = true.
Proof.
  induction d as [|[k' v'] d IH]; cbn; [discriminate|].
  destruct (keq k' q) eqn:E.
  - intros [= <-]. eauto.
  - intros H. destruct (IH H) as (k & Hin & Hk). eauto.
Qed.

Lemma dict_get_in (d : list (K * V)) (k q : K) (v : V) :
  In (k, v) d -> keq k q = true -> dict_get keq d q <> None.
Proof.
  induction d as [|[k' v'] d IH]; cbn; [intros []|].
  intros [[= -> ->] | Hin] Hk.
  - now rewrite Hk.
  - destruct (keq k' q); [discriminate | now apply IH].
Qed.
End DictBuild.

(** Renaming the keys of a well-formed dictionary by a map that is
    injective on them gives a well-formed dictionary. *)
Lemma dict_ok_rename {K K' V V' : Type} (keq : K -> K -> bool) (keq' : K' -> K' -> bool)
    (g : K -> K') (h : V -> V') (d : list (K * V)) :
  (forall a, keq' a a = true) ->
  (forall a b, keq' a b = true -> a = b) ->
  (forall k v k' v', In (k, v) d -> In (k', v') d -> g k = g k' -> k = k') ->
  dict_ok keq d = true ->
  dict_ok keq' (map (fun kv => (g (fst kv), h (snd kv))) d) = true.
Proof.
  intros Hrefl Heq. induction d as [|[k v] d IH]; intros Hinj Hok; cbn; [reflexivity|].
  cbn in Hok. apply andb_prop in Hok as [Hok Hd]. apply andb_prop in Hok as [Hk Hnot].
  rewrite Hrefl, IH; [|intros; eapply Hinj; try right; eassumption | assumption].
  rewrite andb_true_r. cbn [andb]. unfold dict_contains in *.
  destruct (dict_get keq' _ (g k)) as [w|] eqn:E; [|reflexivity].
  apply dict_get_some_in in E as (k' & Hin & Hk').
  apply in_map_iff in Hin as ([k0 v0] & [= <- <-] & Hin). cbn [fst snd] in *.
  apply Heq in Hk'.
  assert (k0 = k) by (eapply Hinj; [right; eassumption | left; reflexivity | assumption]).
  subst k0. destruct (dict_get keq d k) eqn:E'; [discriminate|].
  now destruct (dict_get_in keq d k k v0 Hin Hk).
Qed.

Section RoundTrip.
Variable py_repr : pyobj -> string.
Variable float_of_str : string -> option float.
Variable update_from_pairs : sdict pyobj -> list pyobj -> sdict pyobj * outcome pyobj.

Lemma key_round_trips_eq (k : float) :
  key_round_trips py_repr float_of_str k = true ->
  float_of_str (py_str py_repr (PFloat k)) = Some k.
Proof.
  unfold key_round_trips. destruct (float_of_str _) as [k'|]; [|discriminate].
  intros H. apply FloatAxioms.Leibniz.eqb_spec in H. now subst.
Qed.

Lemma export_values_map (table : list (float * pyobj)) :
  table_ok py_repr float_of_str table = true ->
  export_values py_repr table =
  map (fun kv => (py_str py_repr (PFloat (fst kv)), snd kv)) table.
Proof.
  intros Hok. apply andb_prop in Hok as [Hok Hkeys]. rewrite forallb_forall in Hkeys.
  unfold export_values, sset.
  apply (fold_dict_set_fresh String.eqb String.eqb_sym
           (fun kv => py_str py_repr (PFloat (fst kv))) snd table []).
  cbn [app].
  apply (dict_ok_rename py_eq String.eqb (fun k => py_str py_repr (PFloat k)) (fun v => v));
    [apply String.eqb_refl | intros a b; apply String.eqb_eq | | assumption].
  intros k v k' v' Hin Hin' Hg.
  pose proof (key_round_trips_eq k (Hkeys _ Hin)) as H1.
  pose proof (key_round_trips_eq k' (Hkeys _ Hin')) as H2.
  cbn [fst] in H1, H2. rewrite Hg in H1. congruence.
Qed.

Lemma values_from_items_export (table : list (float * pyobj)) :
  forallb (fun kv => key_round_trips py_repr float_of_str (fst kv)) table = true ->
  forall acc,
  dict_ok py_eq (acc ++ table) = true ->
  values_from_items float_of_str
    (map (fun kv => (py_str py_repr (PFloat (fst kv)), snd kv)) table) acc =
  Returned (acc ++ table).
Proof.
  induction table as [|[k v] table IH]; intros Hkeys acc Hok; cbn.
  - now rewrite app_nil_r.
  - cbn in Hkeys. apply andb_prop in Hkeys as [Hk Hkeys].
    change (py_repr (PFloat k)) with (py_str py_repr (PFloat k)).
    rewrite (key_round_trips_eq k Hk). cbn [bind]. unfold fset.
    rewrite (dict_set_fresh py_eq acc k v (dict_ok_fresh py_eq FloatOrder.eqb_sym _ _ _ _ Hok)).
    rewrite IH; [now rewrite <- app_assoc | assumption | now rewrite <- app_assoc].
Qed.

Lemma Severity_of_value (s : Severity) : Severity_of (PStr (Severity_value s)) = Returned s.
Proof. now destruct s. Qed.

Lemma ParameterType_of_value (t : ParameterType) :
  ParameterType_of (PStr (ParameterType_value t)) = Returned t.
Proof. now destruct t. Qed.

Lemma load_parameter_export (param_name : string) (p : SOAParameter) :
  table_ok py_repr float_of_str (values p) = true ->
  load_parameter float_of_str param_name (export_parameter py_repr p) =
  Returned (without_conditions p).
Proof.
  intros Hok. unfold load_parameter, export_parameter.
  cbn [py_in py_getitem py_get scontains dict_contains sget dict_get String.eqb Ascii.eqb
       Bool.eqb bind].
  rewrite (export_values_map _ Hok).
  apply andb_prop in Hok as [Hok Hkeys].
  rewrite (values_from_items_export _ Hkeys [] Hok). cbn [bind app].
  rewrite Severity_of_value. cbn [bind]. rewrite ParameterType_of_value. reflexivity.
Qed.

Lemma export_parameters_map (params : sdict SOAParameter) :
  dict_ok String.eqb params = true ->
  export_parameters py_repr params =
  map (fun kv => (fst kv, export_parameter py_repr (snd kv))) params.
Proof.
  intros Hok. unfold export_parameters, sset.
  apply (fold_dict_set_fresh String.eqb String.eqb_sym fst
           (fun kv => export_parameter py_repr (snd kv)) params []).
  cbn [app].
  apply (dict_ok_rename String.eqb String.eqb (fun k => k) (export_parameter py_repr));
    [apply String.eqb_refl | intros a b; apply String.eqb_eq | auto | assumption].
Qed.

Lemma load_parameters_export (params : sdict SOAParameter) :
  forallb (fun kv => table_ok py_repr float_of_str (values (snd kv))) params = true ->
  forall acc,
  dict_ok String.eqb
    (acc ++ map (fun kv => (fst kv, without_conditions (snd kv))) params) = true ->
  load_parameters float_of_str
    (map (fun kv => (fst kv, export_parameter py_repr (snd kv))) params) acc =
  Returned (acc ++ map (fun kv => (fst kv, without_conditions (snd kv))) params).
Proof.
  induction params as [|[n p] params IH]; intros Hall acc Hok;
    cbn [map load_parameters fst snd].
  - now rewrite app_nil_r.
  - cbn in Hall. apply andb_prop in Hall as [Hp Hall].
    rewrite (load_parameter_export n p Hp). cbn [bind]. unfold sset.
    cbn in Hok.
    rewrite (dict_set_fresh String.eqb acc n _
               (dict_ok_fresh String.eqb String.eqb_sym _ _ _ _ Hok)).
    rewrite IH; [now rewrite <- app_assoc | assumption | now rewrite <- app_assoc].
Qed.

Lemma export_device_document (d : DeviceRules) :
  has_len (tmaxfrac_levels d) = true ->
  export_device py_repr d = Returned (device_document py_repr d).
Proof.
  unfold export_device, device_document.
  destruct (tmaxfrac_levels d); try discriminate; reflexivity.
Qed.

Lemma device_rules_from_document (d : DeviceRules) :
  device_ok py_repr float_of_str d = true ->
  device_rules_from_dict float_of_str (device_document py_repr d) =
  Returned (without_metadata d).
Proof.
  intros Hok. apply andb_prop in Hok as [Hok Htables]. apply andb_prop in Hok as [_ Hparams].
  unfold device_rules_from_dict, device_document.
  cbn [py_in py_getitem py_get py_items scontains dict_contains sget dict_get String.eqb
       Ascii.eqb Bool.eqb bind].
  rewrite (export_parameters_map _ Hparams).
  rewrite (load_parameters_export _ Htables []); [reflexivity|]. cbn [app].
  apply (dict_ok_rename String.eqb String.eqb (fun k => k) without_conditions);
    [apply String.eqb_refl | intros a b; apply String.eqb_eq | auto | assumption].
Qed.

Lemma export_devices_map (devs : sdict DeviceRules) :
  forallb (fun kv => device_ok py_repr float_of_str (snd kv)) devs = true ->
  forall acc,
  dict_ok String.eqb
    (acc ++ map (fun kv => (fst kv, device_document py_repr (snd kv))) devs) = true ->
  export_devices py_repr devs acc =
  Returned (acc ++ map (fun kv => (fst kv, device_document py_repr (snd kv))) devs).
Proof.
  induction devs as [|[key d] devs IH]; intros Hall acc Hok;
    cbn [map export_devices fst snd].
  - now rewrite app_nil_r.
  - cbn in Hall. apply andb_prop in Hall as [Hd Hall].
    rewrite export_device_document.
    2:{ apply andb_prop in Hd as [Hd _]. now apply andb_prop in Hd as [Hd _]. }
    cbn [bind]. unfold sset. cbn in Hok.
    rewrite (dict_set_fresh String.eqb acc key _
               (dict_ok_fresh String.eqb String.eqb_sym _ _ _ _ Hok)).
    rewrite IH; [now rewrite <- app_assoc | assumption | now rewrite <- app_assoc].
Qed.

Lemma load_devices_documents (devs : sdict DeviceRules) :
  forallb (fun kv => device_ok py_repr float_of_str (snd kv)) devs = true ->
  forall self,
  dict_ok String.eqb
    (devices self ++ map (fun kv => (fst kv, without_metadata (snd kv))) devs) = true ->
  load_devices float_of_str
    (map (fun kv => (fst kv, device_document py_repr (snd kv))) devs) self =
  ({| devices := devices self ++ map (fun kv => (fst kv, without_metadata (snd kv))) devs;
      global_config := global_config self |}, Returned PNone).
Proof.
  induction devs as [|[key d] devs IH]; intros Hall self Hok;
    cbn [map load_devices fst snd].
  - rewrite app_nil_r. now destruct self.
  - cbn in Hall. apply andb_prop in Hall as [Hd Hall].
    unfold sbind, _load_device_from_dict, lift, sbind.
    rewrite (device_rules_from_document d Hd). unfold add_device, sset. cbn in Hok.
    rewrite (dict_set_fresh String.eqb (devices self) key _
               (dict_ok_fresh String.eqb String.eqb_sym _ _ _ _ Hok)).
    rewrite IH; cbn [devices global_config];
      [now rewrite <- app_assoc | assumption | now rewrite <- app_assoc].
Qed.

(** Export followed by load into a new engine: every device comes back
    under its key and in its place, with its type, subcategory, declared
    levels and parameters, and every parameter with its name, severity,
    kind, unit, table and description.  Metadata and conditions are not in
    the document and come back empty. *)
Theorem export_then_load (self : SOARulesEngine) :
  registry_ok py_repr float_of_str self = true ->
  exists doc self',
    export_to_json py_repr self = Returned doc /\
    load_from_json float_of_str update_from_pairs doc SOARulesEngine_init =
      (self', Returned PNone) /\
    devices self' = map (fun kv => (fst kv, without_metadata (snd kv))) (devices self).
Proof.
  intros Hok. unfold registry_ok in Hok.
  apply andb_prop in Hok as [Hok Htech]. apply andb_prop in Hok as [Hok Hver].
  apply andb_prop in Hok as [Hkeys Hdevs].
  unfold export_to_json.
  rewrite (export_devices_map _ Hdevs []).
  2:{ cbn [app].
      apply (dict_ok_rename String.eqb String.eqb (fun k => k) (device_document py_repr));
        [apply String.eqb_refl | intros a b; apply String.eqb_eq | auto | assumption]. }
  cbn [bind app]. unfold sgetitem, scontains, dict_contains in *. unfold sget in *.
  destruct (dict_get String.eqb (global_config self) "version") as [ver|]; [|discriminate].
  destruct (dict_get String.eqb (global_config self) "technology") as [tech|]; [|discriminate].
  cbn [bind]. eexists _, _. split; [reflexivity|].
  unfold load_from_json, sbind, lift, sret.
  cbn [py_in py_getitem py_items scontains dict_contains sget dict_get String.eqb
       Ascii.eqb Bool.eqb update_global_config].
  rewrite (load_devices_documents _ Hdevs).
  2:{ cbn [devices app].
      apply (dict_ok_rename String.eqb String.eqb (fun k => k) without_metadata);
        [apply String.eqb_refl | intros a b; apply String.eqb_eq | auto | assumption]. }
  split; reflexivity.
Qed.

End RoundTrip.

Lemma sget_map_values {V W : Type} (h : V -> W) (d : sdict V) (k : string) :
  sget (map (fun kv => (fst kv, h (snd kv))) d) k = option_map h (sget d k).
Proof.
  unfold sget. induction d as [|[a b] d IH]; cbn; [reflexivity|].
  now destruct (String.eqb a k).
Qed.

(** What the reloaded registry answers: the same device keys, the same
    parameter names under each device, and the same resolved value at every
    level. *)
Corollary export_then_load_queries py_repr float_of_str update_from_pairs
    (self : SOARulesEngine) :
  registry_ok py_repr float_of_str self = true ->
  exists doc self',
    export_to_json py_repr self = Returned doc /\
    load_from_json float_of_str update_from_pairs doc SOARulesEngine_init =
      (self', Returned PNone) /\
    map fst (devices self') = map fst (devices self) /\
    forall device_key rules,
      sget (devices self) device_key = Some rules ->
      exists rules',
        sget (devices self') device_key = Some rules' /\
        device_type rules' = device_type rules /\
        subcategory rules' = subcategory rules /\
        tmaxfrac_levels rules' = tmaxfrac_levels rules /\
        map fst (parameters rules') = map fst (parameters rules) /\
        forall param_name p,
          sget (parameters rules) param_name = Some p ->
          exists p',
            sget (parameters rules') param_name = Some p' /\
            name p' = name p /\ severity p' = severity p /\
            param_type p' = param_type p /\ unit p' = unit p /\
            values p' = values p /\ description p' = description p /\
            forall t, get_value_at_tmaxfrac p' t = get_value_at_tmaxfrac p t.
Proof.
  intros Hok.
  destruct (export_then_load py_repr float_of_str update_from_pairs self Hok)
    as (doc & self' & Hexport & Hload & Hdevs).
  exists doc, self'. split; [assumption|]. split; [assumption|]. rewrite Hdevs. split.
  - rewrite map_map. reflexivity.
  - intros key rules Hget. exists (without_metadata rules).
    rewrite sget_map_values, Hget. split; [reflexivity|].
    cbn [without_metadata device_type subcategory tmaxfrac_levels parameters].
    repeat (split; [reflexivity|]). split; [rewrite map_map; reflexivity|].
    intros n p Hp. exists (without_conditions p).
    rewrite sget_map_values, Hp. repeat split.
Qed.

(** C4: a device with metadata.  The registry is well formed; the export
    succeeds and the load of its document succeeds; the device comes back
    under its key with everything but its metadata, which is empty: the
    document has no [metadata] entry for [_load_device_from_dict] to read. *)
Theorem export_drops_device_metadata :
  registry_ok demo_repr demo_float_of_str engine_with_metadata = true /\
  exists doc devices_doc device_doc self' rules',
    export_to_json demo_repr engine_with_metadata = Returned doc /\
    py_getitem doc "soa_rules" = Returned devices_doc /\
    (ds <- py_getitem devices_doc "devices" ;; py_getitem ds "nmos_core") =
      Returned device_doc /\
    py_in "metadata" device_doc = Returned false /\
    load_from_json demo_float_of_str demo_update_from_pairs doc SOARulesEngine_init =
      (self', Returned PNone) /\
    sget (devices engine_with_metadata) "nmos_core" = Some mos_rules_with_metadata /\
    sget (devices self') "nmos_core" = Some rules' /\
    rules' = without_metadata mos_rules_with_metadata /\
    metadata rules' = PDict [] /\
    metadata mos_rules_with_metadata =
      PDict [("source_sheet", PStr "10HV SOA SYM ON-OFF"); ("technology", PStr "smos10hv")].
Proof.
  split; [vm_compute; reflexivity|].
  eexists _, _, _, _, _.
  split; [vm_compute; reflexivity|].
  split; [vm_compute; reflexivity|].
  split; [vm_compute; reflexivity|].
  split; [vm_compute; reflexivity|].
  split; [vm_compute; reflexivity|].
  split; [vm_compute; reflexivity|].
  split; [vm_compute; reflexivity|].
  split; [vm_compute; reflexivity|].
  split; vm_compute; reflexivity.
Qed.

(** The same registry through the general statement. *)
Example export_then_load_demo :
  exists doc self',
    export_to_json demo_repr engine_with_metadata = Returned doc /\
    load_from_json demo_float_of_str demo_update_from_pairs doc SOARulesEngine_init =
      (self', Returned PNone) /\
    devices self' = [("nmos_core", without_metadata mos_rules_with_metadata)].
Proof.
  apply (export_then_load demo_repr demo_float_of_str demo_update_from_pairs
           engine_with_metadata).
  vm_compute. reflexivity.
Qed.

(* ===================================================================== *)
(** ** More order facts on floats *)
(* ===================================================================== *)

Module FloatEdge.

Lemma SFcompare_eq_r (x y z : spec_float) :
  SFcompare y z = Some Eq -> SFcompare x y = SFcompare x z.
Proof.
  intros H. rewrite (FloatOrder.SFcompare_antisym y x), (FloatOrder.SFcompare_antisym z x).
  now rewrite (FloatOrder.SFcompare_eq_l y z x H).
Qed.

Lemma ltb_leb_trans (x y z : float) :
  (x <? y)%float = true -> (y <=? z)%float = true -> (x <? z)%float = true.
Proof.
  rewrite FloatAxioms.leb_spec, !FloatAxioms.ltb_spec. unfold SFleb, SFltb.
  destruct (SFcompare (Prim2SF y) (Prim2SF z)) as [[]|] eqn:E2; try discriminate.
  - now rewrite <- (SFcompare_eq_r (Prim2SF x) _ _ E2).
  - destruct (SFcompare (Prim2SF x) (Prim2SF y)) as [[]|] eqn:E1; try discriminate.
    now rewrite (FloatOrder.SFcompare_lt_trans _ _ _ E1 E2).
Qed.

Lemma eqb_leb (a b : float) :
  (a =? b)%float = true -> (a <=? b)%float = true /\ (b <=? a)%float = true.
Proof.
  rewrite FloatAxioms.eqb_spec, !FloatAxioms.leb_spec. unfold SFeqb, SFleb.
  rewrite (FloatOrder.SFcompare_antisym (Prim2SF a)).
  destruct (SFcompare _ _) as [[]|]; simpl; try discriminate. auto.
Qed.

Lemma eqb_trans (a b c : float) :
  (a =? b)%float = true -> (b =? c)%float = true -> (a =? c)%float = true.
Proof.
  rewrite !FloatAxioms.eqb_spec. unfold SFeqb.
  destruct (SFcompare (Prim2SF a) (Prim2SF b)) as [[]|] eqn:E1; try discriminate.
  now rewrite (FloatOrder.SFcompare_eq_l _ _ (Prim2SF c) E1).
Qed.

Lemma SFcompare_refl (x : spec_float) : x <> S754_nan -> SFcompare x x = Some Eq.
Proof.
  destruct x as [s|s| |s m e]; cbn; intros H; try reflexivity; try contradiction.
  - now destruct s.
  - rewrite Z.compare_refl. change (Pos.compare_cont Eq m m) with (Pos.compare m m).
    rewrite Pos.compare_refl. now destruct s.
Qed.

(** A float that differs from itself is a NaN: it compares false with
    everything, in both directions. *)
Lemma nan_leb (x y : float) :
  (x =? x)%float = false -> (x <=? y)%float = false /\ (y <=? x)%float = false.
Proof.
  rewrite FloatAxioms.eqb_spec, !FloatAxioms.leb_spec. unfold SFeqb, SFleb.
  destruct (Prim2SF x) as [s|s| |s m e] eqn:E.
  1,2,4: rewrite SFcompare_refl by discriminate; discriminate.
  intros _. cbn. split; [reflexivity|]. now destruct (Prim2SF y).
Qed.

End FloatEdge.

(* ===================================================================== *)
(** ** Insertion and lookup in dictionaries *)
(* ===================================================================== *)

Section DictSetGet.
Context {K V : Type} (keq : K -> K -> bool).
Hypothesis keq_sym : forall a b, keq a b = keq b a.
Hypothesis keq_trans : forall a b c, keq a b = true -> keq b c = true -> keq a c = true.

Lemma dict_get_set (d : list (K * V)) (k q : K) (v : V) :
  dict_get keq (dict_set keq d k v) q = if keq k q then Some v else dict_get keq d q.
Proof.
  induction d as [|[k' v'] d IH]; cbn; [reflexivity|].
  destruct (keq k' k) eqn:Ek; cbn.
  - destruct (keq k' q) eqn:Eq'.
    + rewrite keq_sym in Ek. now rewrite (keq_trans _ _ _ Ek Eq').
    + destruct (keq k q) eqn:Ekq; [|reflexivity].
      now rewrite (keq_trans _ _ _ Ek Ekq) in Eq'.
  - rewrite IH. destruct (keq k' q) eqn:Eq'; [|reflexivity].
    destruct (keq k q) eqn:Ekq; [|reflexivity].
    rewrite keq_sym in Ekq. now rewrite (keq_trans _ _ _ Eq' Ekq) in Ek.
Qed.

Lemma dict_set_length (d : list (K * V)) (k : K) (v : V) :
  List.length (dict_set keq d k v) =
  if dict_contains keq d k then List.length d else S (List.length d).
Proof.
  unfold dict_contains. induction d as [|[k' v'] d IH]; cbn; [reflexivity|].
  destruct (keq k' k); cbn; [reflexivity|]. rewrite IH.
  now destruct (dict_get keq d k).
Qed.

Lemma dict_set_keys_present (d : list (K * V)) (k : K) (v : V) :
  dict_contains keq d k = true -> map fst (dict_set keq d k v) = map fst d.
Proof.
  unfold dict_contains. induction d as [|[k' v'] d IH]; cbn; [discriminate|].
  destruct (keq k' k); cbn; [reflexivity|]. intros H. now rewrite IH.
Qed.
End DictSetGet.

Lemma string_eqb_trans (a b c : string) :
  String.eqb a b = true -> String.eqb b c = true -> String.eqb a c = true.
Proof. rewrite !String.eqb_eq. congruence. Qed.

Lemma sget_sset {V : Type} (d : sdict V) (k q : string) (v : V) :
  sget (sset d k v) q = if String.eqb k q then Some v else sget d q.
Proof. apply (dict_get_set String.eqb String.eqb_sym string_eqb_trans). Qed.

(* ===================================================================== *)
(** ** Further properties of the registry and of static validation *)
(* ===================================================================== *)

(** X1: [add_device] is insert-or-overwrite.  Afterwards the key resolves to
    the new rules and every other key resolves as before; the configuration
    is untouched; an existing key keeps its place and the number of devices
    grows by one only for a new key. *)
Theorem add_device_insert_or_overwrite (self : SOARulesEngine) (device_key : string)
    (rules : DeviceRules) :
  (forall q, sget (devices (add_device self device_key rules)) q =
             if String.eqb device_key q then Some rules else sget (devices self) q) /\
  global_config (add_device self device_key rules) = global_config self /\
  List.length (devices (add_device self device_key rules)) =
    (if scontains (devices self) device_key
     then List.length (devices self) else S (List.length (devices self))) /\
  (scontains (devices self) device_key = true ->
   map fst (devices (add_device self device_key rules)) = map fst (devices self)).
Proof.
  split; [intros q; apply sget_sset|]. split; [reflexivity|]. split.
  - apply dict_set_length.
  - apply dict_set_keys_present.
Qed.

Lemma add_device_insert_or_overwrite_witness :
  scontains (devices demo_engine) "nmos_core" = true /\
  map fst (devices (add_device demo_engine "nmos_core" mos_rules_with_metadata)) =
  map fst (devices demo_engine).
Proof.
  split; [reflexivity|].
  apply (add_device_insert_or_overwrite demo_engine "nmos_core" mos_rules_with_metadata).
  reflexivity.
Defined.

Section StaticValidation.
Variable py_repr : pyobj -> string.
Variable float_of_str : string -> option float.

Lemma validate_value_numeric (p : SOAParameter) (x t : float) (limit : pyobj)
    (v : float) (s : string) :
  get_value_at_tmaxfrac p t = Returned limit ->
  String.eqb (lower (py_str py_repr limit)) "no-limit" = false ->
  py_float float_of_str limit = Returned v ->
  name p = PStr s ->
  validate_value py_repr float_of_str p x t =
  Returned (if str_contains "high" (lower s) || str_contains "max" (lower s)
            then py_le x v
            else if str_contains "low" (lower s) || str_contains "min" (lower s)
                 then py_ge x v
                 else py_le x v).
Proof.
  intros Hv Hs Hf Hn. unfold validate_value, is_no_limit. rewrite Hv. cbn [bind].
  rewrite Hs. unfold compare_to_limit. rewrite Hf, Hn. cbn [bind py_lower].
  destruct (_ || _); [reflexivity|]. destruct (_ || _); reflexivity.
Qed.

(** X2: against a numeric limit the direction of the comparison is read off
    the lower-cased name.  "high" or "max" anywhere in the name makes the
    limit an upper bound, even when the name also contains "low" or "min";
    a name with "low" or "min" only makes it a lower bound; any other name
    is treated as an upper bound. *)
Theorem validate_value_direction_by_name (p : SOAParameter) (x t : float)
    (limit : pyobj) (v : float) (s : string) :
  get_value_at_tmaxfrac p t = Returned limit ->
  String.eqb (lower (py_str py_repr limit)) "no-limit" = false ->
  py_float float_of_str limit = Returned v ->
  name p = PStr s ->
  (str_contains "high" (lower s) || str_contains "max" (lower s) = true ->
   validate_value py_repr float_of_str p x t = Returned (py_le x v)) /\
  (str_contains "high" (lower s) || str_contains "max" (lower s) = false ->
   str_contains "low" (lower s) || str_contains "min" (lower s) = true ->
   validate_value py_repr float_of_str p x t = Returned (py_ge x v)) /\
  (str_contains "high" (lower s) || str_contains "max" (lower s) = false ->
   str_contains "low" (lower s) || str_contains "min" (lower s) = false ->
   validate_value py_repr float_of_str p x t = Returned (py_le x v)).
Proof.
  intros Hv Hs Hf Hn. rewrite (validate_value_numeric p x t limit v s Hv Hs Hf Hn).
  repeat split.
  - now intros ->.
  - now intros -> ->.
  - now intros -> ->.
Qed.

(** X3: both bounds are inclusive and NaN never passes.  Whatever the name,
    an observation equal to the numeric limit passes; an observation that
    is NaN fails, and so does every observation against a NaN limit. *)
Theorem validate_value_boundary_and_nan (p : SOAParameter) (x t : float)
    (limit : pyobj) (v : float) (s : string) :
  get_value_at_tmaxfrac p t = Returned limit ->
  String.eqb (lower (py_str py_repr limit)) "no-limit" = false ->
  py_float float_of_str limit = Returned v ->
  name p = PStr s ->
  (py_eq x v = true -> validate_value py_repr float_of_str p x t = Returned true) /\
  (py_eq x x = false -> validate_value py_repr float_of_str p x t = Returned false) /\
  (py_eq v v = false -> validate_value py_repr float_of_str p x t = Returned false).
Proof.
  intros Hv Hs Hf Hn. rewrite (validate_value_numeric p x t limit v s Hv Hs Hf Hn).
  unfold py_eq, py_le, py_ge. repeat split.
  - intros H. destruct (FloatEdge.eqb_leb _ _ H) as [H1 H2]. rewrite H1, H2.
    destruct (_ || _); [reflexivity|]. destruct (_ || _); reflexivity.
  - intros H. destruct (FloatEdge.nan_leb x v H) as [H1 H2]. rewrite H1, H2.
    destruct (_ || _); [reflexivity|]. destruct (_ || _); reflexivity.
  - intros H. destruct (FloatEdge.nan_leb v x H) as [H1 H2]. rewrite H1, H2.
    destruct (_ || _); [reflexivity|]. destruct (_ || _); reflexivity.
Qed.

End StaticValidation.

Lemma validate_value_direction_by_name_witness :
  validate_value demo_repr demo_float_of_str (limit_parameter "vlow_max_gb" 1.5) 0.1 0.1 =
    Returned true /\
  validate_value demo_repr demo_float_of_str (limit_parameter "vlow_gb" 1.5) 0.1 0.1 =
    Returned false.
Proof.
  split.
  - destruct (validate_value_direction_by_name demo_repr demo_float_of_str
                (limit_parameter "vlow_max_gb" 1.5) 0.1 0.1 (PFloat 1.5) 1.5 "vlow_max_gb")
      as (Hupper & _ & _); [reflexivity | reflexivity | reflexivity | reflexivity |].
    apply Hupper. reflexivity.
  - destruct (validate_value_direction_by_name demo_repr demo_float_of_str
                (limit_parameter "vlow_gb" 1.5) 0.1 0.1 (PFloat 1.5) 1.5 "vlow_gb")
      as (_ & Hlower & _); [reflexivity | reflexivity | reflexivity | reflexivity |].
    apply Hlower; reflexivity.
Defined.

Lemma validate_value_boundary_and_nan_witness :
  validate_value demo_repr demo_float_of_str (limit_parameter "vlow_gb" 1.5) 1.5 0.1 =
    Returned true /\
  validate_value demo_repr demo_float_of_str (limit_parameter "vhigh_gs" 1.5) nan 0.1 =
    Returned false.
Proof.
  split.
  - destruct (validate_value_boundary_and_nan demo_repr demo_float_of_str
                (limit_parameter "vlow_gb" 1.5) 1.5 0.1 (PFloat 1.5) 1.5 "vlow_gb")
      as (Heq & _ & _); [reflexivity | reflexivity | reflexivity | reflexivity |].
    apply Heq. reflexivity.
  - destruct (validate_value_boundary_and_nan demo_repr demo_float_of_str
                (limit_parameter "vhigh_gs" 1.5) nan 0.1 (PFloat 1.5) 1.5 "vhigh_gs")
      as (_ & Hnan & _); [reflexivity | reflexivity | reflexivity | reflexivity |].
    apply Hnan. reflexivity.
Defined.

Section ConditionsFacts.
Variable py_repr : pyobj -> string.
Variable float_of_str : string -> option float.






End ConditionsFacts.



Section LimitsFacts.
Variable py_repr : pyobj -> string.

(** The entry [get_parameter_limits] builds for one parameter. *)
Lemma get_parameter_limits_loop_entries (items : list (string * SOAParameter)) (t : float) :
  forall acc, exists infos,
    get_parameter_limits_loop py_repr items t acc =
      Returned (fold_left (fun a kv => sset a (fst kv) (snd kv)) infos acc) /\
    map fst infos = map fst items /\
    Forall2 (fun kv info =>
               get_value_at_tmaxfrac (snd kv) t = Returned (li_value (snd info)) /\
               is_no_limit py_repr (snd kv) t = Returned (li_no_limit (snd info)) /\
               li_unit (snd info) = unit (snd kv) /\
               li_severity (snd info) = Severity_value (severity (snd kv)) /\
               li_type (snd info) = ParameterType_value (param_type (snd kv)))
      items infos.
Proof.
  induction items as [|[n p] items IH]; intros acc.
  - exists []. repeat split; constructor.
  - cbn [get_parameter_limits_loop]. unfold is_no_limit.
    destruct (get_value_at_tmaxfrac_returns p t) as [value Hv]. rewrite Hv. cbn [bind].
    destruct (IH (sset acc n
                {| li_value := value; li_unit := unit p;
                   li_severity := Severity_value (severity p);
                   li_type := ParameterType_value (param_type p);
                   li_no_limit := String.eqb (lower (py_str py_repr value)) "no-limit" |}))
      as (infos & Hrun & Hkeys & Hall).
    eexists ((n, _) :: infos). split; [exact Hrun|]. split; [cbn; now rewrite Hkeys|].
    constructor; [|exact Hall]. cbn. rewrite Hv. cbn. auto.
Qed.

(** X6: [get_parameter_limits] never raises and reports every parameter of
    the device, observed or not: under each parameter name (the names of a
    dict being distinct) it gives the value resolved at the level, the
    [no_limit] flag of [is_no_limit], the unit, the severity and the kind;
    the entries come in the order of the parameters. *)
Theorem get_parameter_limits_covers_every_parameter (device : DeviceRules) (t : float) :
  dict_ok String.eqb (parameters device) = true ->
  exists limits,
    get_parameter_limits py_repr device t = Returned limits /\
    map fst limits = map fst (parameters device) /\
    forall n p, sget (parameters device) n = Some p ->
      exists info,
        sget limits n = Some info /\
        get_value_at_tmaxfrac p t = Returned (li_value info) /\
        is_no_limit py_repr p t = Returned (li_no_limit info) /\
        li_unit info = unit p /\
        li_severity info = Severity_value (severity p) /\
        li_type info = ParameterType_value (param_type p).
Proof.
  intros Hok. unfold get_parameter_limits.
  destruct (get_parameter_limits_loop_entries (parameters device) t [])
    as (infos & Hrun & Hkeys & Hall).
  assert (Hinfos : dict_ok String.eqb infos = true).
  { clear Hrun. revert infos Hkeys Hall Hok.
    induction (parameters device) as [|[n p] items IH]; intros [|[n' i] infos] Hkeys Hall Hok;
      try discriminate; [reflexivity|].
    cbn in Hkeys. injection Hkeys as -> Hkeys. inversion Hall; subst.
    cbn in Hok |- *. apply andb_prop in Hok as [Hok Hrest].
    apply andb_prop in Hok as [Hrefl Hnot].
    rewrite Hrefl, (IH infos Hkeys H4 Hrest), andb_true_r. cbn [andb].
    unfold dict_contains in *.
    destruct (dict_get String.eqb infos n) as [w|] eqn:E; [|reflexivity].
    apply dict_get_some_in in E as (k & Hin & Hk). apply String.eqb_eq in Hk. subst k.
    apply (in_map fst) in Hin. cbn in Hin. rewrite Hkeys in Hin.
    apply in_map_iff in Hin as ([n0 p0] & Heq & Hin). cbn in Heq. subst n0.
    destruct (dict_get String.eqb items n) eqn:E'; [discriminate|].
    now destruct (dict_get_in String.eqb items n n p0 Hin (String.eqb_refl n)). }
  assert (Hfold : fold_left (fun a kv => sset a (fst kv) (snd kv)) infos [] = infos).
  { assert (Hid : map (fun x : string * LimitInfo => (fst x, snd x)) infos = infos).
    { erewrite map_ext; [apply map_id | now intros [a b]]. }
    etransitivity;
      [apply (fold_dict_set_fresh String.eqb String.eqb_sym fst snd infos [])|].
    - cbn [app]. now rewrite Hid.
    - cbn [app]. exact Hid. }
  rewrite Hfold in Hrun. exists infos. split; [exact Hrun|]. split; [exact Hkeys|].
  clear Hrun Hfold Hinfos Hok. revert infos Hkeys Hall.
  induction (parameters device) as [|[n0 p0] items IH]; intros [|[n' i] infos] Hkeys Hall n p Hget;
    try discriminate.
  cbn in Hkeys. injection Hkeys as -> Hkeys. inversion Hall; subst.
  unfold sget in *. cbn in Hget |- *. destruct (String.eqb n0 n).
  - injection Hget as <-. exists i. cbn in H2. tauto.
  - now apply (IH infos Hkeys H4).
Qed.

End LimitsFacts.

Lemma get_parameter_limits_covers_every_parameter_witness :
  exists limits,
    get_parameter_limits demo_repr gate_rules 0.1 = Returned limits /\
    map fst limits = ["vhigh_gs"; "vlow_gb"].
Proof.
  destruct (get_parameter_limits_covers_every_parameter demo_repr gate_rules 0.1)
    as (limits & Hrun & Hkeys & _); [reflexivity|].
  exists limits. split; [exact Hrun | exact Hkeys].
Defined.

(* ===================================================================== *)
(** ** Further properties of load and export *)
(* ===================================================================== *)

Section LoadErrors.
Variable float_of_str : string -> option float.
Variable update_from_pairs : sdict pyobj -> list pyobj -> sdict pyobj * outcome pyobj.

Lemma load_devices_prefix (good : list (string * pyobj)) :
  Forall (fun kv => exists r, device_rules_from_dict float_of_str (snd kv) = Returned r) good ->
  forall self, exists self1,
    load_devices float_of_str good self = (self1, Returned PNone) /\
    (forall tail, load_devices float_of_str (good ++ tail) self =
                  load_devices float_of_str tail self1) /\
    global_config self1 = global_config self /\
    (forall k d, In (k, d) good -> scontains (devices self1) k = true) /\
    (forall q, scontains (devices self) q = true -> scontains (devices self1) q = true) /\
    (forall q, scontains (devices self1) q = true ->
               scontains (devices self) q = true \/ In q (map fst good)).
Proof.
  induction good as [|[k d] good IH]; intros Hall self.
  - exists self. cbn. repeat split; auto.
  - inversion Hall as [|? ? [r Hr] Hrest]; subst. cbn [snd] in Hr.
    destruct (IH Hrest (add_device self k r)) as (self1 & Hrun & Htail & Hgc & Hin & Hold & Hnew).
    assert (Hstep : forall tail,
              load_devices float_of_str ((k, d) :: tail) self =
              load_devices float_of_str tail (add_device self k r)).
    { intros tail. cbn [load_devices]. unfold sbind, _load_device_from_dict, lift, sbind.
      now rewrite Hr. }
    exists self1. split; [rewrite Hstep; exact Hrun|].
    split; [intros tail; cbn [app]; rewrite Hstep; apply Htail|].
    split; [exact Hgc|].
    assert (Hadd : forall q, scontains (devices (add_device self k r)) q =
                             String.eqb k q || scontains (devices self) q).
    { intros q. unfold scontains, dict_contains. cbn [devices add_device].
      fold (sget (sset (devices self) k r) q). rewrite sget_sset.
      destruct (String.eqb k q); [reflexivity|]. reflexivity. }
    split; [|split].
    + intros k' d' [[= <- <-] | Hin']; [|now apply (Hin k' d')].
      apply Hold. now rewrite Hadd, String.eqb_refl.
    + intros q Hq. apply Hold. rewrite Hadd, Hq. apply orb_true_r.
    + intros q Hq. destruct (Hnew q Hq) as [H | H]; [|right; now right].
      rewrite Hadd in H. apply orb_prop in H as [H | H]; [|now left].
      right. left. now apply String.eqb_eq.
Qed.

(** X7: the load is not all-or-nothing across devices.  [load_devices]
    registers the entries in document order and stops at the first one that
    raises: the devices before it are registered and stay so, the failing
    entry and the entries after it leave no trace, and the error is the one
    that entry raised. *)
Theorem load_devices_stops_at_first_failure (good rest : list (string * pyobj))
    (device_key : string) (bad : pyobj) (e : pyexn) (self : SOARulesEngine) :
  Forall (fun kv => exists r, device_rules_from_dict float_of_str (snd kv) = Returned r) good ->
  device_rules_from_dict float_of_str bad = Raised e ->
  exists self1,
    load_devices float_of_str good self = (self1, Returned PNone) /\
    load_devices float_of_str (good ++ (device_key, bad) :: rest) self = (self1, Raised e) /\
    (forall k d, In (k, d) good -> scontains (devices self1) k = true) /\
    (forall q, scontains (devices self1) q = true ->
               scontains (devices self) q = true \/ In q (map fst good)).
Proof.
  intros Hgood Hbad.
  destruct (load_devices_prefix good Hgood self) as (self1 & Hrun & Htail & _ & Hin & _ & Hnew).
  exists self1. split; [exact Hrun|]. split; [|split; assumption].
  rewrite Htail. cbn [load_devices]. unfold sbind, _load_device_from_dict, lift, sbind.
  now rewrite Hbad.
Qed.

Lemma values_from_items_unparsable (items : list (string * pyobj)) (k : string) (v : pyobj) :
  In (k, v) items -> float_of_str k = None ->
  forall acc, values_from_items float_of_str items acc = Raised ValueError.
Proof.
  induction items as [|[k' v'] items IH]; intros Hin Hk acc; [destruct Hin|].
  cbn [values_from_items py_float].
  destruct (float_of_str k') as [f|] eqn:E; cbn [bind]; [|reflexivity].
  destruct Hin as [[= -> ->] | Hin]; [congruence | now apply IH].
Qed.

Lemma load_parameters_failure (good rest : list (string * pyobj)) (n : string)
    (bad : pyobj) (e : pyexn) :
  Forall (fun kv => exists p, load_parameter float_of_str (fst kv) (snd kv) = Returned p) good ->
  load_parameter float_of_str n bad = Raised e ->
  forall acc, load_parameters float_of_str (good ++ (n, bad) :: rest) acc = Raised e.
Proof.
  induction good as [|[k d] good IH]; intros Hall Hbad acc; cbn [app load_parameters].
  - now rewrite Hbad.
  - inversion Hall as [|? ? [p Hp] Hrest]; subst. cbn [fst snd] in Hp. rewrite Hp.
    cbn [bind]. now apply IH.
Qed.

(** X8: a level that [float] cannot read makes the load of its device fail.
    If the [multi_level] mapping of a parameter has a key that is not the
    text of a number, [load_parameter] raises [ValueError], whatever the
    other keys and fields are; a device entry holding such a parameter
    after parameters that load raises the same error, and
    [_load_device_from_dict] leaves the engine exactly as it was. *)
Theorem unparsable_level_fails_the_device (self : SOARulesEngine)
    (device_key param_name k : string) (v : pyobj)
    (dd pd vs items : sdict pyobj) (good rest : list (string * pyobj)) :
  sget pd "values" = Some (PDict vs) ->
  sget vs "multi_level" = Some (PDict items) ->
  In (k, v) items ->
  float_of_str k = None ->
  sget dd "parameters" = Some (PDict (good ++ (param_name, PDict pd) :: rest)) ->
  Forall (fun kv => exists p, load_parameter float_of_str (fst kv) (snd kv) = Returned p) good ->
  load_parameter float_of_str param_name (PDict pd) = Raised ValueError /\
  device_rules_from_dict float_of_str (PDict dd) = Raised ValueError /\
  _load_device_from_dict float_of_str device_key (PDict dd) self = (self, Raised ValueError).
Proof.
  intros Hv Hml Hin Hk Hp Hgood.
  assert (H1 : load_parameter float_of_str param_name (PDict pd) = Raised ValueError).
  { unfold load_parameter. rewrite py_in_dict, Hv. cbn [bind py_getitem]. rewrite Hv.
    cbn [bind]. rewrite py_in_dict, Hml. cbn [bind py_getitem]. rewrite Hml. cbn [bind].
    now rewrite (values_from_items_unparsable items k v Hin Hk). }
  assert (H2 : device_rules_from_dict float_of_str (PDict dd) = Raised ValueError).
  { unfold device_rules_from_dict. rewrite py_in_dict, Hp. cbn [bind py_getitem]. rewrite Hp.
    cbn [bind py_items]. now rewrite (load_parameters_failure good rest _ _ _ Hgood H1). }
  split; [exact H1|]. split; [exact H2|].
  unfold _load_device_from_dict, sbind, lift. now rewrite H2.
Qed.

Lemma fget_fset (d : list (float * pyobj)) (k q : float) (v : pyobj) :
  fget (fset d k v) q = if py_eq k q then Some v else fget d q.
Proof. apply (dict_get_set py_eq FloatOrder.eqb_sym FloatEdge.eqb_trans). Qed.

Lemma values_from_items_lookup (items : list (string * pyobj)) :
  Forall (fun kv => float_of_str (fst kv) <> None) items ->
  forall acc, exists table,
    values_from_items float_of_str items acc = Returned table /\
    List.length table <= List.length acc + List.length items /\
    forall q, fget table q =
              match last_binding float_of_str items q with
              | Some w => Some w
              | None => fget acc q
              end.
Proof.
  induction items as [|[k v] items IH]; intros Hall acc.
  - exists acc. cbn. split; [reflexivity|]. split; [lia | reflexivity].
  - inversion Hall as [|? ? Hk Hrest]; subst. cbn [fst] in Hk.
    cbn [values_from_items py_float last_binding].
    destruct (float_of_str k) as [f|]; [|contradiction]. cbn [bind].
    destruct (IH Hrest (fset acc f v)) as (table & Hrun & Hlen & Hget).
    exists table. split; [exact Hrun|]. split.
    + unfold fset in Hlen. rewrite dict_set_length in Hlen. cbn [List.length].
      destruct (dict_contains py_eq acc f); lia.
    + intros q. rewrite Hget, fget_fset.
      destruct (last_binding float_of_str items q); [reflexivity|].
      now destruct (py_eq f q).
Qed.

(** X9: keys of a [multi_level] mapping that are different texts of the same
    number collapse into one level.  When every key is the text of a number
    the table is built, it has at most as many levels as the mapping has
    entries, and looking a level up gives the value of the last entry whose
    key equals it. *)
Theorem values_from_items_last_wins (items : list (string * pyobj)) :
  Forall (fun kv => float_of_str (fst kv) <> None) items ->
  exists table,
    values_from_items float_of_str items [] = Returned table /\
    List.length table <= List.length items /\
    forall q, fget table q = last_binding float_of_str items q.
Proof.
  intros Hall. destruct (values_from_items_lookup items Hall []) as (table & Hrun & Hlen & Hget).
  exists table. split; [exact Hrun|]. split; [exact Hlen|].
  intros q. rewrite Hget. now destruct (last_binding float_of_str items q).
Qed.

(** X10: what a loaded parameter holds.  Whenever [load_parameter] returns,
    the name is the [name] field or else the key of the entry, the unit and
    the description are their fields or else the empty text, the severity
    and the kind are read from [severity] (default "high") and [type]
    (default "general"), and the conditions are empty. *)
Theorem load_parameter_fields (param_name : string) (pd : sdict pyobj) (p : SOAParameter) :
  load_parameter float_of_str param_name (PDict pd) = Returned p ->
  name p = match sget pd "name" with Some o => o | None => PStr param_name end /\
  unit p = match sget pd "unit" with Some o => o | None => PStr "" end /\
  description p = match sget pd "description" with Some o => o | None => PStr "" end /\
  Severity_of (match sget pd "severity" with Some o => o | None => PStr "high" end) =
    Returned (severity p) /\
  ParameterType_of (match sget pd "type" with Some o => o | None => PStr "general" end) =
    Returned (param_type p) /\
  conditions p = [].
Proof.
  unfold load_parameter. rewrite py_in_dict. cbn [bind py_get].
  repeat match goal with
         | |- bind ?c _ = _ -> _ =>
             let E := fresh "E" in destruct c eqn:E; cbn [bind py_get]; [|discriminate]
         end.
  intros [= <-]. cbn. repeat split; assumption || reflexivity.
Qed.

Lemma load_devices_global_config (items : list (string * pyobj)) :
  forall self, global_config (fst (load_devices float_of_str items self)) = global_config self.
Proof.
  induction items as [|[k d] items IH]; intros self; [reflexivity|].
  cbn [load_devices]. unfold sbind, _load_device_from_dict, lift, sbind.
  destruct (device_rules_from_dict float_of_str d); [|reflexivity].
  now rewrite IH.
Qed.

Lemma sget_fold_sset {V : Type} (d : sdict V) :
  dict_ok String.eqb d = true ->
  forall acc q,
  sget (fold_left (fun a kv => sset a (fst kv) (snd kv)) d acc) q =
  match sget d q with Some v => Some v | None => sget acc q end.
Proof.
  induction d as [|[k v] d IH]; intros Hok acc q; [reflexivity|].
  cbn in Hok. apply andb_prop in Hok as [Hok Hd]. apply andb_prop in Hok as [_ Hnot].
  cbn [fold_left fst snd]. rewrite (IH Hd), sget_sset. unfold sget at 3. cbn [dict_get].
  fold (sget d q). destruct (String.eqb k q) eqn:E; [|reflexivity].
  apply String.eqb_eq in E. subst q. unfold dict_contains in Hnot. unfold sget.
  now destruct (dict_get String.eqb d k).
Qed.

(** X11: the configuration of a document is merged into the engine's before
    any device is read.  When [soa_rules.global_config] is a mapping, then
    whatever the load of the devices does, even when it raises, every key
    of that mapping has the document's value afterwards and every other key
    of the configuration keeps the value it had. *)
Theorem load_merges_global_config (self : SOARulesEngine) (d rules gc : sdict pyobj) :
  sget d "soa_rules" = Some (PDict rules) ->
  sget rules "global_config" = Some (PDict gc) ->
  dict_ok String.eqb gc = true ->
  forall q,
    sget (global_config
            (fst (load_from_json float_of_str update_from_pairs (PDict d) self))) q =
    match sget gc q with Some v => Some v | None => sget (global_config self) q end.
Proof.
  intros Hr Hg Hok q. unfold load_from_json, sbind, lift, sret.
  rewrite py_in_dict, Hr. cbn [py_getitem]. rewrite Hr, !py_in_dict, Hg.
  cbn [py_getitem]. rewrite Hg. cbn [update_global_config].
  destruct (sget rules "devices") as [ds|]; cbn [fst global_config];
    [|now apply sget_fold_sset].
  destruct (py_items ds) as [items|]; cbn [fst global_config];
    [|now apply sget_fold_sset].
  rewrite load_devices_global_config. cbn [global_config]. now apply sget_fold_sset.
Qed.

End LoadErrors.

Lemma load_devices_stops_at_first_failure_witness :
  exists self1,
    load_devices demo_float_of_str
      [("gate", good_device_entry); ("cap", bad_device_entry); ("late", good_device_entry)]
      SOARulesEngine_init = (self1, Raised ValueError) /\
    map fst (devices self1) = ["gate"].
Proof.
  destruct (load_devices_stops_at_first_failure demo_float_of_str
              [("gate", good_device_entry)] [("late", good_device_entry)]
              "cap" bad_device_entry ValueError SOARulesEngine_init)
    as (self1 & Hgood & Hrun & _).
  - constructor; [|constructor]. eexists. vm_compute. reflexivity.
  - vm_compute. reflexivity.
  - exists self1. split; [exact Hrun|].
    vm_compute in Hgood. injection Hgood as <-. reflexivity.
Defined.

Lemma unparsable_level_fails_the_device_witness :
  _load_device_from_dict demo_float_of_str "cap" bad_device_entry demo_engine =
  (demo_engine, Raised ValueError).
Proof.
  refine (proj2 (proj2 (unparsable_level_fails_the_device demo_float_of_str demo_engine
    "cap" "vhigh_d" "ten percent" (PFloat 6) bad_device_fields bad_parameter_fields
    [("multi_level", PDict bad_levels)] bad_levels
    [("vhigh_c", PDict [("values", PDict [("multi_level", PDict [("0.1", PFloat 5)])])])]
    [] eq_refl eq_refl _ eq_refl eq_refl _))).
  - right. left. reflexivity.
  - constructor; [|constructor]. eexists. vm_compute. reflexivity.
Defined.

Lemma values_from_items_last_wins_witness :
  exists table,
    values_from_items demo_float_of_str_alt
      [("0.1", PFloat 5); ("0.01", PFloat 6); ("0.10", PFloat 7)] [] = Returned table /\
    List.length table <= 3 /\
    fget table 0.1 = Some (PFloat 7).
Proof.
  destruct (values_from_items_last_wins demo_float_of_str_alt
              [("0.1", PFloat 5); ("0.01", PFloat 6); ("0.10", PFloat 7)])
    as (table & Hrun & Hlen & Hget).
  - repeat constructor; discriminate.
  - exists table. split; [exact Hrun|]. split; [exact Hlen|]. rewrite Hget. reflexivity.
Defined.

Lemma load_parameter_fields_witness :
  exists p,
    load_parameter demo_float_of_str "vlow_gb" (PDict [("severity", PStr "low")]) =
      Returned p /\
    name p = PStr "vlow_gb" /\ severity p = LOW /\ param_type p = GENERAL.
Proof.
  eexists. split; [vm_compute; reflexivity|].
  destruct (load_parameter_fields demo_float_of_str "vlow_gb" [("severity", PStr "low")] _
              eq_refl) as (Hname & _ & _ & _ & _ & _).
  split; [exact Hname|]. split; reflexivity.
Defined.

Lemma load_merges_global_config_witness :
  snd (load_from_json demo_float_of_str demo_update_from_pairs doc_with_config
         SOARulesEngine_init) = Raised ValueError /\
  sget (global_config
          (fst (load_from_json demo_float_of_str demo_update_from_pairs doc_with_config
                  SOARulesEngine_init))) "technology" = Some (PStr "smos10hv_rev2") /\
  sget (global_config
          (fst (load_from_json demo_float_of_str demo_update_from_pairs doc_with_config
                  SOARulesEngine_init))) "version" = Some (PStr "1.0").
Proof.
  split; [vm_compute; reflexivity|].
  split;
    rewrite (load_merges_global_config demo_float_of_str demo_update_from_pairs
               SOARulesEngine_init [("soa_rules", PDict doc_rules)] doc_rules doc_config
               eq_refl eq_refl eq_refl); reflexivity.
Defined.

Section ExportErrors.
Variable py_repr : pyobj -> string.

Lemma export_devices_returns (devs : sdict DeviceRules) :
  forallb (fun kv => has_len (tmaxfrac_levels (snd kv))) devs = true ->
  forall acc, exists dd, export_devices py_repr devs acc = Returned dd.
Proof.
  induction devs as [|[k d] devs IH]; intros Hall acc; cbn [export_devices]; [eauto|].
  cbn in Hall. apply andb_prop in Hall as [Hd Hall].
  rewrite (export_device_document py_repr d Hd). cbn [bind]. now apply IH.
Qed.

Lemma export_devices_type_error (devs : sdict DeviceRules) :
  forallb (fun kv => has_len (tmaxfrac_levels (snd kv))) devs = false ->
  forall acc, export_devices py_repr devs acc = Raised TypeError.
Proof.
  induction devs as [|[k d] devs IH]; intros Hall acc; cbn [export_devices];
    [discriminate|].
  cbn in Hall. unfold export_device.
  destruct (tmaxfrac_levels d) eqn:E; cbn in Hall |- *; try reflexivity; now apply IH.
Qed.

(** X12: when [export_to_json] fails and when it does not.  It raises
    [TypeError] as soon as one device has declared levels to which [len]
    does not apply (for instance [None]); otherwise it raises [KeyError]
    when the configuration lacks ["version"] or ["technology"]; otherwise
    it returns a document made of the single entry [soa_rules] with the
    four entries version, technology, global_config and devices. *)
Theorem export_to_json_outcomes (self : SOARulesEngine) :
  (forallb (fun kv => has_len (tmaxfrac_levels (snd kv))) (devices self) = false ->
   export_to_json py_repr self = Raised TypeError) /\
  (forallb (fun kv => has_len (tmaxfrac_levels (snd kv))) (devices self) = true ->
   scontains (global_config self) "version" &&
   scontains (global_config self) "technology" = false ->
   export_to_json py_repr self = Raised KeyError) /\
  (forallb (fun kv => has_len (tmaxfrac_levels (snd kv))) (devices self) = true ->
   scontains (global_config self) "version" &&
   scontains (global_config self) "technology" = true ->
   exists version technology devices_data,
     sget (global_config self) "version" = Some version /\
     sget (global_config self) "technology" = Some technology /\
     export_to_json py_repr self =
       Returned (PDict [("soa_rules",
                         PDict [("version", version); ("technology", technology);
                                ("global_config", PDict (global_config self));
                                ("devices", PDict devices_data)])])).
Proof.
  unfold export_to_json, sgetitem, scontains, dict_contains. repeat split.
  - intros H. now rewrite (export_devices_type_error _ H).
  - intros H Hc. destruct (export_devices_returns _ H []) as [dd ->]. cbn [bind].
    fold (sget (global_config self) "version") in *.
    fold (sget (global_config self) "technology") in *.
    destruct (sget (global_config self) "version"); cbn [bind]; [|reflexivity].
    destruct (sget (global_config self) "technology"); [discriminate | reflexivity].
  - intros H Hc. destruct (export_devices_returns _ H []) as [dd ->]. cbn [bind].
    fold (sget (global_config self) "version") in *.
    fold (sget (global_config self) "technology") in *.
    destruct (sget (global_config self) "version"); cbn [bind]; [|discriminate].
    destruct (sget (global_config self) "technology"); [|discriminate].
    cbn [bind]. eexists _, _, _. repeat split.
Qed.

End ExportErrors.

Lemma export_to_json_outcomes_witness :
  export_to_json demo_repr (add_device demo_engine "cap" rules_without_levels) =
    Raised TypeError /\
  exists doc, export_to_json demo_repr demo_engine = Returned doc.
Proof.
  split.
  - apply (export_to_json_outcomes demo_repr
             (add_device demo_engine "cap" rules_without_levels)). reflexivity.
  - destruct (export_to_json_outcomes demo_repr demo_engine) as (_ & _ & Hok).
    destruct Hok as (v & tech & dd & _ & _ & Hrun); [reflexivity | reflexivity|].
    eexists. exact Hrun.
Defined.

(* ===================================================================== *)
(** ** Further properties of the transient validators *)
(* ===================================================================== *)

Section TransientMore.
Variable float_of_str : string -> option float.

Lemma threshold_of_some (l : limit) (v : float) :
  Transient.threshold_of float_of_str l = Some v ->
  TimeLimit.is_no_limit_str l = false /\ TimeLimit.float_of_limit float_of_str l = Some v.
Proof.
  destruct l as [f|s]; cbn; [auto|]. destruct (String.eqb (lower s) "no-limit"); [discriminate|].
  auto.
Qed.

Lemma threshold_of_none (l : limit) :
  Transient.threshold_of float_of_str l = None ->
  TimeLimit.is_no_limit_str l = true \/ TimeLimit.float_of_limit float_of_str l = None.
Proof.
  destruct l as [f|s]; cbn; [discriminate|].
  destruct (String.eqb (lower s) "no-limit"); auto.
Qed.

(** X13: the two implementations of the time-fraction rule agree away from
    the threshold.  For a limit and a constraint with the same voltage limit
    and the same fraction, [is_violation] answers true exactly when
    [validate_transient] returns a message, provided the applied voltage is
    strictly above or strictly below the numeric threshold (or the limit
    has no numeric threshold at all). *)
Theorem is_violation_agrees_with_validate_transient
    (l : TimeLimit.TransientTimeLimit) (c : Transient.TransientConstraint)
    (voltage duration total_time : float) :
  TimeLimit.voltage_limit l = Transient.voltage_limit c ->
  TimeLimit.max_time_fraction l = Transient.max_time_fraction c ->
  (forall v, Transient.threshold_of float_of_str (Transient.voltage_limit c) = Some v ->
             py_gt voltage v = true \/ py_lt voltage v = true) ->
  TimeLimit.is_violation float_of_str l voltage duration total_time =
  match Transient.validate_transient float_of_str c voltage duration total_time with
  | Some _ => true
  | None => false
  end.
Proof.
  intros Hl Hf Hside. unfold TimeLimit.is_violation, Transient.validate_transient.
  rewrite Hl, Hf.
  destruct (Transient.threshold_of float_of_str (Transient.voltage_limit c)) as [v|] eqn:E.
  - destruct (threshold_of_some _ _ E) as [-> ->].
    destruct (Hside v eq_refl) as [H | H].
    + rewrite H. cbn [negb]. unfold py_lt, py_gt in *. rewrite (FloatOrder.ltb_asym _ _ H).
      destruct (py_eq _ 0); [reflexivity|].
      now destruct (Transient.max_time_fraction c * total_time <? duration)%float.
    + rewrite H. unfold py_lt, py_gt in *. now rewrite (FloatOrder.ltb_asym _ _ H).
  - destruct (threshold_of_none _ E) as [-> | H]; [reflexivity|].
    rewrite H. now destruct (TimeLimit.is_no_limit_str _).
Qed.

(** X14: [validate_transient] is monotone.  If a sample violates a
    constraint, so does every sample with a voltage at least as high and a
    duration at least as long, for the same total time. *)
Theorem validate_transient_is_monotone (c : Transient.TransientConstraint)
    (voltage voltage' duration duration' total_time : float) :
  Transient.validate_transient float_of_str c voltage duration total_time <> None ->
  py_le voltage voltage' = true ->
  py_le duration duration' = true ->
  Transient.validate_transient float_of_str c voltage' duration' total_time <> None.
Proof.
  unfold Transient.validate_transient, py_le, py_lt, py_gt.
  destruct (Transient.threshold_of float_of_str (Transient.voltage_limit c)) as [v|];
    [|congruence].
  intros H Hv Hd.
  destruct (voltage <? v)%float eqn:E; [congruence|].
  destruct (voltage' <? v)%float eqn:E'.
  { now rewrite (FloatOrder.leb_ltb_trans _ _ _ Hv E') in E. }
  destruct (py_eq (Transient.max_time_fraction c) 0); [discriminate|].
  destruct (_ <? duration)%float eqn:Ed; [|congruence].
  now rewrite (FloatEdge.ltb_leb_trans _ _ _ Ed Hd).
Qed.

Lemma validate_transient_profile_returns (p : Transient.TransientAwareParameter)
    (profile : list (float * float * float)) :
  exists vs, Transient.validate_transient_profile float_of_str p profile = Returned vs.
Proof.
  destruct profile as [|s0 profile]; [now exists []|].
  destruct (py_max_is_maximum (snd s0) (map snd profile)) as (T & Hmax & _).
  rewrite (validate_transient_profile_flat_map float_of_str p (s0 :: profile) T Hmax). eauto.
Qed.

Lemma sample_verdicts_bound (p : Transient.TransientAwareParameter) (T : float)
    (s : float * float * float) :
  List.length (sample_verdicts float_of_str p T s) <=
    List.length (Transient.transient_constraints p) /\
  forall v, In v (sample_verdicts float_of_str p T s) -> fst v = Transient.name p.
Proof.
  destruct s as [[a st] en]. unfold sample_verdicts.
  induction (Transient.transient_constraints p) as [|c cs [IH1 IH2]]; cbn [flat_map].
  - split; [cbn; lia | intros v []].
  - destruct (Transient.validate_transient float_of_str c a (en - st) T); cbn.
    + split; [lia|]. intros v [<- | Hv]; [reflexivity | now apply IH2].
    + split; [lia | exact IH2].
Qed.

(** X15: [validate_transient_profile] never raises: the call of [max] is
    guarded by the test on the empty profile.  It reports at most one
    violation per sample and constraint, and every violation it reports
    carries the name of the parameter. *)
Theorem validate_transient_profile_is_total_and_bounded
    (p : Transient.TransientAwareParameter) (profile : list (float * float * float)) :
  exists vs,
    Transient.validate_transient_profile float_of_str p profile = Returned vs /\
    List.length vs <=
      List.length profile * List.length (Transient.transient_constraints p) /\
    forall v, In v vs -> fst v = Transient.name p.
Proof.
  destruct profile as [|s0 profile]; [exists []; cbn; repeat split; [lia | intros v []]|].
  destruct (py_max_is_maximum (snd s0) (map snd profile)) as (T & Hmax & _).
  rewrite (validate_transient_profile_flat_map float_of_str p (s0 :: profile) T Hmax).
  eexists. split; [reflexivity|].
  induction (s0 :: profile) as [|s l [IH1 IH2]]; cbn [flat_map List.length].
  - split; [cbn; lia | intros v []].
  - destruct (sample_verdicts_bound p T s) as [Hb Hn]. split.
    + rewrite length_app. cbn [Nat.mul]. lia.
    + intros v Hv. apply in_app_or in Hv as [Hv | Hv]; [now apply Hn | now apply IH2].
Qed.

Lemma validate_profiles_flat_map (device : Transient.TransientDevice)
    (items : list (string * list (float * float * float))) :
  forall acc,
  Transient.validate_profiles float_of_str device items acc =
  Returned (acc ++ flat_map (known_parameter_violations float_of_str device) items).
Proof.
  induction items as [|[n prof] items IH]; intros acc; cbn [Transient.validate_profiles flat_map].
  - now rewrite app_nil_r.
  - unfold known_parameter_violations at 1, profile_violations. cbn [fst snd].
    destruct (sget (Transient.parameters device) n) as [p|].
    + destruct (validate_transient_profile_returns p prof) as [vs ->]. cbn [bind].
      rewrite IH. now rewrite <- app_assoc.
    + apply IH.
Qed.

(** X16: [validate_transient_simulation] never raises.  An unknown device
    gives the error record; for a known device the violations are those of
    the supplied profiles whose name is a parameter of the device, in the
    order of the profiles, a profile under any other name adding nothing;
    [total_violations] is their number and [compliant] says it is zero. *)
Theorem validate_transient_simulation_result (self : Transient.TransientSOAEngine)
    (device_key : string) (parameter_profiles : sdict (list (float * float * float))) :
  (sget (Transient.devices self) device_key = None ->
   Transient.validate_transient_simulation float_of_str self device_key parameter_profiles =
     Returned (Transient.SimulationError device_key)) /\
  (forall device,
     sget (Transient.devices self) device_key = Some device ->
     let vs := flat_map (known_parameter_violations float_of_str device) parameter_profiles in
     Transient.validate_transient_simulation float_of_str self device_key parameter_profiles =
       Returned (Transient.SimulationOk
         {| Transient.s_device := device_key; Transient.s_violations := vs;
            Transient.s_compliant := Nat.eqb (List.length vs) 0;
            Transient.s_total_violations := List.length vs |}) /\
     ((forall n prof, In (n, prof) parameter_profiles ->
                      sget (Transient.parameters device) n = None) -> vs = [])).
Proof.
  unfold Transient.validate_transient_simulation. split.
  - now intros ->.
  - intros device ->. cbv zeta. rewrite validate_profiles_flat_map. cbn [bind app].
    split; [reflexivity|]. intros Hnone.
    induction parameter_profiles as [|[n prof] items IH]; [reflexivity|].
    cbn [flat_map]. unfold known_parameter_violations at 1. cbn [fst].
    rewrite (Hnone n prof (or_introl eq_refl)). cbn [app].
    apply IH. intros n' prof' Hin. apply (Hnone n' prof'). now right.
Qed.

(** X17: a limit given as text.  A text that is neither the sentinel nor
    the text of a number is never violated, by either class and whatever
    the sample; a text that reads as a number behaves as that number. *)
Theorem textual_limits (s : string) (fraction voltage duration total_time : float) :
  String.eqb (lower s) "no-limit" = false ->
  (float_of_str s = None ->
   TimeLimit.is_violation float_of_str
     {| TimeLimit.voltage_limit := LimStr s; TimeLimit.max_time_fraction := fraction;
        TimeLimit.description := "" |} voltage duration total_time = false /\
   Transient.validate_transient float_of_str
     {| Transient.voltage_limit := LimStr s; Transient.max_time_fraction := fraction;
        Transient.description := "" |} voltage duration total_time = None) /\
  (forall v, float_of_str s = Some v ->
   TimeLimit.is_violation float_of_str
     {| TimeLimit.voltage_limit := LimStr s; TimeLimit.max_time_fraction := fraction;
        TimeLimit.description := "" |} voltage duration total_time =
   TimeLimit.is_violation float_of_str
     {| TimeLimit.voltage_limit := LimFloat v; TimeLimit.max_time_fraction := fraction;
        TimeLimit.description := "" |} voltage duration total_time /\
   Transient.validate_transient float_of_str
     {| Transient.voltage_limit := LimStr s; Transient.max_time_fraction := fraction;
        Transient.description := "" |} voltage duration total_time =
   Transient.validate_transient float_of_str
     {| Transient.voltage_limit := LimFloat v; Transient.max_time_fraction := fraction;
        Transient.description := "" |} voltage duration total_time).
Proof.
  intros Hs. unfold TimeLimit.is_violation, Transient.validate_transient. cbn. rewrite Hs. split.
  - intros ->. auto.
  - intros v ->. auto.
Qed.

End TransientMore.

Lemma is_violation_agrees_with_validate_transient_witness :
  TimeLimit.is_violation demo_float_of_str one_percent_limit 1.75 2e-6 100e-6 = true /\
  Transient.validate_transient demo_float_of_str one_percent_constraint 1.75 2e-6 100e-6 <>
    None.
Proof.
  assert (H := is_violation_agrees_with_validate_transient demo_float_of_str
                 one_percent_limit one_percent_constraint 1.75 2e-6 100e-6 eq_refl eq_refl).
  assert (Hside : forall v,
            Transient.threshold_of demo_float_of_str
              (Transient.voltage_limit one_percent_constraint) = Some v ->
            py_gt 1.75 v = true \/ py_lt 1.75 v = true)
    by (intros v [= <-]; left; reflexivity).
  specialize (H Hside). split; [reflexivity|].
  destruct (Transient.validate_transient _ _ _ _ _); [discriminate | discriminate H].
Defined.

Lemma validate_transient_is_monotone_witness :
  Transient.validate_transient demo_float_of_str one_percent_constraint 1.8 3e-6 100e-6 <>
    None.
Proof.
  apply (validate_transient_is_monotone demo_float_of_str one_percent_constraint
           1.75 1.8 2e-6 3e-6 100e-6); [discriminate | reflexivity | reflexivity].
Defined.

Lemma validate_transient_simulation_result_witness :
  Transient.validate_transient_simulation demo_float_of_str transient_engine "pmos_core"
    [("vhigh_ds_on", two_excursions)] = Returned (Transient.SimulationError "pmos_core") /\
  flat_map (known_parameter_violations demo_float_of_str
              {| Transient.parameters := [("vhigh_ds_on", vhigh_ds_on)] |})
    [("vhigh_gs", two_excursions); ("vlow_gb", five_percent_profile)] = [].
Proof.
  destruct (validate_transient_simulation_result demo_float_of_str transient_engine
              "pmos_core" [("vhigh_ds_on", two_excursions)]) as [Herr _].
  destruct (validate_transient_simulation_result demo_float_of_str transient_engine
              "nmos_core" [("vhigh_gs", two_excursions); ("vlow_gb", five_percent_profile)])
    as [_ Hok].
  split; [apply Herr; reflexivity|].
  destruct (Hok _ eq_refl) as [_ Hnone]. apply Hnone.
  intros n prof [[= <- <-] | [[= <- <-] | []]]; reflexivity.
Defined.

Lemma textual_limits_witness :
  Transient.validate_transient demo_float_of_str (textual_constraint "see note 3")
    1e300 1 1 = None /\
  Transient.validate_transient demo_float_of_str (textual_constraint "1.5") 2 1 1 =
  Transient.validate_transient demo_float_of_str (numeric_constraint 1.5) 2 1 1.
Proof.
  split.
  - apply (textual_limits demo_float_of_str "see note 3" 0 1e300 1 1); reflexivity.
  - apply (textual_limits demo_float_of_str "1.5" 0 2 1 1 eq_refl). reflexivity.
Defined.

(** X18: with a fraction of zero, [validate_transient] reports the critical
    violation for every sample at or above the numeric threshold, whatever
    its duration and the total time. *)
Theorem validate_transient_never_allowed (float_of_str : string -> option float)
    (c : Transient.TransientConstraint) (voltage duration total_time threshold : float) :
  Transient.threshold_of float_of_str (Transient.voltage_limit c) = Some threshold ->
  py_eq (Transient.max_time_fraction c) 0 = true ->
  py_ge voltage threshold = true ->
  Transient.validate_transient float_of_str c voltage duration total_time =
  Some (Transient.Critical threshold).
Proof. apply validate_transient_zero_fraction. Qed.

Lemma validate_transient_never_allowed_witness :
  Transient.validate_transient demo_float_of_str never_allowed_constraint
    1.838 1e-12 100e-6 = Some (Transient.Critical 1.838).
Proof.
  apply (validate_transient_never_allowed demo_float_of_str never_allowed_constraint
           1.838 1e-12 100e-6 1.838); reflexivity.
Defined.

(* ===================================================================== *)
(** ** The converter's parameters *)
(* ===================================================================== *)

(** X19: the inferred kind and the inferred unit of a name agree where both
    are decided: a voltage is in V, a unit A belongs to a current, the
    Celsius unit to a temperature, and a dimensionless parameter is general
    or (for a name starting with t) a temperature. *)
Theorem inferred_type_and_unit_agree (param_name : string) :
  (Converter._infer_parameter_type param_name = VOLTAGE ->
   Converter._infer_parameter_unit param_name = "V") /\
  (Converter._infer_parameter_unit param_name = "A" ->
   Converter._infer_parameter_type param_name = CURRENT) /\
  (Converter._infer_parameter_unit param_name = "°C" ->
   Converter._infer_parameter_type param_name = TEMPERATURE) /\
  (Converter._infer_parameter_unit param_name = "dimensionless" ->
   Converter._infer_parameter_type param_name = GENERAL \/
   Converter._infer_parameter_type param_name = TEMPERATURE).
Proof.
  unfold Converter._infer_parameter_type, Converter._infer_parameter_unit. cbv zeta.
  destruct (str_contains "v" (lower param_name));
    destruct (str_contains "high" (lower param_name) || str_contains "low" (lower param_name)
              || str_contains "gate" (lower param_name));
    destruct (str_contains "i" (lower param_name) || str_contains "current" (lower param_name));
    destruct (str_contains "temp" (lower param_name));
    destruct (prefix "t" (lower param_name)); cbn;
    repeat split; intros H; try discriminate H; auto.
Qed.

Lemma inferred_type_and_unit_agree_witness :
  Converter._infer_parameter_unit "vhigh_ds_on" = "V" /\
  Converter._infer_parameter_type "temperature" = TEMPERATURE.
Proof.
  split.
  - apply (inferred_type_and_unit_agree "vhigh_ds_on"). reflexivity.
  - apply (inferred_type_and_unit_agree "temperature"). reflexivity.
Defined.

Lemma contains_high_contains_i (s : string) :
  str_contains "high" s = true -> str_contains "i" s = true.
Proof.
  induction s as [|c s IH]; [discriminate|].
  cbn [str_contains]. intros H. apply orb_prop in H as [H | H].
  - destruct s as [|c2 s]; [cbn [prefix] in H; now destruct (ascii_dec "h" c)|].
    cbn [prefix] in H. destruct (ascii_dec "h" c); [|discriminate].
    destruct (ascii_dec "i" c2) as [<-|]; [|discriminate].
    apply orb_true_iff. right. clear. now destruct s.
  - apply orb_true_iff. right. now apply IH.
Qed.

(** X20: a name that contains "high" (in any letter case) is never typed as
    a temperature or as general, because "high" itself contains the letter
    i: it is a voltage when it also has a v, and a current in A otherwise,
    also when the name contains "temp". *)
Theorem high_names_are_voltage_or_current (param_name : string) :
  str_contains "high" (lower param_name) = true ->
  (str_contains "v" (lower param_name) = true ->
   Converter._infer_parameter_type param_name = VOLTAGE /\
   Converter._infer_parameter_unit param_name = "V") /\
  (str_contains "v" (lower param_name) = false ->
   Converter._infer_parameter_type param_name = CURRENT /\
   Converter._infer_parameter_unit param_name = "A").
Proof.
  intros H. pose proof (contains_high_contains_i _ H) as Hi.
  unfold Converter._infer_parameter_type, Converter._infer_parameter_unit. cbv zeta.
  rewrite H, Hi. cbn [orb]. split; intros ->; cbn; auto.
Qed.

Lemma high_names_are_voltage_or_current_witness :
  Converter._infer_parameter_type "Temp_High" = CURRENT /\
  Converter._infer_parameter_unit "Temp_High" = "A".
Proof.
  apply (high_names_are_voltage_or_current "Temp_High"); reflexivity.
Defined.

Lemma find_app' {A : Type} (f : A -> bool) (l1 l2 : list A) :
  find f (l1 ++ l2) = match find f l1 with Some x => Some x | None => find f l2 end.
Proof. induction l1 as [|a l1 IH]; cbn; [reflexivity|]. now destruct (f a). Qed.

Lemma sset_Forall {V : Type} (P : string * V -> Prop) (d : sdict V) (k : string) (v : V) :
  Forall P d -> P (k, v) -> Forall P (sset d k v).
Proof.
  intros Hd Hk. induction Hd as [|[k' v'] d Hkv Hd IH]; cbn; [now constructor|].
  destruct (String.eqb k' k) eqn:E.
  - apply String.eqb_eq in E as ->. now constructor.
  - constructor; assumption.
Qed.

Lemma Severity_of_raises (o : pyobj) (e : pyexn) :
  Severity_of o = Raised e -> e = ValueError.
Proof.
  destruct o; cbn; try congruence.
  repeat match goal with |- context [if ?b then _ else _] => destruct b end; congruence.
Qed.

Section ConverterFacts.
Import Converter.

Lemma create_parameters_returns (rows : list ParamData) :
  (forall row, In row rows -> exists sev, Severity_of (PStr (pd_severity row)) = Returned sev) ->
  forall acc, exists ps, create_parameters rows acc = Returned ps.
Proof.
  induction rows as [|row rows IH]; intros Hall acc; cbn [create_parameters]; [eauto|].
  destruct (Hall row (or_introl eq_refl)) as [sev ->]. cbn [bind].
  apply IH. intros r Hr. apply Hall. now right.
Qed.

Lemma create_parameters_raises (rows : list ParamData) :
  (exists row, In row rows /\ Severity_of (PStr (pd_severity row)) = Raised ValueError) ->
  forall acc, create_parameters rows acc = Raised ValueError.
Proof.
  induction rows as [|row rows IH]; intros (bad & Hin & Hbad) acc; [destruct Hin|].
  cbn [create_parameters].
  destruct (Severity_of (PStr (pd_severity row))) as [sev|e] eqn:E; cbn [bind].
  - apply IH. destruct Hin as [-> | Hin]; [congruence | eauto].
  - now rewrite (Severity_of_raises _ _ E).
Qed.

Lemma create_parameters_lookup (rows : list ParamData) :
  forall acc ps, create_parameters rows acc = Returned ps ->
  forall n,
    match last_row n rows with
    | Some row => exists sev, Severity_of (PStr (pd_severity row)) = Returned sev /\
                              pd_name row = n /\
                              sget ps n = Some (row_parameter row sev)
    | None => sget ps n = sget acc n
    end.
Proof.
  unfold last_row.
  induction rows as [|row rows IH]; intros acc ps; cbn [create_parameters].
  - intros [= <-] n. reflexivity.
  - destruct (Severity_of (PStr (pd_severity row))) as [sev|e] eqn:E; cbn [bind];
      [|discriminate].
    intros H n. specialize (IH _ _ H n). cbn [rev]. rewrite find_app'.
    destruct (find _ (rev rows)) as [r|]; [exact IH|].
    rewrite IH, sget_sset. cbn [find].
    destruct (String.eqb (pd_name row) n) eqn:En; [|reflexivity].
    exists sev. apply String.eqb_eq in En. subst n. auto.
Qed.

Lemma create_parameters_names (rows : list ParamData) :
  forall acc ps, create_parameters rows acc = Returned ps ->
  Forall (fun kv => name (snd kv) = PStr (fst kv)) acc ->
  Forall (fun kv => name (snd kv) = PStr (fst kv)) ps.
Proof.
  induction rows as [|row rows IH]; intros acc ps; cbn [create_parameters].
  - now intros [= <-].
  - destruct (Severity_of (PStr (pd_severity row))) as [sev|e]; cbn [bind]; [|discriminate].
    intros H Hacc. apply (IH _ _ H). now apply sset_Forall.
Qed.

Lemma names_are_strings_of_names (d : DeviceRules) :
  Forall (fun kv => name (snd kv) = PStr (fst kv)) (parameters d) ->
  names_are_strings d = true.
Proof.
  intros H. unfold names_are_strings. apply forallb_forall. intros kv Hin.
  rewrite Forall_forall in H. now rewrite (H kv Hin).
Qed.

(** X21: what [_create_device_rules] builds.  When every row carries one of
    the three severities, it returns rules whose levels are the list of the
    sheet, whose parameter names are exactly the row names, and in which a
    name resolves to the parameter of the last row carrying it (earlier
    rows with the same name are lost), stored under its own name with the
    inferred type and unit and no conditions.  One row with another
    severity makes the whole call raise [ValueError]. *)
Theorem create_device_rules_result (tmaxfrac_info : TmaxfracInfo) (device_info : DeviceInfo) :
  ((forall row, In row (info_parameters tmaxfrac_info) ->
      exists sev, Severity_of (PStr (pd_severity row)) = Returned sev) ->
   exists r,
     _create_device_rules tmaxfrac_info device_info = Returned r /\
     tmaxfrac_levels r = PList (map PFloat (tmaxfrac_values tmaxfrac_info)) /\
     names_are_strings r = true /\
     (forall n, scontains (parameters r) n = true <->
                In n (map pd_name (info_parameters tmaxfrac_info))) /\
     (forall n p, sget (parameters r) n = Some p ->
        exists row,
          last_row n (info_parameters tmaxfrac_info) = Some row /\
          name p = PStr n /\
          Severity_of (PStr (pd_severity row)) = Returned (severity p) /\
          param_type p = _infer_parameter_type n /\
          unit p = PStr (_infer_parameter_unit n) /\
          values p = pd_values row /\
          conditions p = [])) /\
  ((exists row, In row (info_parameters tmaxfrac_info) /\
                Severity_of (PStr (pd_severity row)) = Raised ValueError) ->
   _create_device_rules tmaxfrac_info device_info = Raised ValueError).
Proof.
  unfold _create_device_rules. split.
  - intros Hall. destruct (create_parameters_returns _ Hall []) as [ps Hps].
    rewrite Hps. cbn [bind]. eexists. split; [reflexivity|]. cbn [tmaxfrac_levels parameters].
    pose proof (create_parameters_lookup _ _ _ Hps) as Hlook.
    split; [reflexivity|]. split.
    { apply names_are_strings_of_names. cbn [parameters].
      now apply (create_parameters_names _ _ _ Hps). }
    split.
    + intros n. specialize (Hlook n). unfold scontains, dict_contains.
      fold (sget ps n). unfold last_row in Hlook.
      destruct (find _ (rev (info_parameters tmaxfrac_info))) as [row|] eqn:F.
      * destruct Hlook as (sev & _ & Hn & ->). split; [intros _|reflexivity].
        apply find_some in F as [Hin _]. apply in_rev in Hin.
        rewrite <- Hn. now apply in_map.
      * rewrite Hlook. cbn. split; [discriminate|]. intros Hin.
        apply in_map_iff in Hin as (row & <- & Hin).
        apply in_rev in Hin. apply (find_none _ _ F) in Hin.
        now rewrite String.eqb_refl in Hin.
    + intros n p Hp. specialize (Hlook n).
      destruct (last_row n (info_parameters tmaxfrac_info)) as [row|].
      * destruct Hlook as (sev & Hsev & Hn & Hget). rewrite Hget in Hp.
        injection Hp as <-. exists row. subst n. cbn. auto 10.
      * rewrite Hlook in Hp. discriminate.
  - intros Hbad. now rewrite (create_parameters_raises _ Hbad).
Qed.

Lemma create_device_rules_result_witness :
  (exists r, _create_device_rules sheet_info sheet_device = Returned r /\
             forall p, sget (parameters r) "vhigh_ds_on" = Some p ->
                       severity p = LOW /\ values p = [(0.1%float, PFloat 1.5)]) /\
  _create_device_rules
    {| tmaxfrac_values := []; info_parameters :=
         [ {| pd_name := "vhigh_ds_on"; pd_severity := "High"; pd_values := [] |} ] |}
    sheet_device = Raised ValueError.
Proof.
  split.
  - destruct (create_device_rules_result sheet_info sheet_device) as [Hok _].
    destruct Hok as (r & Hr & _ & _ & _ & Hlook).
    { intros row [<- | [<- | [<- | []]]]; cbn; eauto. }
    exists r. split; [exact Hr|]. intros p Hp.
    destruct (Hlook _ _ Hp) as (row & Hrow & _ & Hsev & _ & _ & Hval & _).
    injection Hrow as <-. cbn in Hsev, Hval. split; [congruence | exact Hval].
  - apply create_device_rules_result. eexists. split; [left; reflexivity | reflexivity].
Defined.

End ConverterFacts.

Section ConverterSheets.
Import Converter.

Lemma scan_cells_known (cells : list string) (device_type : string) :
  device_type <> "unknown" -> fold_left scan_cell cells device_type = device_type.
Proof.
  intros Hk. apply String.eqb_neq in Hk.
  induction cells as [|c cells IH]; cbn [fold_left]; [reflexivity|].
  assert (Hc : scan_cell device_type c = device_type).
  { unfold scan_cell. cbv zeta. rewrite Hk.
    now destruct (str_contains "nmos" (lower c) || str_contains "pmos" (lower c)),
                 (str_contains "capacitor" (lower c)). }
  now rewrite Hc.
Qed.

Lemma scan_cells_unknown (cells : list string) :
  fold_left scan_cell cells "unknown" =
  match find names_a_device cells with
  | Some cell =>
      if str_contains "nmos" (lower cell) || str_contains "pmos" (lower cell)
      then "mos_transistor" else "capacitor"
  | None => "unknown"
  end.
Proof.
  induction cells as [|c cells IH]; cbn [fold_left find]; [reflexivity|].
  unfold names_a_device at 1, scan_cell at 2. cbv zeta.
  destruct (str_contains "nmos" (lower c) || str_contains "pmos" (lower c)) eqn:E;
    cbn [orb].
  - rewrite String.eqb_refl. cbv iota. rewrite E. now apply scan_cells_known.
  - destruct (str_contains "capacitor" (lower c)); [|exact IH].
    rewrite String.eqb_refl. cbv iota. rewrite E. now apply scan_cells_known.
Qed.

Lemma classify_sheet_cases (name_of_sheet : string) :
  In (classify_sheet name_of_sheet)
     [("mos_transistor", "symmetric_on_off"); ("capacitor", "general");
      ("substrate", "well_hv"); ("substrate", "well_isolation");
      ("oxide", "reliability_drift"); ("unknown", "general")].
Proof.
  unfold classify_sheet.
  repeat match goal with |- context [if ?b then _ else _] => destruct b end; cbn; auto 10.
Qed.

Lemma device_key_cases (name_of_sheet : string) (cells : list string) :
  In (info_device_type (_extract_device_info name_of_sheet cells) ++ "_" ++
      info_subcategory (_extract_device_info name_of_sheet cells))%string device_keys.
Proof.
  unfold _extract_device_info. cbn [info_device_type info_subcategory].
  destruct (classify_sheet_cases name_of_sheet) as [E | [E | [E | [E | [E | [E | []]]]]]];
    rewrite <- E; cbn [fst snd];
    try (rewrite scan_cells_known by discriminate; cbn; auto 10; fail).
  rewrite scan_cells_unknown.
  destruct (find names_a_device cells) as [c|]; [|cbn; auto 10].
  destruct (_ || _); cbn; auto 10.
Qed.

(** X22: the sheet name comes first in [_extract_device_info].  When the
    name is classified, the cells of the sheet change nothing; when it is
    not, the sub-category is general and the device type is decided by the
    first cell that names a device: a MOS transistor if it mentions nmos or
    pmos, a capacitor otherwise, and unknown when no cell names one. *)
Theorem extract_device_info_sheet_name_first (name_of_sheet : string)
    (cells : list string) :
  (fst (classify_sheet name_of_sheet) <> "unknown" ->
   _extract_device_info name_of_sheet cells = _extract_device_info name_of_sheet []) /\
  (fst (classify_sheet name_of_sheet) = "unknown" ->
   info_subcategory (_extract_device_info name_of_sheet cells) = "general" /\
   info_device_type (_extract_device_info name_of_sheet cells) =
   match find names_a_device cells with
   | Some cell =>
       if str_contains "nmos" (lower cell) || str_contains "pmos" (lower cell)
       then "mos_transistor" else "capacitor"
   | None => "unknown"
   end).
Proof.
  unfold _extract_device_info. split.
  - intros Hk. now rewrite scan_cells_known.
  - intros Hu. cbn [info_subcategory info_device_type]. rewrite Hu. split.
    + destruct (classify_sheet_cases name_of_sheet) as [E | [E | [E | [E | [E | [E | []]]]]]];
        rewrite <- E in *; cbn in *; congruence.
    + apply scan_cells_unknown.
Qed.

Lemma extract_device_info_sheet_name_first_witness :
  _extract_device_info "10HV SOA CAPS" ["NMOS"; "pmos"] =
    _extract_device_info "10HV SOA CAPS" [] /\
  info_device_type (_extract_device_info "SOA misc" ["nan"; "MIM Capacitor"; "NMOS"]) =
    "capacitor".
Proof.
  split.
  - apply (extract_device_info_sheet_name_first "10HV SOA CAPS" ["NMOS"; "pmos"]).
    discriminate.
  - apply (extract_device_info_sheet_name_first "SOA misc" ["nan"; "MIM Capacitor"; "NMOS"]).
    reflexivity.
Defined.

(** X23: two sheets that are classified alike share one device key, so
    converting the second replaces the rules of the first: the key then
    resolves to the rules of the second sheet, the keys of the registry and
    every other device are as after the first conversion. *)
Theorem sheets_classified_alike_share_a_device (soa_engine engine1 engine2 : SOARulesEngine)
    (sheet1 sheet2 : Sheet) (info1 info2 : TmaxfracInfo) :
  classify_sheet (sh_name sheet1) = classify_sheet (sh_name sheet2) ->
  fst (classify_sheet (sh_name sheet1)) <> "unknown" ->
  sh_tmaxfrac sheet1 = Some info1 ->
  sh_tmaxfrac sheet2 = Some info2 ->
  _convert_sheet soa_engine sheet1 = Returned engine1 ->
  _convert_sheet engine1 sheet2 = Returned engine2 ->
  exists device_key rules1 rules2,
    _create_device_rules info1 (_extract_device_info (sh_name sheet1) (sh_cells sheet1)) =
      Returned rules1 /\
    _create_device_rules info2 (_extract_device_info (sh_name sheet2) (sh_cells sheet2)) =
      Returned rules2 /\
    sget (devices engine1) device_key = Some rules1 /\
    sget (devices engine2) device_key = Some rules2 /\
    map fst (devices engine2) = map fst (devices engine1) /\
    (forall q, q <> device_key -> sget (devices engine2) q = sget (devices engine1) q).
Proof.
  intros Hc Hk H1 H2. unfold _convert_sheet. rewrite H1, H2. cbv zeta.
  set (d1 := _extract_device_info (sh_name sheet1) (sh_cells sheet1)).
  set (d2 := _extract_device_info (sh_name sheet2) (sh_cells sheet2)).
  set (k1 := (info_device_type d1 ++ "_" ++ info_subcategory d1)%string).
  set (k2 := (info_device_type d2 ++ "_" ++ info_subcategory d2)%string).
  assert (Hkey : k2 = k1).
  { subst k1 k2 d1 d2. unfold _extract_device_info. cbn [info_device_type info_subcategory].
    rewrite !scan_cells_known by congruence. now rewrite Hc. }
  clearbody k1 k2. subst k2.
  destruct (_create_device_rules info1 d1) as [r1|]; cbn [bind]; [|discriminate].
  destruct (_create_device_rules info2 d2) as [r2|]; cbn [bind]; [|discriminate].
  intros [= <-] [= <-]. exists k1, r1, r2. split; [reflexivity|]. split; [reflexivity|].
  cbn [devices add_device].
  pose proof (sget_sset (devices soa_engine) k1 k1 r1) as Hs.
  rewrite String.eqb_refl in Hs.
  split; [exact Hs|]. split; [now rewrite sget_sset, String.eqb_refl|]. split.
  - apply (dict_set_keys_present String.eqb).
    unfold sget, sset in Hs. unfold dict_contains, sset. now rewrite Hs.
  - intros q Hq. rewrite sget_sset. apply not_eq_sym, String.eqb_neq in Hq. now rewrite Hq.
Qed.

Lemma sheets_classified_alike_share_a_device_witness :
  exists rules2,
    sget (devices engine_after_5v) "mos_transistor_symmetric_on_off" = Some rules2 /\
    map fst (parameters rules2) = ["vlow_gs"] /\
    map fst (devices engine_after_5v) = map fst (devices engine_after_10hv).
Proof.
  destruct (sheets_classified_alike_share_a_device SOARulesEngine_init
              engine_after_10hv engine_after_5v sym_sheet_10hv sym_sheet_5v
              sheet_info sheet_info_5v)
    as (k & r1 & r2 & _ & Hr2 & _ & Hget & Hkeys & _);
    [reflexivity | discriminate | reflexivity | reflexivity | reflexivity | reflexivity |].
  exists r2. injection Hr2 as <-. split; [reflexivity|]. split; [reflexivity | exact Hkeys].
Defined.

End ConverterSheets.

Lemma NoDup_snoc {A : Type} (l : list A) (a : A) :
  NoDup l -> ~ In a l -> NoDup (l ++ [a]).
Proof.
  induction 1 as [|x l Hx Hl IH]; cbn; intros Ha.
  - constructor; [intros [] | constructor].
  - constructor.
    + rewrite in_app_iff. intros [H | [-> | []]]; [now apply Hx | apply Ha; now left].
    + apply IH. intros H. apply Ha. now right.
Qed.

Lemma sget_key_in {V : Type} (d : sdict V) (k : string) :
  In k (map fst d) -> sget d k <> None.
Proof.
  intros H. apply in_map_iff in H as ([k' v] & <- & Hin).
  apply (dict_get_in String.eqb d k' k' v Hin). apply String.eqb_refl.
Qed.

Lemma sset_keys_NoDup {V : Type} (d : sdict V) (k : string) (v : V) :
  NoDup (map fst d) -> NoDup (map fst (sset d k v)).
Proof.
  intros Hd. destruct (sget d k) eqn:E.
  - unfold sset. rewrite (dict_set_keys_present String.eqb); [exact Hd|].
    unfold dict_contains. unfold sget in E. now rewrite E.
  - unfold sset. rewrite (dict_set_fresh String.eqb _ _ _ E), map_app. cbn.
    apply NoDup_snoc; [exact Hd|]. intros Hin. now apply sget_key_in in Hin.
Qed.

Section ConvertedEngine.
Import Converter.

Lemma convert_sheet_keeps (soa_engine engine' : SOARulesEngine) (sheet : Sheet) :
  _convert_sheet soa_engine sheet = Returned engine' -> kept soa_engine -> kept engine'.
Proof.
  unfold _convert_sheet. destruct (sh_tmaxfrac sheet) as [info|]; [|now intros [= <-]].
  cbv zeta. unfold _create_device_rules.
  destruct (create_parameters (info_parameters info) []) as [ps|] eqn:Eps; cbn [bind];
    [|discriminate].
  intros [= <-] (Hcfg & Hnd & Hall). split; [exact Hcfg|]. cbn [devices add_device]. split.
  - now apply sset_keys_NoDup.
  - apply sset_Forall; [exact Hall|]. cbn [fst snd]. split; [apply device_key_cases|].
    split; [|reflexivity]. apply names_are_strings_of_names. cbn [parameters].
    now apply (create_parameters_names _ _ _ Eps).
Qed.

Lemma convert_sheets_keeps (soa_sheets : list Sheet) :
  forall soa_engine conversion_log,
    kept soa_engine ->
    kept (fst (convert_sheets soa_sheets soa_engine conversion_log)) /\
    List.length (snd (convert_sheets soa_sheets soa_engine conversion_log)) =
      (List.length conversion_log + List.length soa_sheets)%nat.
Proof.
  induction soa_sheets as [|sheet rest IH]; intros e log He; cbn [convert_sheets].
  - cbn. split; [exact He | lia].
  - destruct (_convert_sheet e sheet) as [e'|exn] eqn:E.
    + destruct (IH e' (log ++ [Converted (sh_name sheet)])
                  (convert_sheet_keeps _ _ _ E He)) as [Hk Hl].
      split; [exact Hk|]. rewrite Hl, length_app. cbn. lia.
    + destruct (IH e (log ++ [Failed (sh_name sheet) exn]) He) as [Hk Hl].
      split; [exact Hk|]. rewrite Hl, length_app. cbn. lia.
Qed.

Lemma convert_all_sheets_keeps (sheets : list Sheet) :
  kept (fst (convert_all_sheets sheets)).
Proof.
  apply convert_sheets_keeps. split; [reflexivity|]. split; constructor.
Qed.

(** X24: the registry [convert_all_sheets] builds.  Whatever the workbook
    holds, the call leaves the configuration of a new engine, logs one entry
    for each sheet whose name contains SOA, and registers devices only
    under the seven keys the classification can produce, each at most once:
    the registry never has more than seven devices, however many sheets are
    converted. *)
Theorem convert_all_sheets_registry (sheets : list Sheet) :
  global_config (fst (convert_all_sheets sheets)) = global_config SOARulesEngine_init /\
  List.length (snd (convert_all_sheets sheets)) =
    List.length (filter (fun sheet => str_contains "SOA" (sh_name sheet)) sheets) /\
  NoDup (map fst (devices (fst (convert_all_sheets sheets)))) /\
  incl (map fst (devices (fst (convert_all_sheets sheets)))) device_keys /\
  (List.length (devices (fst (convert_all_sheets sheets))) <= 7)%nat.
Proof.
  destruct (convert_all_sheets_keeps sheets) as (Hcfg & Hnd & Hall).
  assert (Hincl : incl (map fst (devices (fst (convert_all_sheets sheets)))) device_keys).
  { intros k Hk. apply in_map_iff in Hk as (kv & <- & Hin).
    rewrite Forall_forall in Hall. now apply Hall. }
  split; [exact Hcfg|]. split.
  - unfold convert_all_sheets. cbv zeta.
    now destruct (convert_sheets_keeps
                    (filter (fun sheet => str_contains "SOA" (sh_name sheet)) sheets)
                    SOARulesEngine_init [])
      as [_ ->]; [split; [reflexivity|]; split; constructor|].
  - split; [exact Hnd|]. split; [exact Hincl|].
    rewrite <- (length_map fst). apply (NoDup_incl_length Hnd Hincl).
Qed.

Variable py_repr : pyobj -> string.
Variable float_of_str : string -> option float.


End ConvertedEngine.


Lemma validate_transient_profile_is_total_and_bounded_witness :
  exists vs,
    Transient.validate_transient_profile demo_float_of_str vhigh_ds_on two_excursions =
      Returned vs /\
    (List.length vs <=
     List.length two_excursions * List.length (Transient.transient_constraints vhigh_ds_on))%nat.
Proof.
  destruct (validate_transient_profile_is_total_and_bounded demo_float_of_str
              vhigh_ds_on two_excursions) as (vs & Hvs & Hlen & _).
  exists vs. split; [exact Hvs | exact Hlen].
Defined.

Lemma convert_all_sheets_registry_witness :
  List.length (snd (Converter.convert_all_sheets workbook)) = 3%nat /\
  (List.length (devices (fst (Converter.convert_all_sheets workbook))) <= 7)%nat.
Proof.
  destruct (convert_all_sheets_registry workbook) as (_ & Hlog & _ & _ & Hlen).
  split; [exact Hlog | exact Hlen].
Defined.
